(* ===== verification/_CoqProject ===== *)
-Q . S2P
Prelude.v
PyExc.v
Strftime.v
Os.v
Tools.v
Regex.v
LinuxTools.v
Config.v
ProcessCheck.v
Transfer.v
Argparse.v
Main.v
Pipeline.v
Runs.v
Signals.v
Scenarios.v
