(* ===== verification/Prelude.v ===== *)
(** * Verification of [src/pro.py]: the process monitor and encrypted transfer script

    ** The program

    [src/pro.py] is one Python script.  [main] (lines 128-147) parses one
    flag, [-s/--silent], prints a banner, and asks [check_process_running]
    (lines 23-44) whether [PROGRAM_TO_CHECK] runs, using [pgrep -x].  If it
    does not, [execute_transfer_logic] (lines 46-125) checks that
    [FILE_TO_TRANSFER] exists, packs it into the encrypted archive
    [ARCHIVE_FILENAME] with [zip -e -P], copies it with
    [scp -i KEY -o BatchMode=yes] to [USER@HOST:PATH/backup_<timestamp>.zip],
    and removes the local archive.  Every step logs through [log_message]
    (lines 18-21) unless silent.  The configuration is eight constants
    (lines 7-15).

    ** How the development models it

    A Python statement is a computation of the state-and-exception monad
    [ST World exc] (this file), called [PyM]: it runs on the machine and
    either returns or raises, keeping the effects made before the raise.
    - [Prelude.v]: the monad, its laws, the [preserves] combinators, and
      string lemmas.
    - [PyExc.v]: the built-in exception classes the script meets, their
      MRO, [isinstance], and [try_except] with first-match dispatch of the
      [except] clauses.  [subclass_spec] shows that the fuelled MRO walk
      decides [issubclass], the reflexive-transitive closure of the base
      relation [is_subclass].
    - [Strftime.v]: [strftime] for [%Y %m %d %H %M %S] (glibc: [%Y]
      unpadded, the rest two digits), the injectivity and shape of the
      remote-name timestamp, and [zpad_printf]: the digit-by-digit padding
      equals printf's [%0wd] ([printf_zpad]), zeros before the numeral.
    - [Os.v]: the machine [System] (processes, local files, programs on
      PATH, remote files, clock, host name, faults) and the console, the
      [World]; [print], [os.path.exists], [os.remove], [datetime.now] and
      [os.uname].
    - [Tools.v]: [subprocess.run] (PATH lookup, [FileNotFoundError],
      [PermissionError], [CalledProcessError], output to the console unless
      sent to [DEVNULL], [KeyboardInterrupt] when Ctrl-C stops the program),
      the interface [ToolSuite] of the three programs, their contract
      [ToolSuiteLaws], the contract [InterruptLaws] of a stopped program and
      the assumption [Uninterrupted] (no Ctrl-C); [LinuxTools.v] implements
      the contracts as procps-ng, Info-ZIP and OpenSSH behave and proves
      them.
    - [Regex.v]: the pattern of [pgrep -x], a POSIX extended regular
      expression: glibc's [regcomp] of ["^(" ++ PATTERN ++ ")$"] as the
      fuelled parser [ere_parse] into the syntax [re], and [regexec] as the
      Brzozowski-derivative matcher [matches]; [LinuxTools.procps_pgrep]
      uses both.
    - [Config.v]: the constants as the record [Config], the shipped values
      [pro_config], [log_message].
    - [ProcessCheck.v], [Transfer.v], [Argparse.v], [Main.v]: the script's
      functions, one definition per function or [try] block, in the order
      the source composes them, each followed by its theorems;
      [run_script] is the interpreter around [main] (exit status,
      traceback).
    - [Pipeline.v]: an abstract specification, [pipeline], of what a run
      does to the machine and which outcome it has (spec section 9), and
      the refinement theorems that the script implements it.
    - [Runs.v]: repeated runs under a scheduler as the step relation
      [env_step] (an environment change that keeps the remote files) and
      the progress of retries.
    - [Signals.v]: Ctrl-C while a program runs; [with_sigint ts p] is the
      programs [ts] with Ctrl-C arriving while [p] runs; the schedules of
      runs, complete or cut short, as the step relation [runs_int].
    The pipeline's theorems are proved against [ToolSuiteLaws] for any
    [Config] meeting [config_wf]; those outside [Signals.v] that depend on
    it assume [Uninterrupted] as well, while the refinement theorems hold
    for any implementation, Ctrl-C included.  [Scenarios.v] instantiates
    them with [pro_config] and [linux_tools].

    ** What is proved

    - [ProcessCheck.v], [Main.v]: the check never raises and answers
      what [pgrep] answers; the gate follows it (spec 4.1, 4.2).
    - [Transfer.v]: every outcome of [execute_transfer_logic] on the
      machine; the local archive is removed only after the remote host
      holds it (spec 3); success, scp failure, missing file and zip failure
      (spec 8, scenarios B-D); a failing [scp] may leave a partial copy
      under the final remote name while the run reports the archive kept;
      only the archive changes locally and no remote file is lost; a stale
      archive's entries are shipped; the scp target of line 94 reads back
      as the configured user, host and path ([remote_target_roundtrip]).
    - [Main.v]: which exceptions escape, the exit status, what a
      silent run can print (a traceback: a divergence from spec 7-8), the
      banner of a run that is not silent; the console only grows
      ([preserves out_le]).
    - [Regex.v], [LinuxTools.v]: the matcher decides the inductive
      language [in_re] ([matches_spec]); a simple pattern (ordinary characters and
      dots) reads as the word it spells ([ere_parse_simple]), so [pgrep -x]
      selects the 15-character [comm]s that fit it, a dot matching any
      character ([procps_pgrep_simple]); [c++] selects the non-empty runs of
      [c] and never [c++] itself ([procps_pgrep_plus_plus]); an ordinary
      name longer than 15 characters is never seen, a 15-character one sees
      longer names.  The parser was compared with glibc's
      [regcomp]/[regexec] on 2046 patterns and 781 names: they agree.
    - [Tools.v], [Strftime.v], [Argparse.v]: OpenSSH's parsing of a
      target, archive entry update, timestamp injectivity and shape, the
      flag's spellings.
      [Argparse.v]'s [parse_args] was compared with CPython's on 1273
      command lines (result, help text and error messages agree).
    - [Pipeline.v]: [gate_refines] (for any implementation of the
      programs) and [run_script_refines]: the machine a run leaves and its
      exit status are those of [pipeline]; only a crash exits non-zero.
    - [Runs.v]: [retry_ships_current]: once the machine is
      [transfer_ready], the next run ships an archive with exactly one
      entry for the file, its current content, whatever failed runs left
      behind.
    - [Signals.v]: a Ctrl-C while a program the run starts is running
      ends the run with status 130 and a traceback (also under [-s]) and
      never removes the local archive ([run_script_sigint]); Ctrl-C changes
      a run only by cutting it short ([run_script_sigint_cuts]); by rule
      induction over schedules of complete and interrupted runs, the
      remote host holds nothing the script wrote but archives of the file
      encrypted with the password and partial copies under
      [backup_<timestamp>.zip] names, left by an [scp] that failed part-way
      or was stopped ([runs_int_remote_invariant]): a divergence
      from spec section 3.
    - [Argparse.v], [Main.v]: the help text is [HelpFormatter]'s layout
      ([help_layout]) and [-h] prints it and exits 0 even with [-s]
      ([run_script_help]).
    - [Scenarios.v]: spec 8's scenarios A-D and the findings' runs,
      evaluated on concrete machines, and a witness for each theorem.

    ** Bounds and fuel

    The MRO walk of [PyExc.mro] is fuelled: the longest chain of base
    classes, [CalledProcessError] to [BaseException], has three steps, so
    [mro_depth = 4] is enough, and [mro_fuel_stable] shows that any fuel of
    at least [mro_depth] gives the same walk, which ends at
    [BaseException].  The pattern parser [Regex.ere_parse] is fuelled with
    four steps per character of the wrapped pattern: reading a character
    takes two, a group or a branch one more each, and [ere_parse_simple]
    shows the fuel is enough for every simple pattern (the differential
    test found no pattern of up to five characters that runs out).  Every
    other definition is structural.
    Datetimes are integers checked by [datetime_valid] (years 1-9999, as
    [datetime.MINYEAR]/[MAXYEAR]).

    ** Not modelled

    Bracket expressions, intervals, backslash escapes and inner anchors in
    [pgrep]'s pattern ([ere_parse] rejects them, so the model's [pgrep]
    exits 2 on them; the script's shipped pattern [xxxx] is ordinary), the
    ZipCrypto cipher (an entry records its password), [known_hosts] as a
    set of its own (a host [scp] can connect to under [BatchMode=yes] is
    reachable and has its key there: [sys_reachable] stands for both), time passing between the two [datetime.now()] calls (both
    read the machine's one clock value: the spec states nothing about the
    two readings, and modelling the clock as moving would make every
    theorem hold only up to the clock), a Ctrl-C between two Python
    statements rather than during a program (the script spends its time in
    the programs; the effect is the same [KeyboardInterrupt] at points of
    the script's own code), console write errors and programs that never
    exit (the console is an append-only list; every program run
    terminates), the stack frames of a traceback (only its first and last
    lines are modelled: the frames inside [subprocess.py] depend on the
    Python installation), argparse beyond [store_true] flags, and the word
    wrapping of help strings longer than the help column allows (the
    script's are shorter). *)

From stdpp Require Import base strings gmap list.
From Stdlib Require Import ZArith Lia.

(** ** Results and the state-and-exception monad

    A Python statement runs against a state and either finishes normally
    with a value or raises an exception; the state changes made before the
    exception are kept.  [ST S E A] is exactly that. *)

Inductive res (E A : Type) : Type :=
  | Norm (a : A)
  | Exn (e : E).
Arguments Norm {E A} a.
Arguments Exn {E A} e.

Definition ST (S E A : Type) : Type := S -> S * res E A.

Section Monad.
Context {S E : Type}.

Definition st_ret {A} (a : A) : ST S E A := fun s => (s, Norm a).

Definition st_bind {A B} (c : ST S E A) (k : A -> ST S E B) : ST S E B :=
  fun s =>
    match c s with
    | (s', Norm a) => k a s'
    | (s', Exn e) => (s', Exn e)
    end.

Definition st_raise {A} (e : E) : ST S E A := fun s => (s, Exn e).

Definition st_modify (f : S -> S) : ST S E unit := fun s => (f s, Norm tt).

Definition st_gets {A} (f : S -> A) : ST S E A := fun s => (s, Norm (f s)).

(** [try: c except ...]: the handler chooses, from the exception, whether
    it handles it; an exception it does not handle propagates unchanged. *)
Definition st_catch {A} (c : ST S E A) (h : E -> option (ST S E A)) : ST S E A :=
  fun s =>
    match c s with
    | (s', Norm a) => (s', Norm a)
    | (s', Exn e) =>
        match h e with
        | Some k => k s'
        | None => (s', Exn e)
        end
    end.
End Monad.

#[export] Instance st_mret {S E} : MRet (ST S E) := fun A a => st_ret a.
#[export] Instance st_mbind {S E} : MBind (ST S E) := fun A B k c => st_bind c k.

Declare Scope py_scope.
Delimit Scope py_scope with py.
Notation "'try:' c 'except' h" := (st_catch c h)
  (at level 10, c at level 100, h at level 200) : py_scope.

(** ** Monad laws and the running lemmas the proofs rewrite with *)

Section MonadLaws.
Context {S E : Type}.

Lemma run_ret {A} (a : A) (s : S) : (mret a : ST S E A) s = (s, Norm a).
Proof. reflexivity. Qed.

Lemma run_bind {A B} (c : ST S E A) (k : A -> ST S E B) s :
  (c ≫= k) s = match c s with
               | (s', Norm a) => k a s'
               | (s', Exn e) => (s', Exn e)
               end.
Proof. reflexivity. Qed.

Lemma run_bind_norm {A B} (c : ST S E A) (k : A -> ST S E B) s s' a :
  c s = (s', Norm a) -> (c ≫= k) s = k a s'.
Proof. intros Hc. by rewrite run_bind, Hc. Qed.

Lemma run_bind_exn {A B} (c : ST S E A) (k : A -> ST S E B) s s' e :
  c s = (s', Exn e) -> (c ≫= k) s = (s', Exn e).
Proof. intros Hc. by rewrite run_bind, Hc. Qed.

Lemma bind_ret_l {A B} (a : A) (k : A -> ST S E B) s :
  (mret a ≫= k) s = k a s.
Proof. reflexivity. Qed.

Lemma bind_ret_r {A} (c : ST S E A) s : (c ≫= mret) s = c s.
Proof. rewrite run_bind. by destruct (c s) as [? []]. Qed.

Lemma bind_assoc {A B C} (c : ST S E A) (f : A -> ST S E B) (g : B -> ST S E C) s :
  ((c ≫= f) ≫= g) s = (c ≫= (fun a => f a ≫= g)) s.
Proof. rewrite !run_bind. by destruct (c s) as [? []]. Qed.

Lemma run_catch_norm {A} (c : ST S E A) h s s' a :
  c s = (s', Norm a) -> st_catch c h s = (s', Norm a).
Proof. unfold st_catch. by intros ->. Qed.

Lemma run_catch_exn {A} (c : ST S E A) h s s' e :
  c s = (s', Exn e) ->
  st_catch c h s = match h e with Some k => k s' | None => (s', Exn e) end.
Proof. unfold st_catch. by intros ->. Qed.
End MonadLaws.

(** ** Computations that keep a preorder on the state

    [preserves R c]: every run of [c] ends in a state [R]-above the one it
    started in, whether it returns or raises.  With [R] "the console only
    grows" this is how the development shows that output is never taken
    back; the lemmas compose along the program's structure. *)

Section Preserves.
Context {S E : Type} (R : relation S) `{!PreOrder R}.

Definition preserves {A} (c : ST S E A) : Prop := forall s, R s (c s).1.

Lemma preserves_ret {A} (a : A) : preserves (mret a).
Proof. intros s. simpl. reflexivity. Qed.

Lemma preserves_bind {A B} (c : ST S E A) (k : A -> ST S E B) :
  preserves c -> (forall a, preserves (k a)) -> preserves (c ≫= k).
Proof.
  intros Hc Hk s. rewrite run_bind. specialize (Hc s).
  destruct (c s) as [s' [a|e]]; simpl in *; [| done]. by etrans; [| apply Hk].
Qed.

Lemma preserves_raise {A} (e : E) : preserves (st_raise (A:=A) e).
Proof. intros s. simpl. reflexivity. Qed.

Lemma preserves_gets {A} (f : S -> A) : preserves (st_gets f).
Proof. intros s. simpl. reflexivity. Qed.

Lemma preserves_modify (f : S -> S) : (forall s, R s (f s)) -> preserves (st_modify f).
Proof. done. Qed.

Lemma preserves_catch {A} (c : ST S E A) h :
  preserves c -> (forall e k, h e = Some k -> preserves k) -> preserves (st_catch c h).
Proof.
  intros Hc Hh s. unfold st_catch. specialize (Hc s).
  destruct (c s) as [s' [a|e]]; [done |].
  destruct (h e) as [k|] eqn:E'; [| done]. by etrans; [| apply (Hh e k E')].
Qed.

Lemma preserves_if {A} (b : bool) (c1 c2 : ST S E A) :
  preserves c1 -> preserves c2 -> preserves (if b then c1 else c2).
Proof. by destruct b. Qed.
End Preserves.

Create HintDb preserve.
#[export] Hint Resolve preserves_ret preserves_bind preserves_raise preserves_gets
  preserves_if : preserve.
#[export] Hint Extern 1 (PreOrder _) => typeclasses eauto : preserve.
#[export] Hint Extern 1 (Reflexive _) => typeclasses eauto : preserve.
#[export] Hint Extern 1 (Transitive _) => typeclasses eauto : preserve.

Create Rewrite HintDb pyrw.
Create Rewrite HintDb strw.
#[export] Hint Rewrite @run_ret @bind_ret_l : pyrw.

(** [run_norm H] and [run_exn H] step a bind or a [try] whose first statement
    has the outcome recorded in [H]. *)
Ltac run_norm H :=
  first [ rewrite (run_bind_norm _ _ _ _ _ H)
        | rewrite (run_catch_norm _ _ _ _ _ H) ].
Ltac run_exn H :=
  first [ rewrite (run_bind_exn _ _ _ _ _ H)
        | rewrite (run_catch_exn _ _ _ _ _ H) ].

(** ** Strings *)

Local Open Scope string_scope.

(** stdpp makes [String.append] opaque to [simpl]; these two equations are
    what the string proofs compute with. *)
Lemma string_app_nil_l (s : string) : "" +:+ s = s.
Proof. reflexivity. Qed.

Lemma string_app_cons (x : Ascii.ascii) (a s : string) :
  String x a +:+ s = String x (a +:+ s).
Proof. reflexivity. Qed.

#[export] Hint Rewrite string_app_nil_l string_app_cons : strw.

Lemma string_app_assoc (a b c : string) : a +:+ (b +:+ c) = (a +:+ b) +:+ c.
Proof. induction a as [|x a IH]; rewrite ?string_app_cons; [done | by f_equal]. Qed.

Lemma string_length_app (a b : string) :
  String.length (a +:+ b) = String.length a + String.length b.
Proof. induction a as [|x a IH]; rewrite ?string_app_cons; simpl; [done | by f_equal]. Qed.

Lemma string_app_nil_r (a : string) : a +:+ "" = a.
Proof. induction a as [|x a IH]; rewrite ?string_app_cons; [done | by f_equal]. Qed.

(** Cancelling a common suffix: two strings that end with the same text are
    equal when what comes before is. *)
Lemma string_app_inv_r (a b s : string) : a +:+ s = b +:+ s -> a = b.
Proof.
  revert b. induction a as [|x a IH]; intros [|y b] H;
    rewrite ?string_app_nil_l, ?string_app_cons in H; try done;
    try (apply (f_equal String.length) in H; simpl in H;
         rewrite string_length_app in H; lia).
  injection H as -> H. f_equal. by apply IH.
Qed.

Lemma string_app_inv_l (s a b : string) : s +:+ a = s +:+ b -> a = b.
Proof. induction s as [|x s IH]; rewrite ?string_app_cons; [done | intros H; injection H; auto]. Qed.

#[export] Hint Rewrite string_length_app string_app_nil_r : strw.

(** Splitting a concatenation where one side's lengths are known. *)
Lemma string_app_inj_prefix (a b s t : string) :
  String.length a = String.length b -> a +:+ s = b +:+ t -> a = b /\ s = t.
Proof.
  revert b. induction a as [|x a IH]; intros [|y b] Hl H; simpl in Hl; try lia.
  - done.
  - rewrite !string_app_cons in H. injection H as -> H.
    destruct (IH b) as [-> ->]; auto.
Qed.

Lemma string_app_inj_suffix (a b s t : string) :
  String.length s = String.length t -> a +:+ s = b +:+ t -> a = b /\ s = t.
Proof.
  intros Hl H. apply string_app_inj_prefix; [| done].
  apply (f_equal String.length) in H. rewrite !string_length_app in H. lia.
Qed.

(** Unfold the monad's plumbing so that a statement's run becomes a term of
    matches on the state. *)
Ltac py_unfold :=
  unfold mbind, mret, st_mbind, st_mret, st_bind, st_ret, st_catch, st_gets,
    st_modify, st_raise;
  cbv beta.

Lemma string_app_neq_nil_r (a b : string) : b <> "" -> a +:+ b <> "".
Proof. destruct a; [done |]. rewrite string_app_cons. done. Qed.

Lemma substring_length_le (n m : nat) (s : string) :
  (String.length (String.substring n m s) <= m)%nat.
Proof.
  revert n m. induction s as [|c s IH]; intros [|n] [|m]; cbn; try lia; try apply IH.
  specialize (IH 0 m). lia.
Qed.

Lemma list_ascii_of_string_inj (a b : string) :
  String.list_ascii_of_string a = String.list_ascii_of_string b -> a = b.
Proof.
  intros H. by rewrite <- (String.string_of_list_ascii_of_string a), H,
    String.string_of_list_ascii_of_string.
Qed.

Lemma existsb_ext {A} (f g : A -> bool) (l : list A) :
  (forall x, f x = g x) -> existsb f l = existsb g l.
Proof. intros H. induction l as [|x l IH]; cbn; [done |]. by rewrite H, IH. Qed.
