(* ===== verification/PyExc.v ===== *)
(** * Python exceptions and [try ... except] dispatch

    The script's error handling is a chain of [except] clauses
    ([src/pro.py] lines 39-44, 85-90 and 119-125).  Which clause runs is
    decided by Python's class hierarchy: [except C] catches an exception
    whose class has [C] in its method resolution order.  This file holds the
    part of the hierarchy the script meets, the dispatch of a clause list,
    and the exceptions the runtime raises with their [str()] text. *)

From stdpp Require Import base strings list sets finite pretty.
From Stdlib Require Import ZArith.
From S2P Require Import Prelude.

Inductive exc_class :=
  | BaseException
  | SystemExit
  | KeyboardInterrupt
  | Exception
  | OSError
  | FileNotFoundError
  | PermissionError
  | SubprocessError
  | CalledProcessError
  | LookupError
  | IndexError.

#[export] Instance exc_class_eq_dec : EqDecision exc_class.
Proof. solve_decision. Defined.

#[export] Program Instance exc_class_finite : Finite exc_class :=
  {| enum := [BaseException; SystemExit; KeyboardInterrupt; Exception; OSError;
              FileNotFoundError; PermissionError; SubprocessError; CalledProcessError;
              LookupError; IndexError] |}.
Next Obligation. apply (bool_decide_unpack (NoDup _)). by vm_compute. Qed.
Next Obligation. intros []; set_solver. Qed.

(** The direct base class, as CPython's built-in classes declare it. *)
Definition parent (c : exc_class) : option exc_class :=
  match c with
  | BaseException => None
  | SystemExit | KeyboardInterrupt | Exception => Some BaseException
  | OSError | SubprocessError | LookupError => Some Exception
  | FileNotFoundError | PermissionError => Some OSError
  | CalledProcessError => Some SubprocessError
  | IndexError => Some LookupError
  end.

(** The method resolution order, walked with fuel; [mro_depth] is enough
    fuel for every class ([mro_fuel_stable] below). *)
Fixpoint mro_fuel (fuel : nat) (c : exc_class) : list exc_class :=
  c :: match fuel, parent c with
       | S n, Some p => mro_fuel n p
       | _, _ => []
       end.

Definition mro_depth : nat := 4.

Definition mro (c : exc_class) : list exc_class := mro_fuel mro_depth c.

(** An exception value: its class and the text [str(e)] prints. *)
Record exc := mkExc { exc_cls : exc_class; exc_str : string }.

Definition subclass (c d : exc_class) : bool := bool_decide (d ∈ mro c).

Definition isinstance (e : exc) (c : exc_class) : bool := subclass (exc_cls e) c.

(** Python's [issubclass] as a relation: the reflexive-transitive closure
    of the direct-base relation, the reference the fuelled walk is
    checked against. *)
Inductive is_subclass : exc_class -> exc_class -> Prop :=
  | is_subclass_refl c : is_subclass c c
  | is_subclass_parent c p d : parent c = Some p -> is_subclass p d -> is_subclass c d.

(** A clause list [except C1: h1 ... except Cn: hn]: the first clause whose
    class matches runs, with the exception bound ([as e]); none matching
    means the exception propagates. *)
Section Dispatch.
Context {S A : Type}.

Fixpoint except_dispatch (hs : list (exc_class * (exc -> ST S exc A))) (e : exc)
    : option (ST S exc A) :=
  match hs with
  | [] => None
  | (c, h) :: hs' => if isinstance e c then Some (h e) else except_dispatch hs' e
  end.

Definition try_except (body : ST S exc A) (hs : list (exc_class * (exc -> ST S exc A)))
    : ST S exc A :=
  st_catch body (except_dispatch hs).
End Dispatch.

(** Every handler of a clause list keeps the preorder [R]. *)
Fixpoint handlers_preserve {S A} (R : relation S) (hs : list (exc_class * (exc -> ST S exc A)))
    : Prop :=
  match hs with
  | [] => True
  | (_, h) :: hs' => (forall e, preserves R (h e)) /\ handlers_preserve R hs'
  end.

Lemma preserves_try_except {S A} (R : relation S) `{!PreOrder R}
    (body : ST S exc A) hs :
  preserves R body -> handlers_preserve R hs -> preserves R (try_except body hs).
Proof.
  intros Hb Hhs. apply preserves_catch; [done | done |].
  induction hs as [|[c h] hs IH]; intros e k; [done |]. destruct Hhs as [Hh Hhs]. cbn.
  destruct (isinstance e c); [intros [= <-]; apply Hh | by apply IH].
Qed.

(** [preserve_solve] proves [preserves R c] along the structure of [c]. *)
Ltac preserve_solve :=
  repeat first
    [ progress intros
    | solve [eauto with preserve]
    | apply preserves_try_except
    | apply preserves_bind
    | apply preserves_if
    | match goal with
      | |- handlers_preserve _ _ => cbn [handlers_preserve]
      | |- PreOrder _ => apply _
      | |- Transitive _ => apply _
      | |- Reflexive _ => apply _
      end
    | split ].

(** ** The hierarchy *)

(** The walk up the exception hierarchy terminates within mro_depth steps: with any
    fuel of at least mro_depth it gives the same method resolution order, which ends at
    BaseException. *)
Theorem mro_fuel_stable n c :
  (mro_depth <= n)%nat -> mro_fuel n c = mro c /\ last (mro c) = Some BaseException.
Proof.
  intros Hn. unfold mro_depth in Hn.
  do 4 (destruct n as [|n]; [lia |]). by destruct c.
Qed.

Lemma subclass_refl c : subclass c c = true.
Proof. destruct c; reflexivity. Qed.

Lemma subclass_trans a b c :
  subclass a b = true -> subclass b c = true -> subclass a c = true.
Proof. destruct a, b; try discriminate; destruct c; by vm_compute. Qed.

(** [except Exception] catches every class but the three that derive from
    [BaseException] directly. *)
Lemma subclass_Exception c :
  subclass c Exception = true <-> c ≠ BaseException /\ c ≠ SystemExit /\ c ≠ KeyboardInterrupt.
Proof. destruct c; vm_compute; intuition congruence. Qed.

(** The classes the script's [except] clauses name all derive from
    [Exception]. *)
Lemma isinstance_Exception_handled e :
  isinstance e Exception || isinstance e FileNotFoundError || isinstance e CalledProcessError
  = isinstance e Exception.
Proof. destruct e as [[] ?]; reflexivity. Qed.

Lemma subclass_parent c p d :
  parent c = Some p -> subclass p d = true -> subclass c d = true.
Proof. destruct c, p; try discriminate; intros _; destruct d; by vm_compute. Qed.

(** The fuel-bounded method-resolution-order walk decides Python's issubclass exactly:
    subclass c d holds if and only if d is reached from c by following base classes (the
    reflexive-transitive closure of the direct-base relation), so every except clause
    selects the exceptions Python selects. *)
Theorem subclass_spec c d : subclass c d = true <-> is_subclass c d.
Proof.
  split.
  - destruct c, d; vm_compute; try discriminate; intros _;
      repeat first [apply is_subclass_refl | eapply is_subclass_parent; [reflexivity |]].
  - induction 1 as [c|c p d Hp _ IH]; [apply subclass_refl | by eapply subclass_parent].
Qed.

Lemma isinstance_trans e c d :
  isinstance e c = true -> subclass c d = true -> isinstance e d = true.
Proof. apply subclass_trans. Qed.

(** [exc_simpl] decides [isinstance] on a known exception and class. *)
Ltac exc_simpl :=
  repeat match goal with
    | |- context [isinstance ?e ?c] =>
        let b := eval vm_compute in (isinstance e c) in
        lazymatch b with
        | true => change (isinstance e c) with true
        | false => change (isinstance e c) with false
        end
    end;
  cbv beta iota.

(** ** The exceptions the runtime raises *)

(** [repr] of a Python string without quotes or backslashes in it, and of a
    list of such strings. *)
Definition py_repr_str (s : string) : string := "'" +:+ s +:+ "'".

Fixpoint py_repr_items (l : list string) : string :=
  match l with
  | [] => ""
  | [x] => py_repr_str x
  | x :: l' => py_repr_str x +:+ ", " +:+ py_repr_items l'
  end.

Definition py_repr_list (l : list string) : string := "[" +:+ py_repr_items l +:+ "]".

(** [OSError] subclasses print as [[Errno n] strerror: 'filename']. *)
Definition file_not_found (path : string) : exc :=
  mkExc FileNotFoundError ("[Errno 2] No such file or directory: " +:+ py_repr_str path).

Definition permission_denied (path : string) : exc :=
  mkExc PermissionError ("[Errno 13] Permission denied: " +:+ py_repr_str path).

(** Ctrl-C: [KeyboardInterrupt()], whose [str()] is empty. *)
Definition keyboard_interrupt : exc := mkExc KeyboardInterrupt "".

(** [subprocess.CalledProcessError(returncode, cmd)] *)
Definition called_process_error (cmd : list string) (rc : Z) : exc :=
  mkExc CalledProcessError
    ("Command " +:+ py_repr_str (py_repr_list cmd) +:+ " returned non-zero exit status "
     +:+ pretty rc +:+ ".").

(** [py_simp] runs a statement as far as the known facts allow: it unfolds
    the monad and [try_except], rewrites with the [pyrw] equations of the
    components, picks the [except] clause of a known exception. *)
Ltac py_simp :=
  repeat progress (py_unfold; unfold try_except; autorewrite with pyrw;
                   cbn [andb orb negb except_dispatch fst snd]; exc_simpl).
