(* ===== verification/Strftime.v ===== *)
(** * [datetime.now().strftime(...)]: timestamps in the log and in file names

    The script formats the current time twice: [%Y%m%d_%H%M%S] for the
    remote file name ([src/pro.py] line 59) and [%Y-%m-%d %H:%M:%S] for the
    banner (line 137).  CPython's [datetime.strftime] hands the format to the
    C library; on Linux (glibc) [%Y] prints the year in decimal without
    padding and the other five directives print two zero-padded digits.
    The datetime is kept at second resolution: the formats never print the
    microseconds. *)

From stdpp Require Import base strings list pretty.
From Stdlib Require Import ZArith Lia Ascii.
From S2P Require Import Prelude.

Local Open Scope string_scope.
Local Open Scope Z_scope.

Record datetime := mkDatetime {
  dt_year : Z; dt_month : Z; dt_day : Z;
  dt_hour : Z; dt_minute : Z; dt_second : Z }.

#[export] Instance datetime_eq_dec : EqDecision datetime.
Proof. solve_decision. Defined.

Definition is_leap (y : Z) : bool :=
  ((y mod 4 =? 0) && negb (y mod 100 =? 0)) || (y mod 400 =? 0).

Definition days_in_month (y m : Z) : Z :=
  if m =? 2 then (if is_leap y then 29 else 28)
  else if (m =? 4) || (m =? 6) || (m =? 9) || (m =? 11) then 30 else 31.

(** The range [datetime.datetime] accepts: [MINYEAR = 1], [MAXYEAR = 9999]. *)
Definition datetime_valid (d : datetime) : bool :=
  (1 <=? dt_year d) && (dt_year d <=? 9999)
  && (1 <=? dt_month d) && (dt_month d <=? 12)
  && (1 <=? dt_day d) && (dt_day d <=? days_in_month (dt_year d) (dt_month d))
  && (0 <=? dt_hour d) && (dt_hour d <=? 23)
  && (0 <=? dt_minute d) && (dt_minute d <=? 59)
  && (0 <=? dt_second d) && (dt_second d <=? 59).

(** [w] decimal digits of [n], most significant first ([%02d]). *)
Fixpoint zpad (w : nat) (n : Z) : string :=
  match w with
  | O => ""
  | S w' => String (pretty_N_char (Z.to_N (n / 10 ^ Z.of_nat w')))
                   (zpad w' (n mod 10 ^ Z.of_nat w'))
  end.

(** One [%] directive. *)
Definition strftime_directive (k : Ascii.ascii) (d : datetime) : string :=
  if Ascii.eqb k "Y"%char then pretty (dt_year d)
  else if Ascii.eqb k "m"%char then zpad 2 (dt_month d)
  else if Ascii.eqb k "d"%char then zpad 2 (dt_day d)
  else if Ascii.eqb k "H"%char then zpad 2 (dt_hour d)
  else if Ascii.eqb k "M"%char then zpad 2 (dt_minute d)
  else if Ascii.eqb k "S"%char then zpad 2 (dt_second d)
  else if Ascii.eqb k "%"%char then "%"
  else String "%"%char (String k "").

Fixpoint strftime (fmt : string) (d : datetime) : string :=
  match fmt with
  | EmptyString => ""
  | String c rest =>
      if Ascii.eqb c "%"%char then
        match rest with
        | EmptyString => "%"
        | String k rest' => strftime_directive k d +:+ strftime rest' d
        end
      else String c (strftime rest d)
  end.

Definition is_digit (c : Ascii.ascii) : bool :=
  bool_decide (48 <= Ascii.nat_of_ascii c <= 57)%nat.

Definition all_digits (s : string) : bool :=
  forallb is_digit (String.list_ascii_of_string s).

(** The reference the C library's [%02d] follows: the decimal numeral,
    left-padded with zeros to the width. *)
Fixpoint zeros (k : nat) : string :=
  match k with O => "" | S k' => String "0" (zeros k') end.

Definition printf_zpad (w : nat) (n : Z) : string :=
  zeros (w - String.length (pretty n)) +:+ pretty n.

(** ** Lemmas *)

Lemma strftime_compact d :
  strftime "%Y%m%d_%H%M%S" d =
  pretty (dt_year d) +:+ zpad 2 (dt_month d) +:+ zpad 2 (dt_day d) +:+ "_"
  +:+ zpad 2 (dt_hour d) +:+ zpad 2 (dt_minute d) +:+ zpad 2 (dt_second d).
Proof. reflexivity. Qed.

Lemma strftime_banner d :
  strftime "%Y-%m-%d %H:%M:%S" d =
  pretty (dt_year d) +:+ "-" +:+ zpad 2 (dt_month d) +:+ "-" +:+ zpad 2 (dt_day d)
  +:+ " " +:+ zpad 2 (dt_hour d) +:+ ":" +:+ zpad 2 (dt_minute d) +:+ ":"
  +:+ zpad 2 (dt_second d).
Proof. reflexivity. Qed.

Lemma zpad_length w n : String.length (zpad w n) = w.
Proof. revert n; induction w; intros n; simpl; auto. Qed.

Lemma pretty_N_char_digit x : is_digit (pretty_N_char x) = true.
Proof. unfold pretty_N_char. by repeat case_match. Qed.

Lemma zpad_all_digits w n : all_digits (zpad w n) = true.
Proof.
  revert n; induction w; intros n; [done |].
  unfold all_digits; simpl. rewrite pretty_N_char_digit. apply IHw.
Qed.

Lemma all_digits_app a b : all_digits (a +:+ b) = all_digits a && all_digits b.
Proof.
  induction a as [|c a IH]; [done |].
  rewrite string_app_cons. unfold all_digits in *; simpl. rewrite IH.
  by rewrite andb_assoc.
Qed.

(** The leading digit of an in-range number is a single digit. *)
Lemma zpad_lead_range w n :
  0 <= n < 10 ^ Z.of_nat (S w) -> 0 <= n / 10 ^ Z.of_nat w < 10.
Proof.
  intros Hn. rewrite Nat2Z.inj_succ, Z.pow_succ_r in Hn by lia.
  assert (0 < 10 ^ Z.of_nat w) by (apply Z.pow_pos_nonneg; lia).
  split; [apply Z.div_pos; lia | apply Z.div_lt_upper_bound; lia].
Qed.

Lemma zpad_inj w n m :
  0 <= n < 10 ^ Z.of_nat w -> 0 <= m < 10 ^ Z.of_nat w -> zpad w n = zpad w m -> n = m.
Proof.
  revert n m; induction w as [|w IH]; intros n m Hn Hm Heq.
  - simpl in *. lia.
  - simpl in Heq. injection Heq as Hc Ht.
    pose proof (zpad_lead_range w n Hn). pose proof (zpad_lead_range w m Hm).
    assert (0 < 10 ^ Z.of_nat w) by (apply Z.pow_pos_nonneg; lia).
    apply pretty_N_char_inj in Hc; [| lia | lia].
    apply IH in Ht; [| apply Z.mod_pos_bound; lia | apply Z.mod_pos_bound; lia].
    rewrite (Z.div_mod n (10 ^ Z.of_nat w)), (Z.div_mod m (10 ^ Z.of_nat w)) by lia.
    rewrite Ht. f_equal. f_equal. lia.
Qed.

Lemma days_in_month_le y m : days_in_month y m <= 31.
Proof. unfold days_in_month. repeat case_match; lia. Qed.

(** What [datetime_valid] guarantees of each field. *)
Lemma datetime_valid_ranges d :
  datetime_valid d = true ->
  1 <= dt_year d <= 9999 /\ 1 <= dt_month d <= 12 /\ 1 <= dt_day d <= 31 /\
  0 <= dt_hour d <= 23 /\ 0 <= dt_minute d <= 59 /\ 0 <= dt_second d <= 59.
Proof.
  unfold datetime_valid. rewrite !andb_true_iff, !Z.leb_le.
  pose proof (days_in_month_le (dt_year d) (dt_month d)). lia.
Qed.

Lemma zpad2_app_inj a b s t :
  0 <= a < 100 -> 0 <= b < 100 -> zpad 2 a +:+ s = zpad 2 b +:+ t -> a = b /\ s = t.
Proof.
  intros Ha Hb H. apply string_app_inj_prefix in H as [H ->]; [| by rewrite !zpad_length].
  split; [| done]. apply (zpad_inj 2); simpl; [lia | lia | done].
Qed.

(** Four-digit years print as four digits: [pretty] agrees with [zpad 4]. *)
Lemma pretty_year_4 y : 1000 <= y <= 9999 -> pretty y = zpad 4 y.
Proof.
  intros Hy. destruct y as [|p|p]; [lia | | lia].
  change (pretty (Z.pos p)) with (pretty (N.pos p)).
  unfold pretty, pretty_N. rewrite decide_False by done.
  assert (Hx : (1000 <= N.pos p <= 9999)%N) by lia.
  do 4 (rewrite pretty_N_go_step by
          first [lia | rewrite ?N.Div0.div_div; apply N.div_str_pos; lia]).
  rewrite !N.Div0.div_div, N.div_small, pretty_N_go_0 by lia. simpl.
  repeat f_equal; apply N2Z.inj;
    rewrite ?N2Z.inj_mod, ?N2Z.inj_div, ?Z2N.id; simpl; Z.to_euclidean_division_equations; lia.
Qed.

(** C25: Two valid datetimes with the same %Y%m%d_%H%M%S timestamp are equal: runs started
    in different seconds get different remote names (spec section 8). *)
Lemma strftime_compact_inj d1 d2 :
  datetime_valid d1 = true -> datetime_valid d2 = true ->
  strftime "%Y%m%d_%H%M%S" d1 = strftime "%Y%m%d_%H%M%S" d2 -> d1 = d2.
Proof.
  intros V1 V2 H. rewrite !strftime_compact in H.
  apply datetime_valid_ranges in V1, V2.
  apply string_app_inj_suffix in H as [Hy H];
    [| by autorewrite with strw; rewrite !zpad_length].
  apply (inj pretty) in Hy.
  apply zpad2_app_inj in H as [Hmo H]; [| lia..].
  apply zpad2_app_inj in H as [Hd H]; [| lia..].
  apply string_app_inv_l in H.
  apply zpad2_app_inj in H as [Hh H]; [| lia..].
  apply zpad2_app_inj in H as [Hmi H]; [| lia..].
  apply (zpad_inj 2) in H; [| simpl; lia..].
  destruct d1, d2; simpl in *; congruence.
Qed.

(** C26: For a year between 1000 and 9999 the %Y%m%d_%H%M%S timestamp is eight digits, an
    underscore and six digits; it is not the 14-digit timestamp spec section 8 describes. *)
Lemma strftime_compact_shape d :
  1000 <= dt_year d <= 9999 ->
  exists date time, strftime "%Y%m%d_%H%M%S" d = date +:+ "_" +:+ time /\
    String.length date = 8%nat /\ String.length time = 6%nat /\
    all_digits date = true /\ all_digits time = true.
Proof.
  intros Hy. rewrite strftime_compact, pretty_year_4 by done.
  eexists (zpad 4 _ +:+ zpad 2 _ +:+ zpad 2 _), (zpad 2 _ +:+ zpad 2 _ +:+ zpad 2 _).
  rewrite <- !string_app_assoc. split; [done |].
  autorewrite with strw. rewrite !all_digits_app, !zpad_length, !zpad_all_digits.
  done.
Qed.

Lemma all_digits_pretty_N_go x s : all_digits (pretty_N_go x s) = all_digits s.
Proof.
  revert s. induction (N.lt_wf_0 x) as [x _ IH]; intros s.
  destruct (decide (x = 0)%N) as [->|Hx]; [by rewrite pretty_N_go_0 |].
  rewrite pretty_N_go_step by lia. rewrite IH by (apply N.div_lt; lia).
  unfold all_digits; simpl. by rewrite pretty_N_char_digit.
Qed.

Lemma all_digits_pretty_N (x : N) : all_digits (pretty x) = true.
Proof.
  unfold pretty, pretty_N. case_decide; [done |]. by rewrite all_digits_pretty_N_go.
Qed.

(** ** Zero padding is [printf]'s *)

Lemma zeros_snoc k : zeros (S k) = zeros k +:+ "0".
Proof.
  induction k as [|k IH]; [done |].
  change (String "0" (zeros (S k)) = String "0" (zeros k) +:+ "0").
  by rewrite string_app_cons, <- IH.
Qed.

Lemma pretty_N_go_app x s : pretty_N_go x s = pretty_N_go x "" +:+ s.
Proof.
  revert s. induction (N.lt_wf_0 x) as [x _ IH]; intros s.
  destruct (decide (x = 0)%N) as [->|Hx]; [done |].
  assert (Hx' : (0 < x)%N) by lia.
  assert (Hlt : (x `div` 10 < x)%N) by (apply N.div_lt; lia).
  rewrite !(pretty_N_go_step x _ Hx').
  rewrite (IH _ Hlt (String _ s)), (IH _ Hlt (String _ "")).
  by rewrite <- string_app_assoc.
Qed.

Lemma mod_10_mul n P : 0 < P -> n mod (10 * P) = 10 * ((n / 10) mod P) + n mod 10.
Proof.
  intros HP. pose proof (Z.div_mod n 10 ltac:(lia)). pose proof (Z.mod_pos_bound n 10 ltac:(lia)).
  pose proof (Z.div_mod (n / 10) P ltac:(lia)). pose proof (Z.mod_pos_bound (n / 10) P HP).
  symmetry. apply (Z.mod_unique _ _ ((n / 10) / P)); [left; lia | lia].
Qed.

Lemma zpad_zero w : zpad w 0 = zeros w.
Proof. induction w as [|w IH]; [done |]. cbn [zpad]. by rewrite Zdiv_0_l, Zmod_0_l, IH. Qed.

Lemma zpad_snoc w n :
  0 <= n < 10 ^ Z.of_nat (S w) ->
  zpad (S w) n = zpad w (n / 10) +:+ String (pretty_N_char (Z.to_N (n mod 10))) "".
Proof.
  revert n. induction w as [|w IH]; intros n Hn.
  - cbn [zpad]. change (10 ^ Z.of_nat 0) with 1. change (10 ^ Z.of_nat 1) with 10 in Hn.
    rewrite Z.div_1_r, Z.mod_small by lia. done.
  - change (zpad (S (S w)) n) with
      (String (pretty_N_char (Z.to_N (n / 10 ^ Z.of_nat (S w)))) (zpad (S w) (n mod 10 ^ Z.of_nat (S w)))).
    rewrite IH by (apply Z.mod_pos_bound, Z.pow_pos_nonneg; lia).
    cbn [zpad]. rewrite string_app_cons.
    assert (H10 : 10 ^ Z.of_nat (S w) = 10 * 10 ^ Z.of_nat w)
      by (rewrite Nat2Z.inj_succ, Z.pow_succ_r; lia).
    assert (0 < 10 ^ Z.of_nat w) by (apply Z.pow_pos_nonneg; lia).
    pose proof (Z.mod_pos_bound n 10 ltac:(lia)).
    rewrite H10, mod_10_mul, <- Z.div_div by lia.
    rewrite (Z.mul_comm 10), Z.div_add_l, (Z.div_small (n mod 10)), Z.add_0_r by lia.
    rewrite Z.add_comm, Z_mod_plus_full, Z.mod_mod by lia. done.
Qed.

Lemma pretty_N_go_length x :
  (0 < x)%N ->
  String.length (pretty_N_go x "") = S (String.length (pretty_N_go (x `div` 10) "")).
Proof.
  intros Hx. rewrite pretty_N_go_step, pretty_N_go_app by done.
  rewrite string_length_app. simpl. lia.
Qed.

Lemma zpad_pretty_N_go w x s :
  (Z.of_N x < 10 ^ Z.of_nat w)%Z ->
  zpad w (Z.of_N x) +:+ s = zeros (w - String.length (pretty_N_go x "")) +:+ pretty_N_go x s.
Proof.
  revert x s. induction w as [|w IH]; intros x s Hx.
  - assert (x = 0%N) as -> by (simpl in Hx; lia). done.
  - destruct (decide (x = 0%N)) as [->|Hx0].
    { rewrite zpad_zero, pretty_N_go_0. by rewrite Nat.sub_0_r. }
    rewrite zpad_snoc by lia. rewrite <- string_app_assoc, string_app_cons, string_app_nil_l.
    replace (Z.of_N x / 10)%Z with (Z.of_N (x `div` 10)) by (rewrite N2Z.inj_div; done).
    replace (Z.to_N (Z.of_N x mod 10)) with (x `mod` 10)%N
      by (rewrite <- (N2Z.id (x `mod` 10)), N2Z.inj_mod; done).
    assert (Hlt : (Z.of_N (x `div` 10) < 10 ^ Z.of_nat w)%Z).
    { rewrite Nat2Z.inj_succ, Z.pow_succ_r in Hx by lia. rewrite N2Z.inj_div.
      apply Z.div_lt_upper_bound; lia. }
    rewrite IH by done. rewrite <- pretty_N_go_step by lia.
    rewrite (pretty_N_go_length x) by lia. done.
Qed.

(** The digit-by-digit zero padding strftime uses for %m, %d, %H, %M and %S equals
    printf's %0wd: the decimal numeral left-padded with zeros to w characters, for every
    number with at most w digits. *)
Theorem zpad_printf w n :
  (1 <= w)%nat -> 0 <= n < 10 ^ Z.of_nat w -> zpad w n = printf_zpad w n.
Proof.
  intros Hw Hn. unfold printf_zpad. destruct n as [|p|p]; [| | lia].
  - rewrite zpad_zero. change (pretty 0%Z) with "0". cbn [String.length].
    destruct w as [|w]; [lia |]. rewrite Nat.sub_succ, Nat.sub_0_r. apply zeros_snoc.
  - change (pretty (Z.pos p)) with (pretty_N_go (N.pos p) "").
    rewrite <- (string_app_nil_r (zpad w _)).
    change (Z.pos p) with (Z.of_N (N.pos p)). by rewrite zpad_pretty_N_go by lia.
Qed.
