(* ===== verification/Os.v ===== *)
(** * The host the script runs on, and the Python runtime calls it makes

    The script's state is not in its own variables but in the machine: the
    process table [pgrep] reads, the working directory holding [test.txt]
    and [moveme.zip], the programs on [PATH], the remote host [scp] writes
    to, the clock, and the console.  [World] collects them; the runtime
    calls of [src/pro.py] ([print], [os.path.exists], [os.remove],
    [datetime.now], [os.uname]) are operations of the monad [PyM] on it.

    External behaviour that cannot be derived from the script is a field
    of the world chosen by whoever runs a scenario: the zip fault
    ([w_zip_fault], e.g. a full disk) and the fault [os.remove] hits
    ([w_rm_fault], e.g. a permission error or the file vanishing). *)

From stdpp Require Import base strings gmap list sets pretty.
From Stdlib Require Import ZArith Ascii.
From S2P Require Import Prelude PyExc Strftime.

Local Open Scope string_scope.
Local Open Scope Z_scope.

(** ** Files: plain files and ZIP archives of named, possibly encrypted, entries *)

Inductive file :=
  | Plain (data : string)
  | ZipArchive (entries : list zip_entry)
with zip_entry :=
  | ZipEntry (name : string) (password : option string) (content : file).

Definition entry_name (e : zip_entry) : string := let 'ZipEntry n _ _ := e in n.

(** ** Console lines: what the script prints, and a helper tool writing to
    the script's own stdout/stderr (its output was not redirected) *)
Inductive console_line :=
  | Stdout (s : string)
  | Stderr (s : string)
  | ToolOutput (tool : string).

Inductive bin_status := BinExec | BinNoExec.

#[export] Instance bin_status_eq_dec : EqDecision bin_status.
Proof. solve_decision. Defined.

#[export] Instance console_line_eq_dec : EqDecision console_line.
Proof. solve_decision. Defined.

(** The machine, apart from the console. *)
Record System := mkSystem {
  sys_procs : list string;                        (** names of running processes *)
  sys_fs : gmap string file;                      (** local files, by path *)
  sys_bins : gmap string bin_status;              (** programs found on [PATH] *)
  sys_now : datetime;                             (** [datetime.now()] *)
  sys_host : string;                              (** [os.uname().nodename] *)
  sys_remote : gmap (string * string) file;       (** remote files, by (host, path) *)
  sys_remote_dirs : gset (string * string);       (** remote directories, with trailing '/' *)
  sys_reachable : gset string;                    (** hosts [ssh] can connect to: reachable, with
                                                      their key in [known_hosts] *)
  sys_authorized : gset (string * string * string); (** (host, user, key) accepted by sshd *)
  sys_zip_fault : option positive;                (** exit status of a failing [zip] *)
  sys_scp_fault : option string;                  (** a copy that stops (remote disk full,
                                                      connection lost) after these bytes *)
  sys_rm_fault : option exc                       (** the error [os.remove] raises *)
}.

Record World := mkWorld {
  w_sys : System;
  w_out : list console_line                       (** the console, oldest line first *)
}.

Abbreviation w_procs w := (sys_procs (w_sys w)).
Abbreviation w_fs w := (sys_fs (w_sys w)).
Abbreviation w_bins w := (sys_bins (w_sys w)).
Abbreviation w_now w := (sys_now (w_sys w)).
Abbreviation w_host w := (sys_host (w_sys w)).
Abbreviation w_remote w := (sys_remote (w_sys w)).
Abbreviation w_remote_dirs w := (sys_remote_dirs (w_sys w)).
Abbreviation w_reachable w := (sys_reachable (w_sys w)).
Abbreviation w_authorized w := (sys_authorized (w_sys w)).
Abbreviation w_zip_fault w := (sys_zip_fault (w_sys w)).
Abbreviation w_scp_fault w := (sys_scp_fault (w_sys w)).
Abbreviation w_rm_fault w := (sys_rm_fault (w_sys w)).

Definition sys_set_fs (fs : gmap string file) (y : System) : System :=
  {| sys_procs := sys_procs y; sys_fs := fs; sys_bins := sys_bins y;
     sys_now := sys_now y; sys_host := sys_host y; sys_remote := sys_remote y;
     sys_remote_dirs := sys_remote_dirs y; sys_reachable := sys_reachable y;
     sys_authorized := sys_authorized y; sys_zip_fault := sys_zip_fault y;
     sys_scp_fault := sys_scp_fault y; sys_rm_fault := sys_rm_fault y |}.

Definition sys_set_remote (r : gmap (string * string) file) (y : System) : System :=
  {| sys_procs := sys_procs y; sys_fs := sys_fs y; sys_bins := sys_bins y;
     sys_now := sys_now y; sys_host := sys_host y; sys_remote := r;
     sys_remote_dirs := sys_remote_dirs y; sys_reachable := sys_reachable y;
     sys_authorized := sys_authorized y; sys_zip_fault := sys_zip_fault y;
     sys_scp_fault := sys_scp_fault y; sys_rm_fault := sys_rm_fault y |}.

Definition set_fs (fs : gmap string file) (w : World) : World :=
  {| w_sys := sys_set_fs fs (w_sys w); w_out := w_out w |}.

Definition set_remote (r : gmap (string * string) file) (w : World) : World :=
  {| w_sys := sys_set_remote r (w_sys w); w_out := w_out w |}.

(** The world after a program changed the machine to [y]. *)
Definition with_sys (y : System) (w : World) : World := {| w_sys := y; w_out := w_out w |}.

Definition emit (l : console_line) (w : World) : World :=
  {| w_sys := w_sys w; w_out := (w_out w ++ [l])%list |}.

(** [emit] touches nothing but the console; [set_fs] and [set_remote]
    touch one field. *)
Lemma emit_sys l w : w_sys (emit l w) = w_sys w. Proof. done. Qed.
Lemma emit_out l w : w_out (emit l w) = (w_out w ++ [l])%list. Proof. done. Qed.
Lemma set_fs_sys fs w : w_sys (set_fs fs w) = sys_set_fs fs (w_sys w). Proof. done. Qed.
Lemma set_fs_out fs w : w_out (set_fs fs w) = w_out w. Proof. done. Qed.
Lemma set_remote_sys r w : w_sys (set_remote r w) = sys_set_remote r (w_sys w). Proof. done. Qed.
Lemma set_remote_out r w : w_out (set_remote r w) = w_out w. Proof. done. Qed.
Lemma with_sys_sys y w : w_sys (with_sys y w) = y. Proof. done. Qed.
Lemma with_sys_out y w : w_out (with_sys y w) = w_out w. Proof. done. Qed.
#[export] Hint Rewrite emit_sys emit_out set_fs_sys set_fs_out set_remote_sys set_remote_out
  with_sys_sys with_sys_out : pyrw.

(** Python code over the host: state [World], exceptions [exc]. *)
Abbreviation PyM := (ST World exc).

(** ** Runtime calls *)

(** [print(s)] *)
Definition print (s : string) : PyM unit := st_modify (emit (Stdout s)).

(** [os.path.exists(p)] *)
Definition os_path_exists (p : string) : PyM bool :=
  st_gets (fun w => bool_decide (is_Some (w_fs w !! p))).

(** [os.remove(p)]: [FileNotFoundError] when nothing is there, otherwise the
    fault of the world if there is one, otherwise the file is unlinked. *)
Definition os_remove (p : string) : PyM unit :=
  fun w =>
    match w_fs w !! p with
    | None => (w, Exn (file_not_found p))
    | Some _ =>
        match w_rm_fault w with
        | Some e => (w, Exn e)
        | None => (set_fs (delete p (w_fs w)) w, Norm tt)
        end
    end.

(** [datetime.datetime.now()] and [os.uname().nodename] *)
Definition datetime_now : PyM datetime := st_gets (fun w => w_now w).
Definition os_uname_nodename : PyM string := st_gets (fun w => w_host w).

(** ** Paths *)

Fixpoint has_char (c : ascii) (s : string) : bool :=
  match s with
  | EmptyString => false
  | String x s' => Ascii.eqb x c || has_char c s'
  end.

(** The directory part of a path, up to and including its last '/'. *)
Fixpoint dir_prefix (s : string) : string :=
  match s with
  | EmptyString => ""
  | String c s' =>
      if has_char "/"%char s' then String c (dir_prefix s')
      else if Ascii.eqb c "/"%char then "/" else ""
  end.

(** What follows the last '/'. *)
Fixpoint basename (s : string) : string :=
  match s with
  | EmptyString => ""
  | String c s' =>
      if has_char "/"%char s' then basename s'
      else if Ascii.eqb c "/"%char then s' else s
  end.

Fixpoint ends_with_slash (s : string) : bool :=
  match s with
  | EmptyString => false
  | String c EmptyString => Ascii.eqb c "/"%char
  | String _ s' => ends_with_slash s'
  end.

(** ** Path lemmas *)

Lemma has_char_app c a b : has_char c (a +:+ b) = has_char c a || has_char c b.
Proof. induction a as [|x a IH]; [done |]. rewrite string_app_cons; simpl. by rewrite IH, orb_assoc. Qed.

Lemma ends_with_slash_has_char s : ends_with_slash s = true -> has_char "/"%char s = true.
Proof.
  induction s as [|x s IH]; [done |]. simpl.
  destruct s as [|y s']; [by rewrite orb_false_r |].
  intros H. rewrite IH by done. apply orb_true_r.
Qed.

Lemma ends_with_slash_app a b :
  b <> "" -> ends_with_slash (a +:+ b) = ends_with_slash b.
Proof.
  intros Hb. induction a as [|x a IH]; [done |].
  rewrite string_app_cons. simpl. rewrite <- IH.
  destruct a; [by destruct b |]. done.
Qed.

(** A directory ending in '/' is the directory part of any file name in it. *)
Lemma dir_prefix_app d n :
  ends_with_slash d = true -> has_char "/"%char n = false -> dir_prefix (d +:+ n) = d.
Proof.
  intros Hd Hn. induction d as [|x d IH]; [done |].
  rewrite string_app_cons; simpl.
  destruct d as [|y d'].
  - rewrite string_app_nil_l. simpl in *. rewrite Hn, Hd. by apply Ascii.eqb_eq in Hd as ->.
  - rewrite has_char_app, ends_with_slash_has_char by done. cbn [orb].
    by rewrite IH.
Qed.

Lemma all_digits_no_char c s :
  is_digit c = false -> all_digits s = true -> has_char c s = false.
Proof.
  intros Hc. induction s as [|x s IH]; [done |]. unfold all_digits; simpl.
  intros [Hx Hs]%andb_true_iff. rewrite IH by done.
  destruct (Ascii.eqb_spec x c) as [->|]; [congruence | done].
Qed.

(** [str(n)] of an integer holds no '/'. *)
Lemma pretty_Z_no_slash (z : Z) : has_char "/"%char (pretty z) = false.
Proof.
  assert (forall x : N, has_char "/"%char (pretty x) = false) as HN
    by (intros x; apply all_digits_no_char; [done | apply all_digits_pretty_N]).
  destruct z as [|p|p]; [done | apply (HN (N.pos p)) |].
  change (pretty (Z.neg p)) with ("-" +:+ pretty (N.pos p)).
  rewrite has_char_app, HN. done.
Qed.

Lemma os_remove_out p w : w_out (os_remove p w).1 = w_out w.
Proof. unfold os_remove. by repeat case_match. Qed.

(** ** The console only grows

    [out_le w w']: the console of [w'] continues that of [w]. *)
Definition out_le (w w' : World) : Prop := w_out w `prefix_of` w_out w'.

#[export] Instance out_le_preorder : PreOrder out_le.
Proof. split; unfold out_le; [intros ?; done | intros ??? ??; by etrans]. Qed.

Lemma out_le_emit l w : out_le w (emit l w).
Proof. unfold out_le. cbn. by apply prefix_app_r. Qed.

Lemma print_out_le s : preserves out_le (print s).
Proof. apply preserves_modify, out_le_emit. Qed.

Lemma os_remove_out_le p : preserves out_le (os_remove p).
Proof. intros w. unfold out_le. by rewrite os_remove_out. Qed.

Lemma datetime_now_out_le : preserves out_le datetime_now.
Proof. apply preserves_gets, _. Qed.

Lemma os_uname_nodename_out_le : preserves out_le os_uname_nodename.
Proof. apply preserves_gets, _. Qed.

Lemma os_path_exists_out_le p : preserves out_le (os_path_exists p).
Proof. apply preserves_gets, _. Qed.

#[export] Hint Resolve print_out_le os_remove_out_le datetime_now_out_le
  os_uname_nodename_out_le os_path_exists_out_le : preserve.
