(* ===== verification/Tools.v ===== *)
(** * The helper programs and [subprocess.run]

    The script delegates its work to three programs ([src/pro.py] lines
    32-37, 65-81, 97-111): [pgrep -x NAME], [zip -e -P PASSWORD ARCHIVE FILE]
    and [scp -i KEY -o BatchMode=yes FILE USER@HOST:PATH].  [ToolSuite] is
    the interface the script relies on, [ToolSuiteLaws] the contract each
    program keeps; the pipeline's theorems are proved against the contract.
    [linux_tools] is one implementation (procps-ng [pgrep], Info-ZIP [zip],
    OpenSSH [scp]) and discharges the contract.

    [subprocess_run] is [subprocess.run(cmd, check=..., stdout=..., stderr=...)]:
    the [PATH] lookup and its [FileNotFoundError]/[PermissionError], the
    program's effect, the console when the streams are not sent to
    [DEVNULL], [CalledProcessError] for a non-zero status under
    [check=True], and [KeyboardInterrupt] when Ctrl-C stops the program:
    [sigint_during] says while which program Ctrl-C arrives,
    [run_interrupted] what the stopped program leaves, [InterruptLaws] its
    contract, [Uninterrupted] the setting without Ctrl-C. *)

From stdpp Require Import base strings gmap list sets.
From Stdlib Require Import ZArith Ascii.
From S2P Require Import Prelude PyExc Strftime Os.

Local Open Scope string_scope.
Local Open Scope Z_scope.

(** ** Archive update and remote targets, shared by the contract and the
    implementation *)

(** [zip] adds [e] to the archive's entries, replacing in place an entry of
    the same name. *)
Fixpoint zip_upsert (e : zip_entry) (es : list zip_entry) : list zip_entry :=
  match es with
  | [] => [e]
  | e' :: es' =>
      if String.eqb (entry_name e') (entry_name e) then e :: es' else e' :: zip_upsert e es'
  end.

(** The entries already in the archive file at [arch] ([zip] starts a new
    archive when there is none). *)
Definition archive_entries (fs : gmap string file) (arch : string) : list zip_entry :=
  match fs !! arch with
  | Some (ZipArchive es) => es
  | _ => []
  end.

(** OpenSSH's [colon()]: a target is remote when a ':' comes before any '/'
    and is not its first character; it splits into host part and path. *)
Fixpoint split_colon (s : string) : option (string * string) :=
  match s with
  | EmptyString => None
  | String c s' =>
      if Ascii.eqb c ":"%char then Some ("", s')
      else if Ascii.eqb c "/"%char then None
      else option_map (fun '(h, p) => (String c h, p)) (split_colon s')
  end.

(** The host part splits at its last '@' into user and host. *)
Fixpoint split_last_at (s : string) : option (string * string) :=
  match s with
  | EmptyString => None
  | String c s' =>
      match split_last_at s' with
      | Some (u, h) => Some (String c u, h)
      | None => if Ascii.eqb c "@"%char then Some ("", s') else None
      end
  end.

(** [USER@HOST:PATH] as [(Some USER, HOST, PATH)]; [None] for a local path. *)
Definition parse_scp_target (t : string) : option (option string * string * string) :=
  match t with
  | String c _ => if Ascii.eqb c ":"%char then None else
      match split_colon t with
      | Some (hp, path) =>
          match split_last_at hp with
          | Some (u, h) => Some (Some u, h, path)
          | None => Some (None, hp, path)
          end
      | None => None
      end
  | EmptyString => None
  end.

(** A destination naming a directory receives the file under its own name. *)
Definition scp_dest (path src : string) : string :=
  if bool_decide (path = "") || ends_with_slash path then path +:+ basename src else path.

(** ** The interface *)

Class ToolSuite := {
  proc_matches : string -> string -> bool;   (** does [pgrep -x pattern] select this process name *)
  run_pgrep : list string -> System -> Z;
  run_zip : list string -> System -> System * Z;
  run_scp : list string -> System -> System * Z;
  sigint_during : string -> bool;            (** Ctrl-C arrives while this program runs *)
  run_interrupted : string -> list string -> System -> System
                                             (** the machine an interrupted program leaves *)
}.

Definition zip_args (pw arch src : string) : list string := ["-e"; "-P"; pw; arch; src].
Definition scp_args (key src target : string) : list string :=
  ["-i"; key; "-o"; "BatchMode=yes"; src; target].

(** The archive [zip] writes, and the machine afterwards. *)
Definition zip_archive (fs : gmap string file) (pw arch src : string) (c : file) : file :=
  ZipArchive (zip_upsert (ZipEntry src (Some pw) c) (archive_entries fs arch)).

Definition zip_result (y : System) (pw arch src : string) (c : file) : System :=
  sys_set_fs (<[arch := zip_archive (sys_fs y) pw arch src c]> (sys_fs y)) y.

(** The contract of the three programs the script relies on.  [pgrep]
    answers whether a process matches; [zip] fails leaving the machine as
    it was or adds the file to the archive; [scp] succeeds by copying the
    file to the destination, and a failing [scp] leaves the remote host as
    it was or, when the copy stopped part-way (remote disk full, connection
    lost), a partial plain copy at the destination, which the remote side
    writes as the data arrives. *)
Class ToolSuiteLaws `{ToolSuite} := {
  pgrep_status n y :
    run_pgrep ["-x"; n] y = 0 <-> existsb (proc_matches n) (sys_procs y) = true;
  zip_failed pw arch src y :
    (run_zip (zip_args pw arch src) y).2 <> 0 -> (run_zip (zip_args pw arch src) y).1 = y;
  zip_succeeded pw arch src y :
    (run_zip (zip_args pw arch src) y).2 = 0 ->
    exists c, sys_fs y !! src = Some c /\ (run_zip (zip_args pw arch src) y).1 = zip_result y pw arch src c;
  zip_works pw arch src y c :
    sys_zip_fault y = None -> sys_fs y !! src = Some c ->
    (forall d, sys_fs y !! arch <> Some (Plain d)) ->
    (run_zip (zip_args pw arch src) y).2 = 0;
  scp_failed key src t y :
    (run_scp (scp_args key src t) y).2 <> 0 ->
    (run_scp (scp_args key src t) y).1 = y \/
    exists u h p d, parse_scp_target t = Some (u, h, p) /\
      (run_scp (scp_args key src t) y).1
      = sys_set_remote (<[(h, scp_dest p src) := Plain d]> (sys_remote y)) y;
  scp_succeeded key src t y :
    (run_scp (scp_args key src t) y).2 = 0 ->
    exists u h p c, parse_scp_target t = Some (u, h, p) /\ sys_fs y !! src = Some c /\
      (run_scp (scp_args key src t) y).1 = sys_set_remote (<[(h, scp_dest p src) := c]> (sys_remote y)) y;
  scp_works key src t y u h p c k :
    sys_scp_fault y = None ->
    parse_scp_target t = Some (Some u, h, p) -> sys_fs y !! src = Some c ->
    h ∈ sys_reachable y -> sys_fs y !! key = Some (Plain k) -> (h, u, k) ∈ sys_authorized y ->
    (h, dir_prefix (scp_dest p src)) ∈ sys_remote_dirs y ->
    (run_scp (scp_args key src t) y).2 = 0
}.

(** No Ctrl-C arrives during the run: the setting of every theorem but
    those of [Signals.v]. *)
Class Uninterrupted `{ToolSuite} := no_sigint p : sigint_during p = false.

(** What an interrupted program leaves: [pgrep] nothing; [zip] nothing
    (Info-ZIP writes the new archive to a temporary file, which its SIGINT
    handler removes); [scp] the machine as it was, or a partial copy at the
    remote destination, plain bytes (the remote [scp -t] writes into the
    destination file as the data arrives). *)
Class InterruptLaws `{ToolSuite} := {
  pgrep_interrupted args y : run_interrupted "pgrep" args y = y;
  zip_interrupted pw arch src y : run_interrupted "zip" (zip_args pw arch src) y = y;
  scp_interrupted key src t y :
    run_interrupted "scp" (scp_args key src t) y = y \/
    exists u h p d, parse_scp_target t = Some (u, h, p) /\
      run_interrupted "scp" (scp_args key src t) y
      = sys_set_remote (<[(h, scp_dest p src) := Plain d]> (sys_remote y)) y
}.

(** The same programs, with Ctrl-C arriving while [p] runs. *)
Definition with_sigint (ts : ToolSuite) (p : string) : ToolSuite := {|
  proc_matches := @proc_matches ts;
  run_pgrep := @run_pgrep ts;
  run_zip := @run_zip ts;
  run_scp := @run_scp ts;
  sigint_during q := String.eqb q p;
  run_interrupted := @run_interrupted ts
|}.

#[export] Instance with_sigint_laws `{ToolSuiteLaws} p : @ToolSuiteLaws (with_sigint _ p).
Proof. destruct H0; split; assumption. Qed.

#[export] Instance with_sigint_interrupt_laws `{InterruptLaws} p :
  @InterruptLaws (with_sigint _ p).
Proof. destruct H0; split; assumption. Qed.

(** ** [subprocess.run] *)

Section Subprocess.
Context `{ToolSuite}.

(** A program changes the machine, never the script's console. *)
Definition tool_exec (prog : string) (args : list string) (w : World) : World * Z :=
  let on_sys (r : System * Z) := ({| w_sys := r.1; w_out := w_out w |}, r.2) in
  if String.eqb prog "pgrep" then (w, run_pgrep args (w_sys w))
  else if String.eqb prog "zip" then on_sys (run_zip args (w_sys w))
  else if String.eqb prog "scp" then on_sys (run_scp args (w_sys w))
  else (w, 0).

(** [subprocess.run(cmd, check=check, stdout=X, stderr=X)] with
    [X = subprocess.DEVNULL] when [devnull], else inherited.  A Ctrl-C
    while the program runs reaches the program and the interpreter: the
    wait in [run] raises [KeyboardInterrupt], [run] kills the program and
    re-raises, and the machine is what the interrupted program left. *)
Definition subprocess_run (cmd : list string) (check devnull : bool) : PyM Z :=
  fun w =>
    match cmd with
    | [] => (w, Exn (mkExc IndexError "list index out of range"))
    | prog :: args =>
        match w_bins w !! prog with
        | None => (w, Exn (file_not_found prog))
        | Some BinNoExec => (w, Exn (permission_denied prog))
        | Some BinExec =>
            if sigint_during prog then
              let w1 := with_sys (run_interrupted prog args (w_sys w)) w in
              (if devnull then w1 else emit (ToolOutput prog) w1, Exn keyboard_interrupt)
            else
              let '(w1, rc) := tool_exec prog args w in
              let w2 := if devnull then w1 else emit (ToolOutput prog) w1 in
              if check && negb (rc =? 0) then (w2, Exn (called_process_error cmd rc))
              else (w2, Norm rc)
        end
    end.
End Subprocess.

Section SubprocessLemmas.
Context `{ToolSuite}.

Lemma tool_exec_pgrep args w : tool_exec "pgrep" args w = (w, run_pgrep args (w_sys w)).
Proof. reflexivity. Qed.
Lemma tool_exec_zip args w :
  tool_exec "zip" args w =
  ({| w_sys := (run_zip args (w_sys w)).1; w_out := w_out w |}, (run_zip args (w_sys w)).2).
Proof. reflexivity. Qed.
Lemma tool_exec_scp args w :
  tool_exec "scp" args w =
  ({| w_sys := (run_scp args (w_sys w)).1; w_out := w_out w |}, (run_scp args (w_sys w)).2).
Proof. reflexivity. Qed.
End SubprocessLemmas.

#[export] Hint Rewrite @tool_exec_pgrep @tool_exec_zip @tool_exec_scp : pyrw.

Section SubprocessConsole.
Context `{ToolSuite}.

Lemma tool_exec_out prog args w : w_out (tool_exec prog args w).1 = w_out w.
Proof. unfold tool_exec. by repeat case_match. Qed.

Lemma out_le_tool_output (prog : string) (devnull : bool) w w1 :
  w_out w1 = w_out w -> out_le w (if devnull then w1 else emit (ToolOutput prog) w1).
Proof. intros Ho. unfold out_le. rewrite <- Ho. destruct devnull; [done |]. apply out_le_emit. Qed.

(** [subprocess.run] at most adds the program's output to the console. *)
Lemma subprocess_run_out_le cmd check devnull : preserves out_le (subprocess_run cmd check devnull).
Proof.
  intros w. unfold subprocess_run. destruct cmd as [|prog args]; [done |].
  destruct (w_bins w !! prog) as [[]|]; [| done..].
  destruct (sigint_during prog); [by apply out_le_tool_output |].
  pose proof (tool_exec_out prog args w) as Ho.
  destruct (tool_exec prog args w) as [w1 rc]. cbn in Ho.
  pose proof (out_le_tool_output prog devnull w w1 Ho). by destruct (check && _).
Qed.
End SubprocessConsole.

#[export] Hint Resolve subprocess_run_out_le : preserve.

(** ** Archive entries *)

Lemma zip_upsert_in e es : e ∈ zip_upsert e es.
Proof.
  induction es as [|e0 es IH]; cbn [zip_upsert]; [by left |].
  case_match; [by left | by right].
Qed.

(** Adding an entry to an archive whose entry names are distinct keeps them distinct,
    contains the new entry, and keeps exactly the old entries with a different name. *)
Theorem zip_upsert_spec e es :
  NoDup (entry_name <$> es) ->
  NoDup (entry_name <$> zip_upsert e es) /\ e ∈ zip_upsert e es /\
  (forall e', e' ∈ zip_upsert e es <-> e' = e \/ (e' ∈ es /\ entry_name e' <> entry_name e)).
Proof.
  induction es as [|e0 es IH]; intros Hnd; cbn [zip_upsert].
  { split; [constructor; [set_solver | constructor] |]. set_solver. }
  rewrite fmap_cons in Hnd. apply NoDup_cons in Hnd as [Hn0 Hnd].
  destruct (String.eqb_spec (entry_name e0) (entry_name e)) as [Heq|Hne].
  - split; [rewrite fmap_cons, <- Heq; by constructor |].
    split; [apply elem_of_cons; by left |].
    intros e'. rewrite !elem_of_cons. split.
    + intros [->|Hin]; [by left | right]. split; [by right |].
      intros Hn. apply Hn0. rewrite Heq, <- Hn. by apply list_elem_of_fmap_2.
    + intros [->|[[->|?] ?]]; [by left | done | by right].
  - destruct (IH Hnd) as (Hnd' & Hin & Hiff). split; [| split].
    + rewrite fmap_cons. constructor; [| done]. rewrite list_elem_of_fmap.
      intros (e' & He' & Hin'). apply Hiff in Hin' as [->|[Hin' _]]; [done |].
      apply Hn0. rewrite He'. by apply list_elem_of_fmap_2.
    + by right.
    + intros e'. rewrite !elem_of_cons, Hiff. naive_solver.
Qed.

(** The entries of a name are those of [filter]; an archive without the
    name has none. *)
Lemma entries_named_absent n es :
  n ∉ entry_name <$> es -> filter (fun e => entry_name e = n) es = [].
Proof.
  induction es as [|e es IH]; intros Hn; [done |]. rewrite fmap_cons, elem_of_cons in Hn.
  rewrite filter_cons_False by naive_solver. apply IH. naive_solver.
Qed.

(** After [zip] adds an entry to an archive with distinct names, the
    archive holds exactly one entry of that name: the new one. *)
Lemma zip_upsert_named e es :
  NoDup (entry_name <$> es) ->
  filter (fun e' => entry_name e' = entry_name e) (zip_upsert e es) = [e].
Proof.
  induction es as [|e0 es IH]; intros Hnd; cbn [zip_upsert].
  { by rewrite filter_cons_True, filter_nil. }
  rewrite fmap_cons in Hnd. apply NoDup_cons in Hnd as [Hn0 Hnd].
  destruct (String.eqb_spec (entry_name e0) (entry_name e)) as [Heq|Hne].
  - rewrite filter_cons_True by done. f_equal. apply entries_named_absent. by rewrite <- Heq.
  - rewrite filter_cons_False by done. by apply IH.
Qed.

(** ** The remote target round trip *)

Lemma split_colon_app a p :
  has_char ":"%char a = false -> has_char "/"%char a = false ->
  split_colon (a +:+ ":" +:+ p) = Some (a, p).
Proof.
  induction a as [|x a IH]; intros Hc Hs; [done |].
  simpl in Hc, Hs. apply orb_false_iff in Hc as [Hx Hc], Hs as [Hy Hs].
  rewrite string_app_cons. simpl. rewrite Hx, Hy, IH by done. done.
Qed.

Lemma split_last_at_none h : has_char "@"%char h = false -> split_last_at h = None.
Proof.
  induction h as [|x h IH]; [done |]. simpl. intros [Hx Hh]%orb_false_iff.
  by rewrite IH, Hx.
Qed.

Lemma split_last_at_app u h :
  has_char "@"%char h = false -> split_last_at (u +:+ "@" +:+ h) = Some (u, h).
Proof.
  intros Hh. induction u as [|x u IH].
  - simpl. by rewrite split_last_at_none.
  - rewrite string_app_cons. simpl. by rewrite IH.
Qed.

(** The scp target USER@HOST:PATH, built as line 94 builds it, parses back (as OpenSSH
    splits it) into the same user, host and path when neither user nor host contains a colon
    or slash and the host contains no at sign. *)
Lemma parse_scp_target_roundtrip u h p :
  has_char ":"%char u = false -> has_char "/"%char u = false ->
  has_char ":"%char h = false -> has_char "/"%char h = false -> has_char "@"%char h = false ->
  parse_scp_target (u +:+ "@" +:+ h +:+ ":" +:+ p) = Some (Some u, h, p).
Proof.
  intros Hu1 Hu2 Hh1 Hh2 Hh3. unfold parse_scp_target.
  rewrite (string_app_assoc u "@"), (string_app_assoc (u +:+ "@") h), split_colon_app.
  - rewrite <- (string_app_assoc u "@" h), split_last_at_app by done.
    destruct u as [|x u]; [done |]. simpl in Hu1.
    apply orb_false_iff in Hu1 as [Hx _]. rewrite !string_app_cons. cbv iota.
    by rewrite Hx.
  - rewrite !has_char_app; simpl. by rewrite Hu1, Hh1.
  - rewrite !has_char_app; simpl. by rewrite Hu2, Hh2.
Qed.

(** [sys_simpl] computes the fields of a machine built by the programs. *)
Ltac sys_simpl :=
  cbn [fst snd sys_procs sys_fs sys_bins sys_now sys_host sys_remote sys_remote_dirs
       sys_reachable sys_authorized sys_zip_fault sys_scp_fault sys_rm_fault sys_set_fs sys_set_remote
       zip_result w_sys w_out] in *.
