(* ===== verification/Regex.v ===== *)
(** * The pattern of [pgrep -x]: POSIX extended regular expressions

    procps-ng's [pgrep -x PATTERN] does not compare names: it compiles
    ["^(" ++ PATTERN ++ ")$"] with [regcomp(REG_EXTENDED | REG_NOSUB)] and
    selects the processes whose name [regexec] accepts.  This file models
    that for the operators [.], [( )], [|], [*], [+] and [?] as glibc reads
    them: a quantifier at the start of a branch is an error, an unmatched
    [)] outside every group is an ordinary character, an empty branch or
    group matches the empty name, and a [)] of the pattern that closes the
    wrapping group early lets a later [|] split the anchors ([anchored]).
    [ere_parse] reads the wrapped pattern into a [re] (fuel: four steps per
    character; [ere_parse_simple] shows it is enough for every pattern of
    ordinary characters and dots, and it parses them to the word they
    spell); [matches] decides a name by Brzozowski derivatives, as in the
    regexp-Brzozowski development, and [matches_spec] proves it equal to
    the language [in_re].  [plus_plus_spec] gives the language of [c++].
    Bracket expressions, intervals, back-slash escapes and inner anchors
    ([[ { \ ^ $]) are outside the modelled subset: [ere_parse] rejects
    them. *)

From stdpp Require Import base strings list.
From Stdlib Require Import Ascii.
From S2P Require Import Prelude.

Local Open Scope list_scope.

Inductive re :=
  | Void
  | Eps
  | Dot
  | Chr (c : ascii)
  | Cat (r1 r2 : re)
  | Alt (r1 r2 : re)
  | Star (r : re).

(** ** The language of an expression *)

Inductive in_re : re -> list ascii -> Prop :=
  | in_eps : in_re Eps []
  | in_dot c : in_re Dot [c]
  | in_chr c : in_re (Chr c) [c]
  | in_cat r1 r2 s1 s2 : in_re r1 s1 -> in_re r2 s2 -> in_re (Cat r1 r2) (s1 ++ s2)
  | in_alt_l r1 r2 s : in_re r1 s -> in_re (Alt r1 r2) s
  | in_alt_r r1 r2 s : in_re r2 s -> in_re (Alt r1 r2) s
  | in_star_nil r : in_re (Star r) []
  | in_star_app r s1 s2 : in_re r s1 -> in_re (Star r) s2 -> in_re (Star r) (s1 ++ s2).

(** ** Matching by derivatives *)

Fixpoint nullable (r : re) : bool :=
  match r with
  | Void | Dot | Chr _ => false
  | Eps | Star _ => true
  | Cat r1 r2 => nullable r1 && nullable r2
  | Alt r1 r2 => nullable r1 || nullable r2
  end.

Fixpoint der (c : ascii) (r : re) : re :=
  match r with
  | Void | Eps => Void
  | Dot => Eps
  | Chr d => if Ascii.eqb c d then Eps else Void
  | Cat r1 r2 => if nullable r1 then Alt (Cat (der c r1) r2) (der c r2) else Cat (der c r1) r2
  | Alt r1 r2 => Alt (der c r1) (der c r2)
  | Star r1 => Cat (der c r1) (Star r1)
  end.

Fixpoint ders (s : list ascii) (r : re) : re :=
  match s with [] => r | c :: s' => ders s' (der c r) end.

(** [regexec] on the whole name: the pattern is anchored at both ends. *)
Definition matches (r : re) (name : string) : bool :=
  nullable (ders (String.list_ascii_of_string name) r).

(** ** Reading the pattern *)

(** Characters outside the modelled subset, and the quantifiers. *)
Definition ere_unsupported (c : ascii) : bool :=
  bool_decide (c ∈ String.list_ascii_of_string "[{\^$").

Definition ere_quantifier (c : ascii) : bool := bool_decide (c ∈ String.list_ascii_of_string "*+?").

(** The postfix operators after an atom. *)
Fixpoint quants (a : re) (s : list ascii) : re * list ascii :=
  match s with
  | "*"%char :: s' => quants (Star a) s'
  | "+"%char :: s' => quants (Cat a (Star a)) s'
  | "?"%char :: s' => quants (Alt a Eps) s'
  | _ => (a, s)
  end.

Definition re_cat (acc a : re) : re := match acc with Eps => a | _ => Cat acc a end.

(** [p_alt]: branches separated by [|]; [p_branch]: pieces, up to [|],
    the end, or a [)] closing a group ([d] open groups); [p_piece]: an atom
    and the quantifiers after it, so that a quantifier [p_branch] meets
    starts a branch (an error); [p_atom]: [.], a group, or an ordinary
    character. *)
Fixpoint p_alt (fuel d : nat) (s : list ascii) : option (re * list ascii) :=
  match fuel with
  | O => None
  | S f =>
      match p_branch f d s Eps with
      | Some (r, "|"%char :: s') =>
          match p_alt f d s' with Some (r2, s'') => Some (Alt r r2, s'') | None => None end
      | o => o
      end
  end
with p_branch (fuel d : nat) (s : list ascii) (acc : re) : option (re * list ascii) :=
  match fuel with
  | O => None
  | S f =>
      match s with
      | [] => Some (acc, [])
      | "|"%char :: _ => Some (acc, s)
      | ")"%char :: _ => if bool_decide (d = 0) then p_piece f d s acc else Some (acc, s)
      | c :: _ => if ere_quantifier c then None else p_piece f d s acc
      end
  end
with p_piece (fuel d : nat) (s : list ascii) (acc : re) : option (re * list ascii) :=
  match fuel with
  | O => None
  | S f =>
      match p_atom f d s with
      | Some (a, s') => let '(a', s'') := quants a s' in p_branch f d s'' (re_cat acc a')
      | None => None
      end
  end
with p_atom (fuel d : nat) (s : list ascii) : option (re * list ascii) :=
  match fuel with
  | O => None
  | S f =>
      match s with
      | "."%char :: s' => Some (Dot, s')
      | "("%char :: s' =>
          match p_alt f (S d) s' with Some (r, ")"%char :: s'') => Some (r, s'') | _ => None end
      | c :: s' => if ere_unsupported c || ere_quantifier c then None else Some (Chr c, s')
      | [] => None
      end
  end.

(** Outside every group ([d = 0]) the branches of ["^(" ++ p ++ ")$"] are
    separated by the [|]s that follow a [)] of [p] closing the wrapping
    group early. *)
Fixpoint p_top (fuel : nat) (s : list ascii) : option (list re) :=
  match fuel with
  | O => None
  | S f =>
      match p_branch f 0 s Eps with
      | Some (r, "|"%char :: s') => match p_top f s' with Some rs => Some (r :: rs) | None => None end
      | Some (r, []) => Some [r]
      | _ => None
      end
  end.

(** [^] anchors the first branch only and [$] the last only: the first
    matches a prefix of the name, the last a suffix, the others any part;
    a single branch matches the whole name. *)
Fixpoint anchor_rest (rs : list re) : re :=
  match rs with
  | [] => Void
  | [r] => Cat (Star Dot) r
  | r :: rs' => Alt (Cat (Star Dot) (Cat r (Star Dot))) (anchor_rest rs')
  end.

Definition anchored (rs : list re) : re :=
  match rs with
  | [] => Void
  | [r] => r
  | r :: rs' => Alt (Cat r (Star Dot)) (anchor_rest rs')
  end.

Definition ere_fuel (s : list ascii) : nat := 4 * (length s + 2).

(** [regcomp] of ["^(" ++ pattern ++ ")$"]: the expression [regexec]
    matches against the whole name, or [None] for a pattern it rejects
    (or one outside the modelled subset). *)
Definition ere_parse (pattern : string) : option re :=
  let s := "("%char :: String.list_ascii_of_string pattern ++ [")"%char] in
  match p_top (ere_fuel s) s with
  | Some rs => Some (anchored rs)
  | None => None
  end.

(** Simple patterns: ordinary characters and [.], no operator, group or
    quantifier.  [lit] is the expression [p_branch] builds for them, [fits]
    the names such a pattern selects. *)
Definition lit_char (c : ascii) : bool :=
  negb (ere_unsupported c || ere_quantifier c || bool_decide (c ∈ String.list_ascii_of_string ".()|")).

Definition simple_char (c : ascii) : bool := lit_char c || Ascii.eqb c ".".

Definition ere_literal (pattern : string) : bool :=
  forallb lit_char (String.list_ascii_of_string pattern).

Definition ere_simple (pattern : string) : bool :=
  forallb simple_char (String.list_ascii_of_string pattern).

Definition atom_of (c : ascii) : re := if Ascii.eqb c "." then Dot else Chr c.

Fixpoint lit (acc : re) (s : list ascii) : re :=
  match s with [] => acc | c :: s' => lit (re_cat acc (atom_of c)) s' end.

Fixpoint fits (l s : list ascii) : bool :=
  match l, s with
  | [], [] => true
  | c :: l', d :: s' => (Ascii.eqb c "." || Ascii.eqb c d) && fits l' s'
  | _, _ => false
  end.

(** ** The matcher decides the language *)

Lemma in_re_eps_inv s : in_re Eps s <-> s = [].
Proof. split; [by inversion 1 | intros ->; constructor]. Qed.

Lemma in_cat_inv r1 r2 s :
  in_re (Cat r1 r2) s <-> exists s1 s2, s = s1 ++ s2 /\ in_re r1 s1 /\ in_re r2 s2.
Proof.
  split; [inversion 1; subst; eauto |].
  intros (s1 & s2 & -> & H1 & H2). by constructor.
Qed.

Lemma in_alt_inv r1 r2 s : in_re (Alt r1 r2) s <-> in_re r1 s \/ in_re r2 s.
Proof.
  split; [inversion 1; subst; auto |].
  intros [?|?]; [by apply in_alt_l | by apply in_alt_r].
Qed.

Lemma nullable_spec r : nullable r = true <-> in_re r [].
Proof.
  induction r as [| | |c|r1 IH1 r2 IH2|r1 IH1 r2 IH2|r IH]; cbn.
  - split; [done | inversion 1].
  - split; [constructor | done].
  - split; [done | inversion 1].
  - split; [done | inversion 1].
  - rewrite andb_true_iff, IH1, IH2, in_cat_inv. split.
    + intros [H1 H2]. by exists [], [].
    + intros (s1 & s2 & Hs & H1 & H2). symmetry in Hs. apply app_eq_nil in Hs as [-> ->]. done.
  - by rewrite orb_true_iff, IH1, IH2, in_alt_inv.
  - split; [constructor | done].
Qed.

(** A non-empty word of [Star r] starts with a non-empty word of [r]. *)
Lemma in_star_cons r c s :
  in_re (Star r) (c :: s) ->
  exists s1 s2, s = s1 ++ s2 /\ in_re r (c :: s1) /\ in_re (Star r) s2.
Proof.
  intros H. remember (Star r) as e eqn:He. remember (c :: s) as w eqn:Hw.
  revert r c s He Hw. induction H as [| | | | | | |r1 s1 s2 H1 _ H2 IH2];
    intros r0 c0 s0 He Hw; try discriminate.
  injection He as <-. destruct s1 as [|c1 s1]; cbn in Hw.
  - by apply (IH2 r1 c0 s0).
  - injection Hw as <- <-. by exists s1, s2.
Qed.

Lemma der_spec c r s : in_re (der c r) s <-> in_re r (c :: s).
Proof.
  revert s. induction r as [| | |d|r1 IH1 r2 IH2|r1 IH1 r2 IH2|r IH]; intros s; cbn.
  - split; inversion 1.
  - split; inversion 1.
  - rewrite in_re_eps_inv. split; [intros ->; constructor | by inversion 1].
  - destruct (Ascii.eqb_spec c d) as [->|Hne].
    + rewrite in_re_eps_inv. split; [intros ->; constructor | by inversion 1].
    + split; [inversion 1 | inversion 1; congruence].
  - rewrite in_cat_inv. destruct (nullable r1) eqn:Hn.
    + rewrite in_alt_inv, in_cat_inv, IH2. split.
      * intros [(s1 & s2 & -> & H1 & H2)|H].
        -- exists (c :: s1), s2. split; [done |]. split; [by apply IH1 | done].
        -- exists [], (c :: s). split; [done |]. split; [by apply nullable_spec | done].
      * intros ([|c1 s1] & s2 & Hs & H1 & H2); cbn in Hs.
        -- subst s2. by right.
        -- injection Hs as -> ->. left. exists s1, s2. split; [done |]. split; [by apply IH1 | done].
    + rewrite in_cat_inv. split.
      * intros (s1 & s2 & -> & H1 & H2). exists (c :: s1), s2. split; [done |].
        split; [by apply IH1 | done].
      * intros ([|c1 s1] & s2 & Hs & H1 & H2); cbn in Hs.
        -- apply nullable_spec in H1. congruence.
        -- injection Hs as -> ->. exists s1, s2. split; [done |]. split; [by apply IH1 | done].
  - rewrite !in_alt_inv, IH1, IH2. done.
  - rewrite in_cat_inv. split.
    + intros (s1 & s2 & -> & H1 & H2). apply IH in H1. by apply (in_star_app _ (c :: s1) s2).
    + intros (s1 & s2 & -> & H1 & H2)%in_star_cons. exists s1, s2. split; [done |].
      split; [by apply IH | done].
Qed.

Lemma ders_spec w r s : in_re (ders w r) s <-> in_re r (w ++ s).
Proof. revert r. induction w as [|c w IH]; intros r; cbn; [done |]. by rewrite IH, der_spec. Qed.

(** The derivative matcher decides the language of an expression: matches r name holds
    exactly when the name's characters form a word of r (in_re, the inductive semantics of
    POSIX extended regular expressions: concatenation, alternation, Kleene star, any
    character). *)
Theorem matches_spec r name :
  matches r name = true <-> in_re r (String.list_ascii_of_string name).
Proof.
  unfold matches. rewrite nullable_spec, ders_spec, app_nil_r. done.
Qed.

(** ** Reading a simple pattern *)

Lemma quants_simple_char a c s : simple_char c = true -> quants a (c :: s) = (a, c :: s).
Proof. intros H. destruct c as [[][][][][][][][]]; vm_compute in H; try discriminate; reflexivity. Qed.

Lemma p_atom_simple_char f d c s :
  simple_char c = true -> p_atom (S f) d (c :: s) = Some (atom_of c, s).
Proof. intros H. destruct c as [[][][][][][][][]]; vm_compute in H; try discriminate; reflexivity. Qed.

Lemma p_branch_simple_char f d c s acc :
  simple_char c = true -> p_branch (S f) d (c :: s) acc = p_piece f d (c :: s) acc.
Proof. intros H. destruct c as [[][][][][][][][]]; vm_compute in H; try discriminate; reflexivity. Qed.

Lemma quants_simple a l rest :
  forallb simple_char l = true -> quants a (l ++ ")"%char :: rest) = (a, l ++ ")"%char :: rest).
Proof. destruct l as [|c l]; [done |]. intros [Hc _]%andb_prop. by apply quants_simple_char. Qed.

(** Inside a group, a simple word is read character by character, two
    steps of fuel each, up to the [)] closing the group. *)
Lemma p_branch_simple f d l rest acc :
  forallb simple_char l = true -> 2 * length l < f ->
  p_branch f (S d) (l ++ ")"%char :: rest) acc = Some (lit acc l, ")"%char :: rest).
Proof.
  revert f acc. induction l as [|c l IH]; intros [|f] acc Hl Hf; cbn [length] in Hf; try lia.
  - done.
  - apply andb_prop in Hl as [Hc Hl]. destruct f as [|[|f]]; [lia | lia |].
    cbn [app]. rewrite p_branch_simple_char by done. cbn [p_piece].
    rewrite p_atom_simple_char by done. rewrite quants_simple by done. apply IH; [done | lia].
Qed.

Lemma p_alt_simple f d l rest :
  forallb simple_char l = true -> 2 * length l + 1 < f ->
  p_alt f (S d) (l ++ ")"%char :: rest) = Some (lit Eps l, ")"%char :: rest).
Proof.
  intros Hl Hf. destruct f as [|f]; [lia |]. cbn [p_alt]. by rewrite p_branch_simple by (done || lia).
Qed.

(** The fuel [ere_fuel] is enough for every simple pattern: it reads as
    the word it spells, [.] as [Dot]. *)
Lemma ere_parse_simple pattern :
  ere_simple pattern = true ->
  ere_parse pattern = Some (lit Eps (String.list_ascii_of_string pattern)).
Proof.
  unfold ere_simple, ere_parse, ere_fuel. set (l := String.list_ascii_of_string pattern). intros Hl.
  cbn [length]. rewrite length_app. cbn [length].
  replace (4 * (S (length l + 1) + 2)) with (S (S (S (S (4 * length l + 12))))) by lia.
  cbn [p_top p_branch p_piece p_atom].
  rewrite p_alt_simple by (done || lia). reflexivity.
Qed.

Lemma re_cat_spec acc a s : in_re (re_cat acc a) s <-> in_re (Cat acc a) s.
Proof.
  destruct acc; cbn; try reflexivity. rewrite in_cat_inv. split.
  - intros H. exists [], s. split; [done | split; [constructor | done]].
  - intros (s1 & s2 & Hs & H1 & H). apply in_re_eps_inv in H1. by subst.
Qed.

Lemma atom_of_spec c s : in_re (atom_of c) s <-> exists d, s = [d] /\ (Ascii.eqb c "." || Ascii.eqb c d) = true.
Proof.
  unfold atom_of. destruct (Ascii.eqb_spec c ".") as [->|Hc]; cbn.
  - split; [inversion 1; eauto | intros (d & -> & _); constructor].
  - split; [inversion 1; exists c; by rewrite Ascii.eqb_refl |].
    intros (d & -> & Hd). apply Ascii.eqb_eq in Hd as ->. constructor.
Qed.

Lemma lit_spec acc l s :
  in_re (lit acc l) s <-> exists s0 s1, s = s0 ++ s1 /\ in_re acc s0 /\ fits l s1 = true.
Proof.
  revert acc s. induction l as [|c l IH]; intros acc s; cbn.
  - split; [intros H; exists s, []; by rewrite app_nil_r |].
    intros (s0 & [|d s1] & -> & H & Hf); [by rewrite app_nil_r | done].
  - rewrite IH. setoid_rewrite re_cat_spec. setoid_rewrite in_cat_inv.
    setoid_rewrite atom_of_spec. split.
    + intros (s0 & s1 & -> & (s2 & s3 & -> & H2 & d & -> & Hd) & Hf).
      exists s2, (d :: s1). rewrite <- app_assoc. split; [done |]. split; [done |].
      cbn. by rewrite Hd, Hf.
    + intros (s0 & [|d s1] & -> & H & Hf); [done |]. apply andb_prop in Hf as [Hd Hf].
      exists (s0 ++ [d]), s1. rewrite <- app_assoc. split; [done |]. split; [| done].
      exists s0, [d]. split; [done |]. split; [done |]. by exists d.
Qed.

(** A simple pattern selects the names it fits, [.] standing for any
    character. *)
Lemma matches_simple pattern name :
  ere_simple pattern = true ->
  ere_parse pattern = Some (lit Eps (String.list_ascii_of_string pattern)) /\
  (matches (lit Eps (String.list_ascii_of_string pattern)) name =
   fits (String.list_ascii_of_string pattern) (String.list_ascii_of_string name)).
Proof.
  intros Hs. split; [by apply ere_parse_simple |]. apply Bool.eq_true_iff_eq.
  rewrite matches_spec, lit_spec. split.
  - by intros (s0 & s1 & -> & ->%in_re_eps_inv & Hf).
  - intros Hf. exists [], (String.list_ascii_of_string name). split; [done |]. split; [constructor | done].
Qed.

Lemma lit_char_not_dot c : lit_char c = true -> Ascii.eqb c "." = false.
Proof. intros H. destruct c as [[][][][][][][][]]; vm_compute in H; try discriminate; reflexivity. Qed.

Lemma fits_literal l s : forallb lit_char l = true -> fits l s = true <-> s = l.
Proof.
  revert s. induction l as [|c l IH]; intros [|d s] Hl; cbn; try done.
  apply andb_prop in Hl as [Hc Hl]. rewrite andb_true_iff, IH by done.
  rewrite lit_char_not_dot, orb_false_l, Ascii.eqb_eq by done. split; [by intros [-> ->] | by intros [= -> ->]].
Qed.

Lemma literal_simple pattern : ere_literal pattern = true -> ere_simple pattern = true.
Proof.
  unfold ere_literal, ere_simple. rewrite !forallb_forall. intros H c Hc.
  unfold simple_char. by rewrite H.
Qed.

(** ** A doubled quantifier: [c++] *)

(** [re_over c r]: every word of [r] is a run of [c]. *)
Fixpoint re_over (c : ascii) (r : re) : bool :=
  match r with
  | Void | Eps => true
  | Dot => false
  | Chr d => Ascii.eqb c d
  | Cat r1 r2 | Alt r1 r2 => re_over c r1 && re_over c r2
  | Star r1 => re_over c r1
  end.

Lemma re_over_spec c r s : re_over c r = true -> in_re r s -> Forall (fun d => d = c) s.
Proof.
  intros Hr H. induction H; cbn in Hr; repeat match goal with H : _ && _ = true |- _ => apply andb_prop in H as [? ?] end;
    rewrite ?Forall_app; auto.
  - done.
  - apply Ascii.eqb_eq in Hr as ->. by constructor.
Qed.

Lemma in_star_repeat r c k : in_re r [c] -> in_re (Star r) (repeat c k).
Proof.
  intros Hc. induction k as [|k IH]; [constructor |].
  by apply (in_star_app _ [c] (repeat c k)).
Qed.

Lemma Forall_eq_repeat {A} (c : A) s : Forall (fun d => d = c) s -> s = repeat c (length s).
Proof. induction 1; cbn; by subst; f_equal. Qed.

(** The expression glibc builds for [c++]: [c] then [c*], repeated. *)
Definition plus_plus (c : ascii) : re :=
  Cat (Cat (Chr c) (Star (Chr c))) (Star (Cat (Chr c) (Star (Chr c)))).

Lemma ere_parse_plus_plus c : lit_char c = true -> ere_parse (String c "++") = Some (plus_plus c).
Proof. intros H. destruct c as [[][][][][][][][]]; vm_compute in H; try discriminate; reflexivity. Qed.

(** [c++] selects the non-empty runs of [c], and nothing else. *)
Lemma plus_plus_spec c s : in_re (plus_plus c) s <-> exists k, s = repeat c (S k).
Proof.
  split.
  - intros H. destruct s as [|d s]; [by apply nullable_spec in H |].
    apply (re_over_spec c) in H; [| cbn; by rewrite !Ascii.eqb_refl].
    apply Forall_eq_repeat in H. by exists (length s).
  - intros [k ->]. rewrite <- (app_nil_r (repeat c (S k))). constructor; [| constructor].
    apply (in_cat _ _ [c] (repeat c k)); [constructor | by apply in_star_repeat; constructor].
Qed.

Lemma ere_parse_literal_some pattern : ere_literal pattern = true -> exists r, ere_parse pattern = Some r.
Proof. intros H. eexists. by apply ere_parse_simple, literal_simple. Qed.
