(* ===== verification/LinuxTools.v ===== *)
(** * One implementation of the helper programs: procps-ng, Info-ZIP, OpenSSH

    - [pgrep -x NAME] compiles ["^(" ++ NAME ++ ")$"] as an extended
      regular expression (Regex.v) and matches it against each process's
      [comm], which the kernel truncates to 15 characters; procps-ng warns
      that a longer NAME matches nothing, which holds for ordinary names.
      Exit 0 on a match, 1 on none, 2 on a usage error or a pattern
      [regcomp] rejects.
    - [zip -e -P PW ARCHIVE FILE] adds or replaces FILE, encrypted with PW,
      in ARCHIVE, creating it if needed.  Exit 12 when FILE is missing
      ("nothing to do"), 3 when ARCHIVE is not a zip file, the world's fault
      status when the write fails; the archive is untouched on failure.
    - [scp -i KEY -o BatchMode=yes FILE USER@HOST:PATH] copies FILE when the
      host is reachable, the key file's contents are an authorized key for
      USER there, and the destination directory exists.  BatchMode forbids
      the password fallback: every failure exits 1 at once; [reachable]
      includes that the host's key is in [known_hosts], which BatchMode
      requires.  A copy that stops part-way ([sys_scp_fault]: remote disk
      full, connection lost) exits 1 and leaves the bytes sent so far at
      the destination.  A target with
      no user (OpenSSH would use the local login name) is refused here.

    [linux_tools_laws] proves the contract [ToolSuiteLaws]. *)

From stdpp Require Import base strings gmap list sets.
From Stdlib Require Import ZArith Ascii.
From S2P Require Import Prelude PyExc Strftime Os Tools Regex.

Local Open Scope string_scope.
Local Open Scope Z_scope.

Definition procps_comm (p : string) : string := String.substring 0 15 p.

Definition procps_matches (n p : string) : bool :=
  match ere_parse n with Some r => matches r (procps_comm p) | None => false end.

Definition procps_pgrep (args : list string) (y : System) : Z :=
  match args with
  | [x; n] =>
      if String.eqb x "-x" then
        match ere_parse n with
        | Some _ => if existsb (procps_matches n) (sys_procs y) then 0 else 1
        | None => 2
        end
      else 2
  | _ => 2
  end.

Definition infozip_zip (args : list string) (y : System) : System * Z :=
  match args with
  | [e; p; pw; arch; src] =>
      if String.eqb e "-e" && String.eqb p "-P" then
        match sys_zip_fault y with
        | Some rc => (y, Zpos rc)
        | None =>
            match sys_fs y !! src with
            | None => (y, 12)
            | Some c =>
                match sys_fs y !! arch with
                | Some (Plain _) => (y, 3)
                | _ => (zip_result y pw arch src c, 0)
                end
            end
        end
      else (y, 16)
  | _ => (y, 16)
  end.

Definition key_authorized (y : System) (key h u : string) : bool :=
  match sys_fs y !! key with
  | Some (Plain k) => bool_decide ((h, u, k) ∈ sys_authorized y)
  | _ => false
  end.

Definition openssh_scp (args : list string) (y : System) : System * Z :=
  match args with
  | [i; key; o; opt; src; target] =>
      if String.eqb i "-i" && String.eqb o "-o" && String.eqb opt "BatchMode=yes" then
        match parse_scp_target target, sys_fs y !! src with
        | Some (Some u, h, p), Some c =>
            if bool_decide (h ∈ sys_reachable y) && key_authorized y key h u
               && bool_decide ((h, dir_prefix (scp_dest p src)) ∈ sys_remote_dirs y)
            then match sys_scp_fault y with
                 | None => (sys_set_remote (<[(h, scp_dest p src) := c]> (sys_remote y)) y, 0)
                 | Some d => (sys_set_remote (<[(h, scp_dest p src) := Plain d]> (sys_remote y)) y, 1)
                 end
            else (y, 1)
        | _, _ => (y, 1)
        end
      else (y, 1)
  | _ => (y, 1)
  end.

(** A program stopped by Ctrl-C.  [pgrep] changes nothing; Info-ZIP's
    SIGINT handler deletes the temporary file it was writing the archive
    to; [scp] stopped after the remote side opened the destination leaves it
    there, holding the bytes that arrived: none, at the earliest moment. *)
Definition linux_interrupted (prog : string) (args : list string) (y : System) : System :=
  if String.eqb prog "scp" then
    match args with
    | [_; key; _; _; src; target] =>
        match parse_scp_target target, sys_fs y !! src with
        | Some (Some u, h, p), Some _ =>
            if bool_decide (h ∈ sys_reachable y) && key_authorized y key h u
               && bool_decide ((h, dir_prefix (scp_dest p src)) ∈ sys_remote_dirs y)
            then sys_set_remote (<[(h, scp_dest p src) := Plain ""]> (sys_remote y)) y
            else y
        | _, _ => y
        end
    | _ => y
    end
  else y.

#[export] Instance linux_tools : ToolSuite := {|
  proc_matches := procps_matches;
  run_pgrep := procps_pgrep;
  run_zip := infozip_zip;
  run_scp := openssh_scp;
  sigint_during _ := false;
  run_interrupted := linux_interrupted
|}.

#[export] Instance linux_tools_uninterrupted : Uninterrupted.
Proof. done. Qed.

#[export] Instance linux_tools_interrupt_laws : InterruptLaws.
Proof.
  split; [done | done |]. intros key src t y. cbn. unfold linux_interrupted. cbn.
  repeat case_match; first [by left | right; by eexists _, _, _, ""].
Qed.

#[export] Instance linux_tools_laws : ToolSuiteLaws.
Proof.
  split; simpl.
  - intros n y. unfold procps_pgrep; simpl. destruct (ere_parse n) eqn:Hn.
    + case_match; split; congruence.
    + split; [done |]. rewrite existsb_exists. intros (p & _ & Hp).
      unfold procps_matches in Hp. by rewrite Hn in Hp.
  - intros pw arch src y. unfold infozip_zip; simpl.
    repeat case_match; simplify_eq/=; naive_solver.
  - intros pw arch src y. unfold infozip_zip; simpl.
    repeat case_match; simplify_eq/=; naive_solver.
  - intros pw arch src y c Hf Hs Ha. unfold infozip_zip; simpl.
    rewrite Hf, Hs. repeat case_match; naive_solver.
  - intros key src t y. unfold openssh_scp; simpl.
    repeat case_match; simplify_eq/=; naive_solver.
  - intros key src t y. unfold openssh_scp; simpl.
    repeat case_match; simplify_eq/=; naive_solver.
  - intros key src t y u h p c k Hf Ht Hs Hr Hk Ha Hd. unfold openssh_scp; simpl.
    rewrite Ht, Hs. unfold key_authorized. rewrite Hk.
    by rewrite !bool_decide_true, Hf.
Qed.

(** ** [pgrep -x]: a regular expression against the 15-character [comm] *)

Lemma procps_pgrep_x n r y :
  ere_parse n = Some r ->
  procps_pgrep ["-x"; n] y = if existsb (procps_matches n) (sys_procs y) then 0 else 1.
Proof. intros Hn. unfold procps_pgrep. cbn [String.eqb Ascii.eqb Bool.eqb]. by rewrite Hn. Qed.

Lemma procps_matches_simple n p :
  ere_simple n = true ->
  procps_matches n p = fits (String.list_ascii_of_string n) (String.list_ascii_of_string (procps_comm p)).
Proof.
  intros Hn. destruct (matches_simple n (procps_comm p) Hn) as [Hp Hm].
  unfold procps_matches. by rewrite Hp.
Qed.

Lemma procps_matches_literal n p :
  ere_literal n = true -> procps_matches n p = String.eqb (procps_comm p) n.
Proof.
  intros Hn. rewrite procps_matches_simple by (by apply literal_simple).
  apply Bool.eq_true_iff_eq. rewrite fits_literal by done. rewrite String.eqb_eq.
  split; [apply list_ascii_of_string_inj | by intros ->].
Qed.

Lemma existsb_procs_literal n y :
  ere_literal n = true ->
  existsb (procps_matches n) (sys_procs y) = true <-> exists p, p ∈ sys_procs y /\ procps_comm p = n.
Proof.
  intros Hn. rewrite existsb_exists. setoid_rewrite procps_matches_literal; [| done..].
  setoid_rewrite String.eqb_eq. by setoid_rewrite list_elem_of_In.
Qed.

(** C28: pgrep -x takes its argument as an extended regular expression: for a pattern made
    of ordinary characters and dots, it exits 0 exactly when some running process's
    15-character comm has the pattern's length and agrees with it at every position that is
    not a dot, and 1 otherwise; so PROGRAM_TO_CHECK = python3.11 also reports a process
    python3x11 as running. *)
Theorem procps_pgrep_simple n y :
  ere_simple n = true ->
  procps_pgrep ["-x"; n] y =
    if existsb (fun p => fits (String.list_ascii_of_string n) (String.list_ascii_of_string (procps_comm p)))
         (sys_procs y) then 0 else 1.
Proof.
  intros Hn. rewrite (procps_pgrep_x n (lit Eps (String.list_ascii_of_string n))) by
    (by apply ere_parse_simple).
  rewrite (existsb_ext _ _ _ (fun p => procps_matches_simple n p Hn)). done.
Qed.

(** C29: For an ordinary character c, pgrep -x with the pattern c++ exits 0 exactly when
    some process's comm is a non-empty run of c: glibc reads ++ as repeated one-or-more, so
    pgrep -x g++ never sees a process named g++ and the script would transfer while g++
    runs. *)
Theorem procps_pgrep_plus_plus c y :
  lit_char c = true ->
  procps_pgrep ["-x"; String c "++"] y = 0 <->
  exists p k, p ∈ sys_procs y /\ String.list_ascii_of_string (procps_comm p) = repeat c (S k).
Proof.
  intros Hc. rewrite (procps_pgrep_x _ (plus_plus c)) by (by apply ere_parse_plus_plus).
  assert (forall b : bool, (if b then 0 else 1) = 0 <-> b = true) as -> by (intros []; done).
  rewrite existsb_exists. unfold procps_matches. rewrite ere_parse_plus_plus by done.
  setoid_rewrite matches_spec. setoid_rewrite plus_plus_spec. setoid_rewrite list_elem_of_In. naive_solver.
Qed.

(** C30: procps pgrep -x with an ordinary name (no regular-expression operator) longer than
    15 characters reports no match (exit 1) whatever is running, because it compares against
    the kernel's 15-character comm. *)
Theorem procps_pgrep_long_name n y :
  ere_literal n = true -> (15 < String.length n)%nat -> procps_pgrep ["-x"; n] y = 1.
Proof.
  intros Hl Hn. destruct (ere_parse_literal_some n Hl) as [r Hr].
  rewrite (procps_pgrep_x n r) by done.
  destruct (existsb _ _) eqn:He; [| done]. apply existsb_procs_literal in He as (p & _ & Hp); [| done].
  pose proof (substring_length_le 0 15 p). unfold procps_comm in Hp. rewrite Hp in *. lia.
Qed.

(** C31: procps pgrep -x with an ordinary name reports a match for any running process whose
    first 15 characters are that name: a process whose name is longer than 15 characters is
    seen under its 15-character prefix, so the exact-name check is a prefix check for long
    names. *)
Theorem procps_pgrep_prefix_match n p y :
  ere_literal n = true -> String.substring 0 15 p = n -> p ∈ sys_procs y ->
  procps_pgrep ["-x"; n] y = 0.
Proof.
  intros Hl Hp Hin. destruct (ere_parse_literal_some n Hl) as [r Hr].
  rewrite (procps_pgrep_x n r) by done.
  replace (existsb _ _) with true; [done |]. symmetry.
  apply existsb_procs_literal; [done |]. by exists p.
Qed.
