(* ===== verification/Config.v ===== *)
(** * The script's configuration and its logging helper

    [src/pro.py] lines 7-15 fix eight module-level constants; every function
    reads them.  [Config] is that block as a record whose fields keep the
    constants' names, and [pro_config] the values the repository ships.  The
    other components take a [Config], so their theorems hold for any
    configuration that meets the stated conditions.

    [log_message] (lines 18-21) prints a line unless silent mode is on. *)

From stdpp Require Import base strings gmap list.
From Stdlib Require Import Ascii.
From S2P Require Import Prelude PyExc Os.

Local Open Scope string_scope.

Record Config := mkConfig {
  PROGRAM_TO_CHECK : string;
  FILE_TO_TRANSFER : string;
  ARCHIVE_FILENAME : string;
  REMOTE_USER : string;
  REMOTE_HOST : string;
  REMOTE_PATH : string;
  SSH_KEY_PATH : string;
  ENCRYPTION_PASSWORD : string
}.

Definition pro_config : Config := {|
  PROGRAM_TO_CHECK := "xxxx";
  FILE_TO_TRANSFER := "test.txt";
  ARCHIVE_FILENAME := "moveme.zip";
  REMOTE_USER := "foo";
  REMOTE_HOST := "172.168.1.100";
  REMOTE_PATH := "/home/me/Desktop/monitor/rec/";
  SSH_KEY_PATH := "/home/me/.ssh/id_rsa";
  ENCRYPTION_PASSWORD := "STRONG_PASSWORD"
|}.

(** What the rest of the development needs of a configuration: the archive
    is neither the file it packs nor the key; the remote user and host hold
    no character that changes how [scp] splits [USER@HOST:PATH]; the remote
    path ends with '/' as line 13 requires. *)
Definition config_wf (cfg : Config) : bool :=
  negb (String.eqb (ARCHIVE_FILENAME cfg) (FILE_TO_TRANSFER cfg))
  && negb (String.eqb (ARCHIVE_FILENAME cfg) (SSH_KEY_PATH cfg))
  && negb (has_char ":"%char (REMOTE_USER cfg)) && negb (has_char "/"%char (REMOTE_USER cfg))
  && negb (has_char ":"%char (REMOTE_HOST cfg)) && negb (has_char "/"%char (REMOTE_HOST cfg))
  && negb (has_char "@"%char (REMOTE_HOST cfg))
  && ends_with_slash (REMOTE_PATH cfg).

Definition log_message (message : string) (silent_mode : bool) : PyM unit :=
  if negb silent_mode then print message else mret tt.

(** The world after [log_message]. *)
Definition logged (message : string) (silent_mode : bool) (w : World) : World :=
  if silent_mode then w else emit (Stdout message) w.

(** ** Lemmas *)

Lemma pro_config_wf : config_wf pro_config = true.
Proof. reflexivity. Qed.

Lemma config_wf_spec cfg :
  config_wf cfg = true ->
  ARCHIVE_FILENAME cfg <> FILE_TO_TRANSFER cfg /\ ARCHIVE_FILENAME cfg <> SSH_KEY_PATH cfg /\
  has_char ":"%char (REMOTE_USER cfg) = false /\ has_char "/"%char (REMOTE_USER cfg) = false /\
  has_char ":"%char (REMOTE_HOST cfg) = false /\ has_char "/"%char (REMOTE_HOST cfg) = false /\
  has_char "@"%char (REMOTE_HOST cfg) = false /\ ends_with_slash (REMOTE_PATH cfg) = true.
Proof.
  unfold config_wf. rewrite !andb_true_iff, !negb_true_iff, !String.eqb_neq. tauto.
Qed.

Lemma log_message_run msg silent w :
  log_message msg silent w = (logged msg silent w, Norm tt).
Proof. by destruct silent. Qed.

Lemma logged_sys m s w : w_sys (logged m s w) = w_sys w. Proof. by destruct s. Qed.
Lemma logged_out m s w :
  w_out (logged m s w) = if s then w_out w else (w_out w ++ [Stdout m])%list.
Proof. by destruct s. Qed.
Lemma logged_silent m w : logged m true w = w. Proof. done. Qed.

Lemma log_message_silent msg w : log_message msg true w = (w, Norm tt).
Proof. reflexivity. Qed.

#[export] Hint Rewrite log_message_run logged_sys logged_silent : pyrw.

Lemma log_message_out_le msg s : preserves out_le (log_message msg s).
Proof. intros w. rewrite log_message_run. destruct s; [done | apply out_le_emit]. Qed.

#[export] Hint Resolve log_message_out_le : preserve.
