(* ===== verification/ProcessCheck.v ===== *)
(** * [check_process_running]: is the monitored program running?

    [src/pro.py] lines 23-44: log the check, run [pgrep -x NAME] with both
    streams sent to [DEVNULL] and [check=False], and answer whether it
    exited 0.  A missing [pgrep] ([FileNotFoundError]) and any other
    [Exception] are logged and answered with [False]. *)

From stdpp Require Import base strings gmap list.
From Stdlib Require Import ZArith Ascii.
From S2P Require Import Prelude PyExc Os Tools Config.

Local Open Scope string_scope.

Section ProcessCheck.
Context `{ToolSuite}.

Definition check_process_running (program_name : string) (silent_mode : bool) : PyM bool :=
  log_message ("Checking status for program: '" +:+ program_name +:+ "'...") silent_mode ;;
  try_except
    (rc ← subprocess_run ["pgrep"; "-x"; program_name] false true;
     mret (Z.eqb rc 0))
    [(FileNotFoundError, fun _ =>
        log_message "Error: 'pgrep' utility not found. Cannot check process status." silent_mode ;;
        mret false);
     (Exception, fun e =>
        log_message ("An unexpected error occurred during process check: " +:+ exc_str e)
          silent_mode ;;
        mret false)].

End ProcessCheck.

Section ProcessCheckProofs.
Context `{ToolSuite}.

Definition checking_line (n : string) : string :=
  "Checking status for program: '" +:+ n +:+ "'...".

(** Every branch of [check_process_running]. *)
Lemma check_process_running_run n s w :
  check_process_running n s w =
  let w1 := logged (checking_line n) s w in
  match w_bins w !! "pgrep" with
  | Some BinExec =>
      if sigint_during "pgrep" then
        (with_sys (run_interrupted "pgrep" ["-x"; n] (w_sys w)) w1, Exn keyboard_interrupt)
      else (w1, Norm (Z.eqb (run_pgrep ["-x"; n] (w_sys w)) 0))
  | Some BinNoExec =>
      (logged ("An unexpected error occurred during process check: "
               +:+ exc_str (permission_denied "pgrep")) s w1, Norm false)
  | None =>
      (logged "Error: 'pgrep' utility not found. Cannot check process status." s w1,
       Norm false)
  end.
Proof.
  unfold check_process_running, subprocess_run. py_simp.
  destruct (w_bins w !! "pgrep") as [[]|]; py_simp; [| reflexivity..].
  destruct (sigint_during "pgrep"); py_simp; reflexivity.
Qed.

Lemma check_process_running_out_le n s : preserves out_le (check_process_running n s).
Proof. unfold check_process_running. preserve_solve. Qed.
End ProcessCheckProofs.

#[export] Hint Resolve check_process_running_out_le : preserve.

Section ProcessCheckProps.
Context `{ToolSuiteLaws} `{!Uninterrupted}.

(** C6: With no Ctrl-C during the run: check_process_running never raises, changes nothing
    but the console, and answers True exactly when pgrep is installed and executable and
    some running process matches the name (spec section 4.1; a missing pgrep reads as not
    running). *)
Theorem check_process_running_correct n s w :
  exists w' b, check_process_running n s w = (w', Norm b) /\ w_sys w' = w_sys w /\
    (b = true <-> w_bins w !! "pgrep" = Some BinExec /\
                  existsb (proc_matches n) (w_procs w) = true).
Proof.
  rewrite check_process_running_run, no_sigint. cbv zeta.
  destruct (w_bins w !! "pgrep") as [[]|]; (eexists _, _; split; [reflexivity |]);
    autorewrite with pyrw; (split; [done |]).
  - rewrite <- pgrep_status. split; [intros ?%Z.eqb_eq; auto | intros [_ ?%Z.eqb_eq]; done].
  - split; [done | by intros [? _]].
  - split; [done | by intros [? _]].
Qed.
End ProcessCheckProps.
