(* ===== verification/Transfer.v ===== *)
(** * [execute_transfer_logic]: archive, encrypt, ship, clean up

    [src/pro.py] lines 46-125.  After logging that the program is not
    running, the function
    - returns when [FILE_TO_TRANSFER] does not exist (lines 52-54);
    - names the remote copy [backup_<%Y%m%d_%H%M%S>.zip] (lines 59-60);
    - runs [zip -e -P PASSWORD ARCHIVE FILE] with [check=True], output sent
      to [DEVNULL] in silent mode (lines 64-81); a [CalledProcessError] or
      [FileNotFoundError] is logged and ends the function (lines 85-90), any
      other exception propagates;
    - runs [scp -i KEY -o BatchMode=yes ARCHIVE USER@HOST:PATH<name>] with
      [check=True], then removes the local archive (lines 93-117); the
      three [except] clauses of lines 119-125 log the failure.
    The two [return]s inside the first [try] are modelled by the boolean the
    [try] produces: [false] ends the function.

    The second half of the file proves, against the programs' contract
    [ToolSuiteLaws], the outcome of each block and of the whole function:
    the archive is removed only after delivery, the success and failure
    paths of spec section 8, what the function leaves untouched, and the
    findings (a stale archive is shipped, a vanished archive is reported as
    a missing [scp], an unusable [zip] raises). *)

From stdpp Require Import base strings gmap list.
From Stdlib Require Import ZArith Ascii.
From S2P Require Import Prelude PyExc Strftime Os Tools Config ProcessCheck.

Local Open Scope string_scope.

Section Transfer.
Context `{ToolSuite} (cfg : Config).

Definition remote_filename_of (now : datetime) : string :=
  "backup_" +:+ strftime "%Y%m%d_%H%M%S" now +:+ ".zip".

Definition remote_target_of (remote_filename : string) : string :=
  REMOTE_USER cfg +:+ "@" +:+ REMOTE_HOST cfg +:+ ":" +:+ REMOTE_PATH cfg +:+ remote_filename.

Definition zip_command : list string :=
  ["zip"; "-e"; "-P"; ENCRYPTION_PASSWORD cfg; ARCHIVE_FILENAME cfg; FILE_TO_TRANSFER cfg].

Definition scp_command (remote_target : string) : list string :=
  ["scp"; "-i"; SSH_KEY_PATH cfg; "-o"; "BatchMode=yes"; ARCHIVE_FILENAME cfg; remote_target].

(** The [except] clauses of lines 85-90. *)
Definition zip_handlers (silent_mode : bool) : list (exc_class * (exc -> PyM bool)) :=
  [(CalledProcessError, fun _ =>
      log_message "FAILURE: Could not create or encrypt the ZIP archive. Check if 'zip' is installed."
        silent_mode ;;
      mret false);
   (FileNotFoundError, fun _ =>
      log_message "Error: 'zip' utility not found. Please install the zip package." silent_mode ;;
      mret false)].

(** Lines 64-90: [true] when the archive was made, [false] after a
    handled failure (the [return] of lines 87 and 90). *)
Definition zip_step (silent_mode : bool) : PyM bool :=
  try_except
    (_ ← subprocess_run zip_command true silent_mode;
     log_message ("SUCCESS: File successfully zipped and encrypted locally as "
                  +:+ ARCHIVE_FILENAME cfg +:+ ".") silent_mode ;;
     mret true)
    (zip_handlers silent_mode).

(** The [except] clauses of lines 119-125. *)
Definition scp_handlers (silent_mode : bool) : list (exc_class * (exc -> PyM unit)) :=
  [(CalledProcessError, fun _ =>
      log_message "FAILURE: SCP transfer failed. Check SSH key path/permissions, remote path, and network connection."
        silent_mode ;;
      log_message "The local archive was kept for manual inspection." silent_mode);
   (FileNotFoundError, fun _ =>
      log_message "Error: 'scp' utility not found. Please ensure OpenSSH client is installed."
        silent_mode);
   (Exception, fun e =>
      log_message ("An unexpected error occurred during transfer/cleanup: " +:+ exc_str e)
        silent_mode)].

(** Lines 93-125. *)
Definition scp_step (remote_filename : string) (silent_mode : bool) : PyM unit :=
  try_except
    (let remote_target := remote_target_of remote_filename in
     log_message ("Attempting SCP transfer of " +:+ ARCHIVE_FILENAME cfg +:+ " to "
                  +:+ REMOTE_HOST cfg +:+ " as " +:+ remote_filename +:+ "...") silent_mode ;;
     _ ← subprocess_run (scp_command remote_target) true silent_mode;
     log_message ("SUCCESS: Encrypted archive transferred successfully and renamed to "
                  +:+ remote_filename +:+ ".") silent_mode ;;
     os_remove (ARCHIVE_FILENAME cfg) ;;
     log_message ("Cleanup: Local archive " +:+ ARCHIVE_FILENAME cfg +:+ " removed.") silent_mode)
    (scp_handlers silent_mode).

Definition execute_transfer_logic (silent_mode : bool) : PyM unit :=
  log_message ("Status: '" +:+ PROGRAM_TO_CHECK cfg
               +:+ "' is NOT running (PID not found). Initiating file transfer check...")
    silent_mode ;;
  found ← os_path_exists (FILE_TO_TRANSFER cfg);
  if negb found then
    log_message ("WARNING: Local file '" +:+ FILE_TO_TRANSFER cfg +:+ "' not found. Transfer skipped.")
      silent_mode
  else
    log_message ("Found local file: " +:+ FILE_TO_TRANSFER cfg
                 +:+ ". Preparing encrypted ZIP archive...") silent_mode ;;
    now ← datetime_now;
    let remote_filename := remote_filename_of now in
    zipped ← zip_step silent_mode;
    if negb zipped then mret tt else scp_step remote_filename silent_mode.

End Transfer.

Section TransferRuns.
Context `{ToolSuite} (cfg : Config).

Definition zip_call (y : System) : System * Z :=
  run_zip (zip_args (ENCRYPTION_PASSWORD cfg) (ARCHIVE_FILENAME cfg) (FILE_TO_TRANSFER cfg)) y.

Definition scp_call (remote_filename : string) (y : System) : System * Z :=
  run_scp (scp_args (SSH_KEY_PATH cfg) (ARCHIVE_FILENAME cfg) (remote_target_of cfg remote_filename)) y.

(** The machine the two programs leave when Ctrl-C stops them. *)
Definition zip_interrupt (y : System) : System :=
  run_interrupted "zip" (zip_args (ENCRYPTION_PASSWORD cfg) (ARCHIVE_FILENAME cfg) (FILE_TO_TRANSFER cfg)) y.

Definition scp_interrupt (remote_filename : string) (y : System) : System :=
  run_interrupted "scp"
    (scp_args (SSH_KEY_PATH cfg) (ARCHIVE_FILENAME cfg) (remote_target_of cfg remote_filename)) y.

(** The console after a helper program ran with inherited streams. *)
Definition tool_echo (tool : string) (s : bool) (w : World) : World :=
  if s then w else emit (ToolOutput tool) w.

Lemma tool_echo_sys t s w : w_sys (tool_echo t s w) = w_sys w.
Proof. by destruct s. Qed.

Lemma tool_echo_silent t w : tool_echo t true w = w.
Proof. done. Qed.

(** Every branch of the [zip] block. *)
Lemma zip_step_run s w :
  zip_step cfg s w =
  match w_bins w !! "zip" with
  | None => (logged "Error: 'zip' utility not found. Please install the zip package." s w,
             Norm false)
  | Some BinNoExec => (w, Exn (permission_denied "zip"))
  | Some BinExec =>
      if sigint_during "zip" then
        (tool_echo "zip" s (with_sys (zip_interrupt (w_sys w)) w), Exn keyboard_interrupt)
      else
      let w2 := tool_echo "zip" s (with_sys (zip_call (w_sys w)).1 w) in
      if Z.eqb (zip_call (w_sys w)).2 0 then
        (logged ("SUCCESS: File successfully zipped and encrypted locally as "
                 +:+ ARCHIVE_FILENAME cfg +:+ ".") s w2, Norm true)
      else
        (logged "FAILURE: Could not create or encrypt the ZIP archive. Check if 'zip' is installed."
           s w2, Norm false)
  end.
Proof.
  unfold zip_step, zip_handlers, subprocess_run, zip_command, zip_call, zip_interrupt. py_simp.
  destruct (w_bins w !! "zip") as [[]|]; py_simp; [| reflexivity..].
  destruct (sigint_during "zip"); py_simp; [by destruct s |].
  unfold with_sys. destruct (run_zip _ _) as [y1 rc]. unfold tool_echo; cbn.
  destruct (Z.eqb rc 0); py_simp; reflexivity.
Qed.

Definition attempt_line (fname : string) : string :=
  "Attempting SCP transfer of " +:+ ARCHIVE_FILENAME cfg +:+ " to " +:+ REMOTE_HOST cfg
  +:+ " as " +:+ fname +:+ "...".

(** Every branch of the [scp] block. *)
Lemma scp_step_run fname s w :
  scp_step cfg fname s w =
  let w1 := logged (attempt_line fname) s w in
  match w_bins w !! "scp" with
  | None =>
      (logged "Error: 'scp' utility not found. Please ensure OpenSSH client is installed." s w1,
       Norm tt)
  | Some BinNoExec =>
      (logged ("An unexpected error occurred during transfer/cleanup: "
               +:+ exc_str (permission_denied "scp")) s w1, Norm tt)
  | Some BinExec =>
      if sigint_during "scp" then
        (tool_echo "scp" s (with_sys (scp_interrupt fname (w_sys w)) w1), Exn keyboard_interrupt)
      else
      let w3 := tool_echo "scp" s (with_sys (scp_call fname (w_sys w)).1 w1) in
      if Z.eqb (scp_call fname (w_sys w)).2 0 then
        let w4 := logged ("SUCCESS: Encrypted archive transferred successfully and renamed to "
                          +:+ fname +:+ ".") s w3 in
        match os_remove (ARCHIVE_FILENAME cfg) w4 with
        | (w5, Norm _) =>
            (logged ("Cleanup: Local archive " +:+ ARCHIVE_FILENAME cfg +:+ " removed.") s w5,
             Norm tt)
        | (w5, Exn e) =>
            match except_dispatch (scp_handlers s) e with
            | Some k => k w5
            | None => (w5, Exn e)
            end
        end
      else
        (logged "The local archive was kept for manual inspection." s
           (logged "FAILURE: SCP transfer failed. Check SSH key path/permissions, remote path, and network connection."
              s w3), Norm tt)
  end.
Proof.
  unfold scp_step, scp_handlers, subprocess_run, scp_command, scp_call, scp_interrupt,
    attempt_line.
  py_simp.
  destruct (w_bins w !! "scp") as [[]|]; py_simp; [| reflexivity..].
  destruct (sigint_during "scp"); py_simp; [by destruct s |].
  unfold with_sys. destruct (run_scp _ _) as [y2 rc]. unfold tool_echo; cbn.
  destruct (Z.eqb rc 0); py_simp; [| reflexivity].
  destruct (os_remove _ _) as [w5 [[]|e]]; py_simp; reflexivity.
Qed.

Definition status_line : string :=
  "Status: '" +:+ PROGRAM_TO_CHECK cfg
  +:+ "' is NOT running (PID not found). Initiating file transfer check...".

Definition found_line : string :=
  "Found local file: " +:+ FILE_TO_TRANSFER cfg +:+ ". Preparing encrypted ZIP archive...".

Definition missing_line : string :=
  "WARNING: Local file '" +:+ FILE_TO_TRANSFER cfg +:+ "' not found. Transfer skipped.".

(** The function as the sequence of its two blocks. *)
Lemma execute_transfer_logic_run s w :
  execute_transfer_logic cfg s w =
  let w1 := logged status_line s w in
  if bool_decide (is_Some (w_fs w !! FILE_TO_TRANSFER cfg)) then
    match zip_step cfg s (logged found_line s w1) with
    | (w3, Norm true) => scp_step cfg (remote_filename_of (w_now w)) s w3
    | (w3, Norm false) => (w3, Norm tt)
    | (w3, Exn e) => (w3, Exn e)
    end
  else (logged missing_line s w1, Norm tt).
Proof.
  unfold execute_transfer_logic, os_path_exists, datetime_now, status_line, found_line,
    missing_line.
  py_simp. case_bool_decide; py_simp; [| reflexivity].
  destruct (zip_step _ _ _) as [w3 [[|]|e]]; reflexivity.
Qed.

(** The function only adds lines to the console. *)
Lemma execute_transfer_logic_out_le s : preserves out_le (execute_transfer_logic cfg s).
Proof.
  unfold execute_transfer_logic, zip_step, zip_handlers, scp_step, scp_handlers.
  preserve_solve.
Qed.
End TransferRuns.

#[export] Hint Resolve execute_transfer_logic_out_le : preserve.

#[export] Hint Rewrite @tool_echo_sys @tool_echo_silent : pyrw.

Section RemoteName.
Context (cfg : Config).

Lemma remote_filename_no_slash d : has_char "/"%char (remote_filename_of d) = false.
Proof.
  assert (forall w n, has_char "/"%char (zpad w n) = false) as Hz
    by (intros; apply all_digits_no_char; [done | apply zpad_all_digits]).
  unfold remote_filename_of. rewrite strftime_compact, !has_char_app, !Hz, pretty_Z_no_slash.
  done.
Qed.

Lemma remote_filename_not_dir d : ends_with_slash (remote_filename_of d) = false.
Proof.
  unfold remote_filename_of.
  rewrite !ends_with_slash_app; [done | done | by apply string_app_neq_nil_r].
Qed.

Lemma remote_filename_neq_nil d : remote_filename_of d <> "".
Proof. unfold remote_filename_of. by rewrite string_app_cons. Qed.

(** The remote path names a file, so [scp] writes exactly there. *)
Lemma scp_dest_remote d src :
  scp_dest (REMOTE_PATH cfg +:+ remote_filename_of d) src = REMOTE_PATH cfg +:+ remote_filename_of d.
Proof.
  unfold scp_dest. rewrite ends_with_slash_app, remote_filename_not_dir
    by apply remote_filename_neq_nil.
  rewrite bool_decide_false; [done |].
  apply string_app_neq_nil_r, remote_filename_neq_nil.
Qed.

Lemma remote_dir_prefix d :
  config_wf cfg = true -> dir_prefix (REMOTE_PATH cfg +:+ remote_filename_of d) = REMOTE_PATH cfg.
Proof.
  intros Hwf. apply config_wf_spec in Hwf.
  apply dir_prefix_app; [tauto | apply remote_filename_no_slash].
Qed.

Lemma remote_target_parse fname :
  config_wf cfg = true ->
  parse_scp_target (remote_target_of cfg fname)
  = Some (Some (REMOTE_USER cfg), REMOTE_HOST cfg, REMOTE_PATH cfg +:+ fname).
Proof.
  intros Hwf. apply config_wf_spec in Hwf. unfold remote_target_of.
  apply parse_scp_target_roundtrip; tauto.
Qed.

(** C27: The scp target line 94 builds, USER@HOST:PATH followed by the timestamped name, is
    read back by scp as user REMOTE_USER, host REMOTE_HOST and path
    REMOTE_PATH/backup_<timestamp>.zip, which names a file (scp writes there, not into a
    directory of that name) inside REMOTE_PATH, for every configuration meeting config_wf. *)
Theorem remote_target_roundtrip d :
  config_wf cfg = true ->
  parse_scp_target (remote_target_of cfg (remote_filename_of d))
  = Some (Some (REMOTE_USER cfg), REMOTE_HOST cfg, REMOTE_PATH cfg +:+ remote_filename_of d) /\
  scp_dest (REMOTE_PATH cfg +:+ remote_filename_of d) (ARCHIVE_FILENAME cfg)
  = REMOTE_PATH cfg +:+ remote_filename_of d /\
  dir_prefix (REMOTE_PATH cfg +:+ remote_filename_of d) = REMOTE_PATH cfg.
Proof.
  intros Hwf. split; [by apply remote_target_parse |].
  split; [apply scp_dest_remote | by apply remote_dir_prefix].
Qed.
End RemoteName.

(** ** What [execute_transfer_logic] guarantees

    Theorems about [src/pro.py] lines 46-125, proved against the helper
    programs' contract [ToolSuiteLaws]: the outcome of each [try] block, the
    success path (spec section 8, scenario C), the failure paths that keep
    the archive (scenario D), and the invariant that the local archive is
    only removed after the remote host holds it. *)

Section TransferProps.
Context `{ToolSuiteLaws} `{!Uninterrupted} (cfg : Config).

Lemma zip_call_success y c :
  sys_zip_fault y = None -> sys_fs y !! FILE_TO_TRANSFER cfg = Some c ->
  (forall d, sys_fs y !! ARCHIVE_FILENAME cfg <> Some (Plain d)) ->
  zip_call cfg y = (zip_result y (ENCRYPTION_PASSWORD cfg) (ARCHIVE_FILENAME cfg)
                      (FILE_TO_TRANSFER cfg) c, 0%Z).
Proof.
  intros Hf Hc Ha. unfold zip_call.
  pose proof (zip_works (ENCRYPTION_PASSWORD cfg) _ _ _ _ Hf Hc Ha) as Hrc.
  destruct (zip_succeeded _ _ _ _ Hrc) as (c' & Hc' & Hy).
  rewrite Hc in Hc'. simplify_eq.
  destruct (run_zip _ _); simpl in *; by subst.
Qed.

Lemma scp_call_success y d a k :
  config_wf cfg = true -> sys_scp_fault y = None ->
  sys_fs y !! ARCHIVE_FILENAME cfg = Some a -> REMOTE_HOST cfg ∈ sys_reachable y ->
  sys_fs y !! SSH_KEY_PATH cfg = Some (Plain k) ->
  (REMOTE_HOST cfg, REMOTE_USER cfg, k) ∈ sys_authorized y ->
  (REMOTE_HOST cfg, REMOTE_PATH cfg) ∈ sys_remote_dirs y ->
  scp_call cfg (remote_filename_of d) y =
  (sys_set_remote (<[(REMOTE_HOST cfg, REMOTE_PATH cfg +:+ remote_filename_of d) := a]>
                     (sys_remote y)) y, 0%Z).
Proof.
  intros Hwf Hf Ha Hr Hk Hauth Hdir. unfold scp_call.
  assert (Hrc : (run_scp (scp_args (SSH_KEY_PATH cfg) (ARCHIVE_FILENAME cfg)
                   (remote_target_of cfg (remote_filename_of d))) y).2 = 0%Z).
  { eapply scp_works; [done | by apply remote_target_parse | done | done | done | done |].
    by rewrite scp_dest_remote, remote_dir_prefix. }
  destruct (scp_succeeded _ _ _ _ Hrc) as (u & h & p & c & Ht & Hc & Hy).
  rewrite remote_target_parse in Ht by done.
  simplify_eq. rewrite scp_dest_remote in Hy.
  destruct (run_scp _ _); simpl in *; by subst.
Qed.

(** The [except] clauses of the [scp] block only log. *)
Lemma scp_handlers_sys s e w :
  w_sys (match except_dispatch (scp_handlers s) e with
         | Some k => k w | None => (w, Exn e) end).1 = w_sys w.
Proof.
  unfold scp_handlers. cbn [except_dispatch].
  destruct (isinstance e CalledProcessError); [py_simp; reflexivity |].
  destruct (isinstance e FileNotFoundError); [py_simp; reflexivity |].
  destruct (isinstance e Exception); py_simp; reflexivity.
Qed.

Lemma scp_handlers_res s e w :
  (match except_dispatch (scp_handlers s) e with
   | Some k => k w | None => (w, Exn e) end).2 =
  if isinstance e Exception then Norm tt else Exn e.
Proof.
  rewrite <- isinstance_Exception_handled. unfold scp_handlers. cbn [except_dispatch].
  destruct (isinstance e CalledProcessError) eqn:E1; [py_simp; rewrite orb_true_r; reflexivity |].
  destruct (isinstance e FileNotFoundError) eqn:E2; [py_simp; rewrite orb_true_r; reflexivity |].
  destruct (isinstance e Exception) eqn:E3; py_simp; reflexivity.
Qed.

(** What one call of [zip] can do: fail and change nothing, or write the
    archive of the file. *)
Lemma zip_call_outcome y :
  ((zip_call cfg y).2 <> 0%Z /\ (zip_call cfg y).1 = y) \/
  ((zip_call cfg y).2 = 0%Z /\ exists c, sys_fs y !! FILE_TO_TRANSFER cfg = Some c /\
     (zip_call cfg y).1 = zip_result y (ENCRYPTION_PASSWORD cfg) (ARCHIVE_FILENAME cfg)
                            (FILE_TO_TRANSFER cfg) c).
Proof.
  unfold zip_call.
  destruct (Z.eq_dec (run_zip (zip_args (ENCRYPTION_PASSWORD cfg) (ARCHIVE_FILENAME cfg)
                                (FILE_TO_TRANSFER cfg)) y).2 0) as [Hrc|Hrc]; [right | left].
  - split; [done |]. by apply zip_succeeded.
  - split; [done |]. by apply zip_failed.
Qed.

Lemma zip_step_outcome s w w1 r :
  zip_step cfg s w = (w1, r) ->
  (w_sys w1 = w_sys w /\ r <> Norm true) \/
  (r = Norm true /\ exists c, w_fs w !! FILE_TO_TRANSFER cfg = Some c /\
     w_sys w1 = zip_result (w_sys w) (ENCRYPTION_PASSWORD cfg) (ARCHIVE_FILENAME cfg)
                  (FILE_TO_TRANSFER cfg) c).
Proof.
  rewrite zip_step_run, ?no_sigint. destruct (w_bins w !! "zip") as [[]|].
  - destruct (zip_call_outcome (w_sys w)) as [[Hrc Hy]|[Hrc Hc]]; cbv zeta.
    + rewrite (proj2 (Z.eqb_neq _ _) Hrc). intros [= <- <-]. left. by autorewrite with pyrw.
    + rewrite Hrc, Z.eqb_refl. intros [= <- <-]. right. split; [done |]. by autorewrite with pyrw.
  - intros [= <- <-]. by left.
  - intros [= <- <-]. left. by autorewrite with pyrw.
Qed.

(** The machine after the [scp] block: untouched, the remote copy made
    and the local archive possibly removed, or a partial copy left on the
    remote host under the run's name by a copy that stopped part-way. *)
Definition delivered (d : datetime) (a : file) (y : System) : System :=
  sys_set_remote (<[(REMOTE_HOST cfg, REMOTE_PATH cfg +:+ remote_filename_of d) := a]>
                    (sys_remote y)) y.

(** What one call of [scp] can do: fail and change nothing or leave a
    partial plain copy under the run's name, or put the archive on the
    remote host under that name. *)
Lemma scp_call_outcome d y :
  config_wf cfg = true ->
  ((scp_call cfg (remote_filename_of d) y).2 <> 0%Z /\
   ((scp_call cfg (remote_filename_of d) y).1 = y \/
    exists b, (scp_call cfg (remote_filename_of d) y).1 = delivered d (Plain b) y)) \/
  ((scp_call cfg (remote_filename_of d) y).2 = 0%Z /\ exists a, sys_fs y !! ARCHIVE_FILENAME cfg = Some a /\
     (scp_call cfg (remote_filename_of d) y).1 = delivered d a y).
Proof.
  intros Hwf. unfold scp_call, delivered.
  destruct (Z.eq_dec (run_scp (scp_args (SSH_KEY_PATH cfg) (ARCHIVE_FILENAME cfg)
                                (remote_target_of cfg (remote_filename_of d))) y).2 0) as [Hrc|Hrc].
  2:{ left. split; [done |]. destruct (scp_failed _ _ _ _ Hrc) as [?|(u & h & p & b & Ht & Hy)];
      [by left | right]. rewrite remote_target_parse in Ht by done. injection Ht as <- <- <-.
      rewrite scp_dest_remote in Hy. by exists b. }
  right. split; [done |]. destruct (scp_succeeded _ _ _ _ Hrc) as (u & h & p & a & Ht & Ha & Hy).
  rewrite remote_target_parse in Ht by done. injection Ht as <- <- <-.
  rewrite scp_dest_remote in Hy. by exists a.
Qed.

Lemma scp_step_outcome d s w w' r :
  config_wf cfg = true ->
  scp_step cfg (remote_filename_of d) s w = (w', r) ->
  w_sys w' = w_sys w \/ (exists b, w_sys w' = delivered d (Plain b) (w_sys w)) \/
  exists a, w_fs w !! ARCHIVE_FILENAME cfg = Some a /\
    (w_sys w' = delivered d a (w_sys w) \/
     w_sys w' = sys_set_fs (delete (ARCHIVE_FILENAME cfg) (w_fs w)) (delivered d a (w_sys w))).
Proof.
  intros Hwf. rewrite scp_step_run, ?no_sigint. cbv zeta. destruct (w_bins w !! "scp") as [[]|].
  2, 3: intros [= <- <-]; left; by autorewrite with pyrw.
  destruct (scp_call_outcome d (w_sys w) Hwf) as [[Hrc Hy]|[Hrc (a & Ha & Hy)]].
  { rewrite (proj2 (Z.eqb_neq _ _) Hrc). intros [= <- <-]. autorewrite with pyrw.
    destruct Hy as [->|[b ->]]; [by left | right; left; by exists b]. }
  rewrite Hrc, Hy, Z.eqb_refl. unfold os_remove, delivered. autorewrite with pyrw. sys_simpl.
  rewrite Ha. intros Hrun. apply (f_equal (fun p => w_sys p.1)) in Hrun.
  change (w_sys (w', r).1) with (w_sys w') in Hrun.
  right; right. exists a. split; [done |].
  destruct (w_rm_fault w) as [e|]; cbv beta iota zeta in Hrun.
  - left. rewrite <- Hrun, scp_handlers_sys. by destruct s.
  - right. rewrite <- Hrun. by destruct s.
Qed.

Definition archive_of (w : World) (c : file) : file :=
  zip_archive (w_fs w) (ENCRYPTION_PASSWORD cfg) (ARCHIVE_FILENAME cfg) (FILE_TO_TRANSFER cfg) c.

Definition zipped_sys (w : World) (c : file) : System :=
  zip_result (w_sys w) (ENCRYPTION_PASSWORD cfg) (ARCHIVE_FILENAME cfg) (FILE_TO_TRANSFER cfg) c.

(** A stale archive's other entries stay beside the new one. *)
Lemma archive_of_keeps_stale w c es e :
  w_fs w !! ARCHIVE_FILENAME cfg = Some (ZipArchive es) -> NoDup (entry_name <$> es) ->
  e ∈ es -> entry_name e <> FILE_TO_TRANSFER cfg ->
  exists es', archive_of w c = ZipArchive es' /\ NoDup (entry_name <$> es') /\
    e ∈ es' /\ ZipEntry (FILE_TO_TRANSFER cfg) (Some (ENCRYPTION_PASSWORD cfg)) c ∈ es'.
Proof.
  intros Ha Hnd He Hn. unfold archive_of, zip_archive, archive_entries. rewrite Ha.
  destruct (zip_upsert_spec (ZipEntry (FILE_TO_TRANSFER cfg) (Some (ENCRYPTION_PASSWORD cfg)) c)
              es Hnd) as (Hnd' & Hin & Hiff).
  eexists; split; [reflexivity |]. split; [done |]. split; [| done].
  apply Hiff. by right.
Qed.

(** What one run of the function can do to the machine. *)
Lemma execute_transfer_outcome s w w' r :
  config_wf cfg = true ->
  execute_transfer_logic cfg s w = (w', r) ->
  w_sys w' = w_sys w \/
  exists c, w_fs w !! FILE_TO_TRANSFER cfg = Some c /\
    (w_sys w' = zipped_sys w c \/
     (exists b, w_sys w' = delivered (w_now w) (Plain b) (zipped_sys w c)) \/
     w_sys w' = delivered (w_now w) (archive_of w c) (zipped_sys w c) \/
     w_sys w' = sys_set_fs (delete (ARCHIVE_FILENAME cfg) (sys_fs (zipped_sys w c)))
                  (delivered (w_now w) (archive_of w c) (zipped_sys w c))).
Proof.
  intros Hwf. rewrite execute_transfer_logic_run. cbv zeta.
  case_bool_decide; [| intros [= <- _]; left; by autorewrite with pyrw].
  destruct (zip_step cfg s _) as [w3 r3] eqn:Hz.
  apply zip_step_outcome in Hz as [[Hs Hr]|[-> (c & Hc & Hs)]].
  - autorewrite with pyrw in Hs.
    destruct r3 as [[|]|e]; [congruence | |]; intros [= <- _]; by left.
  - autorewrite with pyrw in Hc, Hs. unfold zipped_sys, archive_of. intros Hrun. right. exists c. split; [done |].
    destruct (scp_step_outcome _ _ _ _ _ Hwf Hrun) as [Hs'|[[b Hs']|(a & Ha & Hs')]].
    + left. by rewrite Hs'.
    + right; left. exists b. by rewrite Hs', Hs.
    + rewrite Hs in Ha, Hs'. sys_simpl. rewrite lookup_insert_eq in Ha.
      injection Ha as <-. right; right. done.
Qed.

(** C21: With no Ctrl-C during the run: a run of execute_transfer_logic changes no local
    file other than the archive (the source file and the key are untouched) and removes no
    remote file. *)
Theorem execute_transfer_frame s w w' r :
  config_wf cfg = true ->
  execute_transfer_logic cfg s w = (w', r) ->
  (forall p, p <> ARCHIVE_FILENAME cfg -> w_fs w' !! p = w_fs w !! p) /\
  dom (w_remote w) ⊆ dom (w_remote w').
Proof.
  intros Hwf Hrun.
  destruct (execute_transfer_outcome _ _ _ _ Hwf Hrun) as [Hs|(c & Hc & [Hs|[[b Hs]|[Hs|Hs]]])];
    rewrite Hs; unfold delivered, zipped_sys; sys_simpl;
    (split; [intros p Hp; rewrite ?lookup_delete_ne, ?lookup_insert_ne by congruence; done |]);
    rewrite ?dom_insert_L; set_solver.
Qed.

(** C1: With no Ctrl-C during the run: the transfer never loses the archive: if the local
    archive is absent after a run of execute_transfer_logic, either the run changed nothing
    on the machine or the remote host holds that very archive under the run's timestamped
    name (spec section 3: the archive is removed only after the transfer succeeded). *)
Theorem archive_removed_only_after_delivery s w w' r :
  config_wf cfg = true ->
  execute_transfer_logic cfg s w = (w', r) ->
  w_fs w' !! ARCHIVE_FILENAME cfg = None ->
  w_sys w' = w_sys w \/
  exists c, w_fs w !! FILE_TO_TRANSFER cfg = Some c /\
    w_remote w' !! (REMOTE_HOST cfg, REMOTE_PATH cfg +:+ remote_filename_of (w_now w))
    = Some (archive_of w c).
Proof.
  intros Hwf Hrun Hgone.
  destruct (execute_transfer_outcome _ _ _ _ Hwf Hrun) as [?|(c & Hc & [Hs|[[b Hs]|[Hs|Hs]]])];
    [by left | | | |]; rewrite Hs in Hgone |- *; unfold delivered, zipped_sys in *; sys_simpl.
  - by rewrite lookup_insert_eq in Hgone.
  - by rewrite lookup_insert_eq in Hgone.
  - by rewrite lookup_insert_eq in Hgone.
  - right. exists c. split; [done |]. apply lookup_insert_eq.
Qed.

End TransferProps.

Section TransferPaths.
Context `{ToolSuiteLaws} `{!Uninterrupted} (cfg : Config).

(** C8: When FILE_TO_TRANSFER does not exist, execute_transfer_logic logs the status line
    and the warning, returns normally, and runs neither zip nor scp (spec section 8,
    scenario B). *)
Theorem execute_transfer_no_file s w :
  w_fs w !! FILE_TO_TRANSFER cfg = None ->
  execute_transfer_logic cfg s w =
  (logged (missing_line cfg) s (logged (status_line cfg) s w), Norm tt).
Proof.
  intros Hf. rewrite execute_transfer_logic_run, Hf, bool_decide_false; [done |].
  by intros [? ?].
Qed.

(** C9: With no Ctrl-C during the run: when zip is missing, or runs and exits non-zero,
    execute_transfer_logic returns normally and the machine is exactly as before: no archive
    and no transfer (spec section 4.3). *)
Theorem execute_transfer_zip_not_made s w c :
  w_fs w !! FILE_TO_TRANSFER cfg = Some c ->
  w_bins w !! "zip" = None \/
  (w_bins w !! "zip" = Some BinExec /\ (zip_call cfg (w_sys w)).2 <> 0%Z) ->
  exists w', execute_transfer_logic cfg s w = (w', Norm tt) /\ w_sys w' = w_sys w.
Proof.
  intros Hf Hz. rewrite execute_transfer_logic_run, Hf, bool_decide_true by done.
  cbv zeta. rewrite zip_step_run, ?no_sigint. autorewrite with pyrw.
  destruct Hz as [-> | [-> Hrc]].
  - eexists; split; [reflexivity |]. by autorewrite with pyrw.
  - cbv zeta. rewrite (proj2 (Z.eqb_neq _ _) Hrc).
    eexists; split; [reflexivity |]. autorewrite with pyrw.
    unfold zip_call in *. by apply zip_failed.
Qed.

(** C22: With no Ctrl-C during the run: when the file exists and zip is on PATH but not
    executable, execute_transfer_logic logs the status and found lines and then raises
    PermissionError, which neither except clause of the zip block catches. *)
Theorem execute_transfer_zip_not_executable s w c :
  w_fs w !! FILE_TO_TRANSFER cfg = Some c ->
  w_bins w !! "zip" = Some BinNoExec ->
  execute_transfer_logic cfg s w =
  (logged (found_line cfg) s (logged (status_line cfg) s w), Exn (permission_denied "zip")).
Proof.
  intros Hf Hz. rewrite execute_transfer_logic_run, Hf, bool_decide_true by done.
  cbv zeta. rewrite zip_step_run, ?no_sigint. autorewrite with pyrw. by rewrite Hz.
Qed.

(** The world after the [zip] block succeeded. *)
Definition zipped_world (s : bool) (w : World) (c : file) : World :=
  logged ("SUCCESS: File successfully zipped and encrypted locally as "
          +:+ ARCHIVE_FILENAME cfg +:+ ".") s
    (tool_echo "zip" s (with_sys (zipped_sys cfg w c)
                          (logged (found_line cfg) s (logged (status_line cfg) s w)))).

Lemma execute_transfer_zipped s w c :
  w_bins w !! "zip" = Some BinExec -> w_zip_fault w = None ->
  w_fs w !! FILE_TO_TRANSFER cfg = Some c ->
  (forall d, w_fs w !! ARCHIVE_FILENAME cfg <> Some (Plain d)) ->
  execute_transfer_logic cfg s w = scp_step cfg (remote_filename_of (w_now w)) s (zipped_world s w c).
Proof.
  intros Hz Hzf Hc Ha. rewrite execute_transfer_logic_run, Hc, bool_decide_true by done.
  cbv zeta. rewrite zip_step_run, ?no_sigint. autorewrite with pyrw. rewrite Hz.
  rewrite (zip_call_success _ _ c) by done. cbv zeta. by rewrite Z.eqb_refl.
Qed.

Lemma zipped_world_sys s w c : w_sys (zipped_world s w c) = zipped_sys cfg w c.
Proof. unfold zipped_world. autorewrite with pyrw. done. Qed.

(** The world after [scp] reported success, before the cleanup. *)
Definition sent_world (d : datetime) (a : file) (s : bool) (w : World) : World :=
  logged ("SUCCESS: Encrypted archive transferred successfully and renamed to "
          +:+ remote_filename_of d +:+ ".") s
    (tool_echo "scp" s (with_sys (delivered cfg d a (w_sys w))
                          (logged (attempt_line cfg (remote_filename_of d)) s w))).

Lemma scp_step_sent d s w a k :
  config_wf cfg = true -> w_bins w !! "scp" = Some BinExec -> w_scp_fault w = None ->
  w_fs w !! ARCHIVE_FILENAME cfg = Some a -> REMOTE_HOST cfg ∈ w_reachable w ->
  w_fs w !! SSH_KEY_PATH cfg = Some (Plain k) ->
  (REMOTE_HOST cfg, REMOTE_USER cfg, k) ∈ w_authorized w ->
  (REMOTE_HOST cfg, REMOTE_PATH cfg) ∈ w_remote_dirs w ->
  scp_step cfg (remote_filename_of d) s w =
  match os_remove (ARCHIVE_FILENAME cfg) (sent_world d a s w) with
  | (w5, Norm _) =>
      (logged ("Cleanup: Local archive " +:+ ARCHIVE_FILENAME cfg +:+ " removed.") s w5, Norm tt)
  | (w5, Exn e) =>
      match except_dispatch (scp_handlers s) e with Some k => k w5 | None => (w5, Exn e) end
  end.
Proof.
  intros Hwf Hs Hf Ha Hr Hk Hauth Hdir. rewrite scp_step_run, ?no_sigint, Hs. cbv zeta.
  autorewrite with pyrw. rewrite (scp_call_success _ _ _ a k) by done.
  cbv zeta. rewrite Z.eqb_refl. reflexivity.
Qed.

Lemma sent_world_sys d a s w : w_sys (sent_world d a s w) = delivered cfg d a (w_sys w).
Proof. unfold sent_world. autorewrite with pyrw. done. Qed.

Lemma zipped_world_fields s w c :
  ARCHIVE_FILENAME cfg <> SSH_KEY_PATH cfg ->
  w_bins (zipped_world s w c) = w_bins w /\ w_reachable (zipped_world s w c) = w_reachable w /\
  w_scp_fault (zipped_world s w c) = w_scp_fault w /\
  w_authorized (zipped_world s w c) = w_authorized w /\
  w_remote_dirs (zipped_world s w c) = w_remote_dirs w /\
  w_remote (zipped_world s w c) = w_remote w /\ w_rm_fault (zipped_world s w c) = w_rm_fault w /\
  w_fs (zipped_world s w c) !! ARCHIVE_FILENAME cfg = Some (archive_of cfg w c) /\
  w_fs (zipped_world s w c) !! SSH_KEY_PATH cfg = w_fs w !! SSH_KEY_PATH cfg.
Proof.
  intros HAK. rewrite !zipped_world_sys. unfold zipped_sys, archive_of. sys_simpl.
  rewrite lookup_insert_eq, lookup_insert_ne by done. done.
Qed.

(** Under the conditions of a full success, the run reaches the cleanup
    with the archive delivered. *)
Lemma execute_transfer_sent s w c k :
  config_wf cfg = true ->
  w_bins w !! "zip" = Some BinExec -> w_bins w !! "scp" = Some BinExec ->
  w_zip_fault w = None -> w_scp_fault w = None ->
  w_fs w !! FILE_TO_TRANSFER cfg = Some c ->
  (forall d, w_fs w !! ARCHIVE_FILENAME cfg <> Some (Plain d)) ->
  REMOTE_HOST cfg ∈ w_reachable w ->
  w_fs w !! SSH_KEY_PATH cfg = Some (Plain k) ->
  (REMOTE_HOST cfg, REMOTE_USER cfg, k) ∈ w_authorized w ->
  (REMOTE_HOST cfg, REMOTE_PATH cfg) ∈ w_remote_dirs w ->
  let w4 := sent_world (w_now w) (archive_of cfg w c) s (zipped_world s w c) in
  execute_transfer_logic cfg s w =
  match w_rm_fault w with
  | Some e =>
      match except_dispatch (scp_handlers s) e with Some k => k w4 | None => (w4, Exn e) end
  | None =>
      (logged ("Cleanup: Local archive " +:+ ARCHIVE_FILENAME cfg +:+ " removed.") s
         (set_fs (delete (ARCHIVE_FILENAME cfg) (w_fs w4)) w4), Norm tt)
  end.
Proof.
  intros Hwf Hz Hs Hzf Hsf0 Hc Ha Hr Hk Hauth Hdir w4.
  pose proof (config_wf_spec _ Hwf) as (HAF & HAK & _).
  destruct (zipped_world_fields s w c HAK) as (Hb & Hre & Hsf & Hau & Hdi & _ & Hrm & Harch & Hkey).
  rewrite (execute_transfer_zipped s w c) by done.
  rewrite (scp_step_sent _ _ _ (archive_of cfg w c) k); try congruence.
  unfold os_remove. subst w4. rewrite sent_world_sys. unfold delivered. sys_simpl.
  rewrite Harch, <- Hrm. by destruct (w_rm_fault _).
Qed.

(** C3: With no Ctrl-C during the run: when the file exists, zip and scp are installed and
    work (the copy does not stop part-way), the key is authorized, the remote directory
    exists and the cleanup meets no fault, execute_transfer_logic returns normally, the
    local archive is gone and the remote host holds the encrypted archive under
    backup_<timestamp>.zip (spec section 8, scenario C). *)
Theorem execute_transfer_success s w c k :
  config_wf cfg = true ->
  w_bins w !! "zip" = Some BinExec -> w_bins w !! "scp" = Some BinExec ->
  w_zip_fault w = None -> w_scp_fault w = None -> w_rm_fault w = None ->
  w_fs w !! FILE_TO_TRANSFER cfg = Some c ->
  (forall d, w_fs w !! ARCHIVE_FILENAME cfg <> Some (Plain d)) ->
  REMOTE_HOST cfg ∈ w_reachable w ->
  w_fs w !! SSH_KEY_PATH cfg = Some (Plain k) ->
  (REMOTE_HOST cfg, REMOTE_USER cfg, k) ∈ w_authorized w ->
  (REMOTE_HOST cfg, REMOTE_PATH cfg) ∈ w_remote_dirs w ->
  exists w', execute_transfer_logic cfg s w = (w', Norm tt) /\
    w_fs w' = delete (ARCHIVE_FILENAME cfg) (w_fs w) /\
    w_remote w' = <[(REMOTE_HOST cfg, REMOTE_PATH cfg +:+ remote_filename_of (w_now w))
                    := archive_of cfg w c]> (w_remote w).
Proof.
  intros Hwf Hz Hs Hzf Hsf Hrf Hc Ha Hr Hk Hauth Hdir.
  rewrite (execute_transfer_sent s w c k), Hrf by done.
  eexists; split; [reflexivity |]. autorewrite with pyrw. sys_simpl.
  rewrite sent_world_sys, zipped_world_sys. unfold delivered, zipped_sys. sys_simpl.
  split; [apply delete_insert_eq | done].
Qed.

(** C32: With no Ctrl-C during the run: when an archive left by an earlier run already holds
    another entry at ARCHIVE_FILENAME and the transfer succeeds, execute_transfer_logic
    ships an archive that holds that stale entry beside the encrypted FILE_TO_TRANSFER, and
    removes the local archive: zip -e -P updates the existing archive (spec section 4.3 says
    the archive contains exactly the one source file). *)
Theorem execute_transfer_ships_stale s w c k es e :
  config_wf cfg = true ->
  w_bins w !! "zip" = Some BinExec -> w_bins w !! "scp" = Some BinExec ->
  w_zip_fault w = None -> w_scp_fault w = None -> w_rm_fault w = None ->
  w_fs w !! FILE_TO_TRANSFER cfg = Some c ->
  w_fs w !! ARCHIVE_FILENAME cfg = Some (ZipArchive es) -> NoDup (entry_name <$> es) ->
  e ∈ es -> entry_name e <> FILE_TO_TRANSFER cfg ->
  REMOTE_HOST cfg ∈ w_reachable w ->
  w_fs w !! SSH_KEY_PATH cfg = Some (Plain k) ->
  (REMOTE_HOST cfg, REMOTE_USER cfg, k) ∈ w_authorized w ->
  (REMOTE_HOST cfg, REMOTE_PATH cfg) ∈ w_remote_dirs w ->
  exists w' es', execute_transfer_logic cfg s w = (w', Norm tt) /\
    w_fs w' !! ARCHIVE_FILENAME cfg = None /\
    w_remote w' !! (REMOTE_HOST cfg, REMOTE_PATH cfg +:+ remote_filename_of (w_now w))
      = Some (ZipArchive es') /\
    e ∈ es' /\ ZipEntry (FILE_TO_TRANSFER cfg) (Some (ENCRYPTION_PASSWORD cfg)) c ∈ es'.
Proof.
  intros Hwf Hz Hs Hzf Hsf Hrf Hc Ha Hnd He Hn Hr Hk Hauth Hdir.
  rewrite (execute_transfer_sent s w c k), Hrf by (done || by rewrite Ha).
  destruct (archive_of_keeps_stale cfg w c es e Ha Hnd He Hn) as (es' & Hes' & _ & He' & Hc').
  eexists _, es'; split; [reflexivity |]. autorewrite with pyrw. sys_simpl.
  rewrite sent_world_sys, zipped_world_sys. unfold delivered, zipped_sys. sys_simpl.
  rewrite lookup_delete_eq, lookup_insert_eq, Hes'. done.
Qed.

(** C15: With no Ctrl-C during the run: when the transfer succeeds but os.remove raises
    FileNotFoundError, the FileNotFoundError clause of the scp block logs that the scp
    utility was not found, after the success line, and the function returns normally. *)
Theorem execute_transfer_remove_vanished s w c k :
  config_wf cfg = true ->
  w_bins w !! "zip" = Some BinExec -> w_bins w !! "scp" = Some BinExec ->
  w_zip_fault w = None -> w_scp_fault w = None ->
  w_rm_fault w = Some (file_not_found (ARCHIVE_FILENAME cfg)) ->
  w_fs w !! FILE_TO_TRANSFER cfg = Some c ->
  (forall d, w_fs w !! ARCHIVE_FILENAME cfg <> Some (Plain d)) ->
  REMOTE_HOST cfg ∈ w_reachable w ->
  w_fs w !! SSH_KEY_PATH cfg = Some (Plain k) ->
  (REMOTE_HOST cfg, REMOTE_USER cfg, k) ∈ w_authorized w ->
  (REMOTE_HOST cfg, REMOTE_PATH cfg) ∈ w_remote_dirs w ->
  execute_transfer_logic cfg s w =
  (logged "Error: 'scp' utility not found. Please ensure OpenSSH client is installed." s
     (sent_world (w_now w) (archive_of cfg w c) s (zipped_world s w c)), Norm tt).
Proof.
  intros Hwf Hz Hs Hzf Hsf Hrf Hc Ha Hr Hk Hauth Hdir.
  rewrite (execute_transfer_sent s w c k), Hrf by done.
  unfold scp_handlers. py_simp. reflexivity.
Qed.

(** C4: With no Ctrl-C during the run: when zip succeeds and scp exits non-zero,
    execute_transfer_logic returns normally, keeps the local archive and, unless silent,
    logs that the archive was kept (spec section 8, scenario D); the remote host is
    unchanged, or holds a partial plain copy under the run's backup_<timestamp>.zip name
    when the copy stopped part-way (remote disk full, connection lost), which the script
    neither reports nor removes. *)
Theorem execute_transfer_scp_failure_keeps_archive s w c :
  config_wf cfg = true ->
  w_bins w !! "zip" = Some BinExec -> w_bins w !! "scp" = Some BinExec ->
  w_zip_fault w = None ->
  w_fs w !! FILE_TO_TRANSFER cfg = Some c ->
  (forall d, w_fs w !! ARCHIVE_FILENAME cfg <> Some (Plain d)) ->
  (scp_call cfg (remote_filename_of (w_now w)) (zipped_sys cfg w c)).2 <> 0%Z ->
  exists w', execute_transfer_logic cfg s w = (w', Norm tt) /\
    w_fs w' !! ARCHIVE_FILENAME cfg = Some (archive_of cfg w c) /\
    (w_remote w' = w_remote w \/
     exists b, w_remote w' = <[(REMOTE_HOST cfg, REMOTE_PATH cfg +:+ remote_filename_of (w_now w))
                              := Plain b]> (w_remote w)) /\
    (s = false -> Stdout "The local archive was kept for manual inspection." ∈ w_out w').
Proof.
  intros Hwf Hz Hs Hzf Hc Ha Hrc.
  rewrite (execute_transfer_zipped s w c) by done.
  rewrite scp_step_run, ?no_sigint. rewrite zipped_world_sys. cbv zeta.
  replace (sys_bins (zipped_sys cfg w c)) with (w_bins w) by (unfold zipped_sys; by sys_simpl).
  rewrite Hs, (proj2 (Z.eqb_neq _ _) Hrc).
  eexists; split; [reflexivity |]. autorewrite with pyrw. rewrite ?with_sys_sys.
  destruct (scp_call_outcome cfg (w_now w) (zipped_sys cfg w c) Hwf) as [[_ [Hy|[b Hy]]]|[? _]];
    [| | done]; rewrite Hy; unfold delivered, zipped_sys, archive_of; sys_simpl;
    rewrite lookup_insert_eq; (split; [done | split; [| intros ->; cbn; set_solver]]).
  - by left.
  - right. by exists b.
Qed.
End TransferPaths.
