(* ===== verification/Main.v ===== *)
(** * [main] and the interpreter's top level

    [src/pro.py] lines 128-150: parse the command line, print the banner
    (date, host name), run the gate — [check_process_running], then either
    the "is running" line or [execute_transfer_logic] — and print the
    closing banner and "Done.".

    [run_script] is [python3 pro.py ARGS]: an exception that leaves [main]
    ends the interpreter; [SystemExit] gives its code as the exit status,
    [KeyboardInterrupt] prints a traceback and ends with 130 (CPython
    kills itself with SIGINT, which the shell reports as 128 + 2), any
    other exception prints a traceback to stderr and ends with status 1;
    a normal return exits with 0.

    The theorems that follow show that the gate follows [pgrep], which
    exceptions can leave [main], the exit status, what a silent run can
    print, and the banner of a run that is not silent. *)

From stdpp Require Import base strings gmap list.
From Stdlib Require Import ZArith Ascii.
From S2P Require Import Prelude PyExc Strftime Os Tools Config ProcessCheck Transfer Argparse.

Local Open Scope string_scope.

Section Main.
Context `{ToolSuite} (cfg : Config).

Definition banner_line : string := "==========================================".
Definition rule_line : string := "------------------------------------------".

(** Lines 141-144. *)
Definition gate (silent_mode : bool) : PyM unit :=
  running ← check_process_running (PROGRAM_TO_CHECK cfg) silent_mode;
  if (running : bool) then
    log_message ("Status: '" +:+ PROGRAM_TO_CHECK cfg +:+ "' is running. No transfer initiated.")
      silent_mode
  else execute_transfer_logic cfg silent_mode.

Definition main (argv : list string) : PyM unit :=
  dests ← py_parse_args pro_parser argv;
  let silent_mode := bool_decide ("silent" ∈ dests) in
  log_message banner_line silent_mode ;;
  now ← datetime_now;
  log_message ("Date/Time: " +:+ strftime "%Y-%m-%d %H:%M:%S" now) silent_mode ;;
  host ← os_uname_nodename;
  log_message ("Hostname: " +:+ host) silent_mode ;;
  log_message rule_line silent_mode ;;
  gate silent_mode ;;
  log_message banner_line silent_mode ;;
  log_message "Done." silent_mode.
End Main.

Definition exc_class_name (c : exc_class) : string :=
  match c with
  | BaseException => "BaseException" | SystemExit => "SystemExit"
  | KeyboardInterrupt => "KeyboardInterrupt" | Exception => "Exception"
  | OSError => "OSError" | FileNotFoundError => "FileNotFoundError"
  | PermissionError => "PermissionError" | SubprocessError => "subprocess.SubprocessError"
  | CalledProcessError => "subprocess.CalledProcessError" | LookupError => "LookupError"
  | IndexError => "IndexError"
  end.

(** The status [sys.exit(code)] ends the interpreter with; [argparse] only
    raises the codes 0 and 2. *)
Definition system_exit_status (e : exc) : Z :=
  if String.eqb (exc_str e) "0" then 0%Z else if String.eqb (exc_str e) "2" then 2%Z else 1%Z.

(** The double quote character. *)
Definition dquote : string := String (ascii_of_nat 34) "".

(** The last line of a traceback: the class, and [": " + str(e)] unless
    [str(e)] is empty ([traceback.format_exception_only]). *)
Definition exc_line (e : exc) : string :=
  exc_class_name (exc_cls e) +:+ (if String.eqb (exc_str e) "" then "" else ": " +:+ exc_str e).

Definition traceback (e : exc) : console_line :=
  Stderr ("Traceback (most recent call last):
  File " +:+ dquote +:+ "pro.py" +:+ dquote +:+ ", line 150, in <module>
" +:+ exc_line e).

Definition run_script `{ToolSuite} (cfg : Config) (argv : list string) (w : World) : World * Z :=
  match main cfg argv w with
  | (w', Norm _) => (w', 0%Z)
  | (w', Exn e) =>
      if isinstance e SystemExit then (w', system_exit_status e)
      else if isinstance e KeyboardInterrupt then (emit (traceback e) w', 130%Z)
      else (emit (traceback e) w', 1%Z)
  end.

(** ** Theorems about [main] and the script's exit

    [src/pro.py] lines 128-150.  [main] is the banner, the gate and the
    closing banner; [gate_decides_on_pgrep] shows that the gate follows
    [pgrep] alone, [execute_transfer_raises] which exceptions can leave the
    transfer, and the [run_script] theorems the exit status and what a
    silent run writes to the console. *)

Section MainRuns.
Context `{ToolSuite} (cfg : Config).

Definition running_line : string :=
  "Status: '" +:+ PROGRAM_TO_CHECK cfg +:+ "' is running. No transfer initiated.".

Lemma gate_run s w :
  gate cfg s w =
  match check_process_running (PROGRAM_TO_CHECK cfg) s w with
  | (w1, Norm true) => (logged running_line s w1, Norm tt)
  | (w1, Norm false) => execute_transfer_logic cfg s w1
  | (w1, Exn e) => (w1, Exn e)
  end.
Proof.
  unfold gate, running_line. py_unfold.
  destruct (check_process_running _ _ _) as [w1 [[|]|e]]; py_simp; reflexivity.
Qed.

(** The banner before the gate. *)
Definition opened (s : bool) (w : World) : World :=
  logged rule_line s
    (logged ("Hostname: " +:+ w_host w) s
       (logged ("Date/Time: " +:+ strftime "%Y-%m-%d %H:%M:%S" (w_now w)) s
          (logged banner_line s w))).

Definition closed (s : bool) (w : World) : World :=
  logged "Done." s (logged banner_line s w).

Lemma main_run argv ds w :
  parse_args pro_parser argv = Parsed ds ->
  let s := bool_decide ("silent" ∈ ds) in
  main cfg argv w =
  match gate cfg s (opened s w) with
  | (w5, Norm _) => (closed s w5, Norm tt)
  | (w5, Exn e) => (w5, Exn e)
  end.
Proof.
  intros Hp s. unfold main, py_parse_args. rewrite Hp. py_unfold.
  unfold datetime_now, os_uname_nodename, opened, closed. py_simp.
  fold s. destruct (gate cfg s _) as [w5 [|e]]; py_simp; reflexivity.
Qed.

Lemma gate_out_le s : preserves out_le (gate cfg s).
Proof. unfold gate. preserve_solve.  Qed.

Lemma main_out_le argv : preserves out_le (main cfg argv).
Proof. unfold main. pose proof gate_out_le. preserve_solve. Qed.

(** The four lines [main] opens with. *)
Definition opening_lines (w : World) : list console_line :=
  [Stdout banner_line; Stdout ("Date/Time: " +:+ strftime "%Y-%m-%d %H:%M:%S" (w_now w));
   Stdout ("Hostname: " +:+ w_host w); Stdout rule_line].

(** C18: Without -s, main's console output starts with the four banner lines (rule, date and
    time, host name, rule); if main returns normally, the output ends with the closing rule
    and Done. *)
Theorem main_banner argv ds w :
  parse_args pro_parser argv = Parsed ds -> "silent" ∉ ds ->
  match main cfg argv w with
  | (w', Norm _) => exists l, w_out w' = (w_out w ++ opening_lines w ++ l
                                            ++ [Stdout banner_line; Stdout "Done."])%list
  | (w', Exn _) => exists l, w_out w' = (w_out w ++ opening_lines w ++ l)%list
  end.
Proof.
  intros Hp Hs. rewrite (main_run _ _ _ Hp). cbv zeta. rewrite bool_decide_false by done.
  pose proof (gate_out_le false (opened false w)) as Hg.
  destruct (gate cfg false _) as [w5 [|e]]; cbn [fst] in Hg;
    destruct Hg as [l Hl]; exists l; unfold closed, opened in *;
    rewrite ?logged_out in *; cbn [w_sys] in *; rewrite Hl, <- ?app_assoc; done.
Qed.
End MainRuns.

Section Silent.
Context `{ToolSuite} (cfg : Config).

Lemma scp_handlers_silent e w :
  w_out (match except_dispatch (scp_handlers true) e with
         | Some k => k w | None => (w, Exn e) end).1 = w_out w.
Proof.
  unfold scp_handlers. cbn [except_dispatch].
  destruct (isinstance e CalledProcessError); [py_simp; reflexivity |].
  destruct (isinstance e FileNotFoundError); [py_simp; reflexivity |].
  destruct (isinstance e Exception); py_simp; reflexivity.
Qed.

Lemma check_process_running_silent n w :
  w_out (check_process_running n true w).1 = w_out w.
Proof.
  rewrite check_process_running_run. cbv zeta. autorewrite with pyrw.
  destruct (w_bins w !! "pgrep") as [[]|]; [| done..].
  by destruct (sigint_during "pgrep"); autorewrite with pyrw.
Qed.

Lemma scp_step_silent fname w : w_out (scp_step cfg fname true w).1 = w_out w.
Proof.
  rewrite scp_step_run. cbv zeta. autorewrite with pyrw.
  destruct (w_bins w !! "scp") as [[]|]; [| done..].
  destruct (sigint_during "scp"); [by autorewrite with pyrw |].
  destruct (Z.eqb _ 0); [| by autorewrite with pyrw].
  autorewrite with pyrw.
  pose proof (os_remove_out (ARCHIVE_FILENAME cfg)
                (with_sys (scp_call cfg fname (w_sys w)).1 w)) as Ho.
  destruct (os_remove _ _) as [w5 [|e]]; cbn in Ho.
  - by autorewrite with pyrw.
  - rewrite scp_handlers_silent. by rewrite Ho.
Qed.

Lemma execute_transfer_silent w : w_out (execute_transfer_logic cfg true w).1 = w_out w.
Proof.
  rewrite execute_transfer_logic_run. cbv zeta. autorewrite with pyrw.
  case_bool_decide; [| done].
  rewrite zip_step_run. autorewrite with pyrw.
  destruct (w_bins w !! "zip") as [[]|]; [| done..].
  destruct (sigint_during "zip"); [by autorewrite with pyrw |].
  cbv zeta. destruct (Z.eqb _ 0); autorewrite with pyrw; [| done].
  rewrite scp_step_silent. by autorewrite with pyrw.
Qed.


Lemma gate_silent w : w_out (gate cfg true w).1 = w_out w.
Proof.
  rewrite gate_run. pose proof (check_process_running_silent (PROGRAM_TO_CHECK cfg) w) as Hc.
  destruct (check_process_running _ _ _) as [w1 [[|]|e]]; cbn [fst] in Hc |- *.
  - by autorewrite with pyrw.
  - by rewrite execute_transfer_silent.
  - done.
Qed.

(** C16: With -s/--silent, main itself writes nothing to the console whatever the branch,
    including the runs that end in an exception. *)
Theorem main_silent_no_output argv ds w :
  parse_args pro_parser argv = Parsed ds -> "silent" ∈ ds ->
  w_out (main cfg argv w).1 = w_out w.
Proof.
  intros Hp Hs. rewrite (main_run _ _ _ _ Hp). cbv zeta. rewrite bool_decide_true by done.
  pose proof (gate_silent (opened true w)) as Hg.
  destruct (gate cfg true _) as [w5 [|e]]; cbn [fst] in Hg |- *; unfold closed, opened in *;
    autorewrite with pyrw in *; done.
Qed.
End Silent.

Section Raises.
Context `{ToolSuiteLaws} `{!Uninterrupted} (cfg : Config).

(** [scp] leaves the cleanup fault of the machine as it was. *)
Lemma scp_call_rm_fault fname y : sys_rm_fault (scp_call cfg fname y).1 = sys_rm_fault y.
Proof.
  unfold scp_call. destruct (Z.eq_dec (run_scp (scp_args (SSH_KEY_PATH cfg)
    (ARCHIVE_FILENAME cfg) (remote_target_of cfg fname)) y).2 0) as [Hrc|Hrc].
  - destruct (scp_succeeded _ _ _ _ Hrc) as (? & ? & ? & ? & _ & _ & ->). done.
  - by destruct (scp_failed _ _ _ _ Hrc) as [->|(? & ? & ? & ? & _ & ->)].
Qed.

(** The [scp] block lets out only a cleanup fault that is no [Exception]. *)
Lemma scp_step_raises fname s w w' e :
  scp_step cfg fname s w = (w', Exn e) ->
  w_rm_fault w = Some e /\ isinstance e Exception = false.
Proof.
  rewrite scp_step_run, ?no_sigint. cbv zeta. destruct (w_bins w !! "scp") as [[]|]; [| done..].
  destruct (Z.eqb _ 0); [| done].
  unfold os_remove. autorewrite with pyrw. rewrite scp_call_rm_fault.
  destruct (sys_fs _ !! _) as [a|].
  - destruct (w_rm_fault w) as [e'|]; cbv beta iota zeta; [| by intros [=]].
    intros Hrun%(f_equal snd). rewrite scp_handlers_res in Hrun. cbn in Hrun.
  destruct (isinstance e' Exception) eqn:E; [done |]. by injection Hrun as ->.
  - intros Hrun%(f_equal snd). rewrite scp_handlers_res in Hrun. done.
Qed.

Lemma zip_step_raises s w w1 e :
  zip_step cfg s w = (w1, Exn e) ->
  w_bins w !! "zip" = Some BinNoExec /\ e = permission_denied "zip" /\ w1 = w.
Proof.
  rewrite zip_step_run, ?no_sigint. destruct (w_bins w !! "zip") as [[]|]; cbv zeta;
    [destruct (Z.eqb _ 0) | |]; intros; simplify_eq; done.
Qed.

(** C20: With no Ctrl-C during the run: execute_transfer_logic lets an exception escape only
    in two cases: the file exists and zip is on PATH but not executable (PermissionError),
    or os.remove meets a fault that is not an Exception. *)
Theorem execute_transfer_raises s w w' e :
  execute_transfer_logic cfg s w = (w', Exn e) ->
  (is_Some (w_fs w !! FILE_TO_TRANSFER cfg) /\ w_bins w !! "zip" = Some BinNoExec /\
   e = permission_denied "zip") \/
  (w_rm_fault w = Some e /\ isinstance e Exception = false).
Proof.
  rewrite execute_transfer_logic_run. cbv zeta.
  case_bool_decide as Hf; [| done].
  destruct (zip_step cfg s _) as [w3 r3] eqn:Hz. destruct r3 as [[|]|e3].
  - intros Hrun%scp_step_raises. right.
    apply zip_step_outcome in Hz as [[_ ?]|[_ (c & _ & Hs)]]; [done |].
    rewrite Hs in Hrun. sys_simpl. by autorewrite with pyrw in Hrun.
  - done.
  - intros [= <- <-]. apply zip_step_raises in Hz as (Hb & -> & _).
    left. by autorewrite with pyrw in Hb.
Qed.
End Raises.

Section MainProps.
Context `{ToolSuiteLaws} `{!Uninterrupted} (cfg : Config).

(** C23: A command line that asks for help (-h or --help anywhere, -s included) makes the
    script print argparse's help text and exit with status 0 without touching the machine:
    -s does not silence it (spec section 6 says the flag suppresses all console output). *)
Theorem run_script_help argv w :
  parse_args pro_parser argv = Help ->
  run_script cfg argv w = (emit (Stdout (help_text pro_parser)) w, 0%Z).
Proof.
  intros Hp. unfold run_script, main, py_parse_args. rewrite Hp.
  unfold print. py_simp. reflexivity.
Qed.

(** C24: A command line argparse rejects (an unknown argument, an ambiguous prefix, a value
    given to a flag), -s included, makes the script print the usage and the error on stderr
    and exit with status 2 before the banner, without touching the machine: silent mode does
    not silence it, and the spec's exit statuses (section 6) do not cover this case. *)
Theorem run_script_parse_error argv msg w :
  parse_args pro_parser argv = ParseError msg ->
  run_script cfg argv w =
  (emit (Stderr (usage pro_parser +:+ "
" +:+ parser_prog pro_parser +:+ ": error: " +:+ msg)) w, 2%Z).
Proof.
  intros Hp. unfold run_script, main, py_parse_args. rewrite Hp.
  py_simp. reflexivity.
Qed.

(** The gate follows [pgrep] alone: the check leaves the machine as it
    was, and the branch taken is the one [pgrep] selects. *)
Theorem gate_decides_on_pgrep s w :
  exists w1, w_sys w1 = w_sys w /\
    gate cfg s w =
    if bool_decide (w_bins w !! "pgrep" = Some BinExec)
       && existsb (proc_matches (PROGRAM_TO_CHECK cfg)) (w_procs w)
    then (logged (running_line cfg) s w1, Norm tt)
    else execute_transfer_logic cfg s w1.
Proof.
  rewrite gate_run, check_process_running_run, ?no_sigint. cbv zeta.
  destruct (w_bins w !! "pgrep") as [[]|]; cbv iota.
  2, 3: eexists; split; [| rewrite bool_decide_false by done; reflexivity];
    by autorewrite with pyrw.
  exists (logged (checking_line (PROGRAM_TO_CHECK cfg)) s w).
  split; [by autorewrite with pyrw |].
  rewrite bool_decide_true by done. cbn [andb].
  destruct (existsb _ _) eqn:E.
  - by rewrite (proj2 (pgrep_status _ _) E).
  - destruct (Z.eqb_spec (run_pgrep ["-x"; PROGRAM_TO_CHECK cfg] (w_sys w)) 0) as [Hr|]; [| done].
    apply pgrep_status in Hr. congruence.
Qed.

(** C5: With no Ctrl-C during the run: when pgrep is installed and some process matches
    PROGRAM_TO_CHECK, main returns normally without touching the machine and, unless silent,
    logs that the program is running and no transfer was initiated (spec section 4.2,
    scenario A). *)
Theorem main_process_running argv ds w :
  parse_args pro_parser argv = Parsed ds ->
  w_bins w !! "pgrep" = Some BinExec ->
  existsb (proc_matches (PROGRAM_TO_CHECK cfg)) (w_procs w) = true ->
  exists w', main cfg argv w = (w', Norm tt) /\ w_sys w' = w_sys w /\
    (bool_decide ("silent" ∈ ds) = false -> Stdout (running_line cfg) ∈ w_out w').
Proof.
  intros Hp Hpg Hm. rewrite (main_run _ _ _ _ Hp). cbv zeta.
  set (s := bool_decide ("silent" ∈ ds)).
  destruct (gate_decides_on_pgrep s (opened s w)) as (w1 & Hsys & ->).
  unfold opened in *. autorewrite with pyrw in *. rewrite Hpg, Hm, bool_decide_true by done.
  eexists; split; [reflexivity |]. unfold closed. autorewrite with pyrw.
  split; [done |]. intros Hs. rewrite Hs. unfold logged. cbn. set_solver.
Qed.

(** Which exceptions can leave [main] once the command line is parsed. *)
Lemma main_raises argv ds w w' e :
  parse_args pro_parser argv = Parsed ds ->
  main cfg argv w = (w', Exn e) ->
  (is_Some (w_fs w !! FILE_TO_TRANSFER cfg) /\ w_bins w !! "zip" = Some BinNoExec /\
   e = permission_denied "zip") \/
  (w_rm_fault w = Some e /\ isinstance e Exception = false).
Proof.
  intros Hp. rewrite (main_run _ _ _ _ Hp). cbv zeta.
  set (s := bool_decide ("silent" ∈ ds)).
  destruct (gate_decides_on_pgrep s (opened s w)) as (w1 & Hsys & ->).
  destruct (bool_decide _ && _); [done |].
  destruct (execute_transfer_logic cfg s w1) as [w5 [|e5]] eqn:E; [done |].
  intros [= <- <-]. apply execute_transfer_raises in E.
  unfold opened in Hsys. autorewrite with pyrw in Hsys. by rewrite Hsys in E.
Qed.

(** C19: With no Ctrl-C during the run: once the arguments parse, the script exits with
    status 0 whenever zip is not a non-executable file on PATH and the fault os.remove may
    meet is an Exception (spec section 6: exit status 0 on the documented paths). *)
Theorem run_script_exit_zero argv ds w :
  parse_args pro_parser argv = Parsed ds ->
  w_bins w !! "zip" <> Some BinNoExec ->
  (forall e, w_rm_fault w = Some e -> isinstance e Exception = true) ->
  (run_script cfg argv w).2 = 0%Z.
Proof.
  intros Hp Hz Hrm. unfold run_script.
  destruct (main cfg argv w) as [w' [|e]] eqn:E; [done |].
  destruct (main_raises _ _ _ _ _ Hp E) as [(_ & ? & _)|[He Hx]]; [done |].
  by rewrite Hrm in Hx.
Qed.

(** C17: With no Ctrl-C during the run: with -s/--silent, the whole script writes either
    nothing, or one traceback line, in which case it exits non-zero and the exception is the
    zip PermissionError or the fault os.remove met. *)
Theorem run_script_silent argv ds w :
  parse_args pro_parser argv = Parsed ds -> "silent" ∈ ds ->
  w_out (run_script cfg argv w).1 = w_out w \/
  exists e, w_out (run_script cfg argv w).1 = (w_out w ++ [traceback e])%list /\
    (run_script cfg argv w).2 <> 0%Z /\
    (e = permission_denied "zip" \/ w_rm_fault w = Some e).
Proof.
  intros Hp Hs. pose proof (main_silent_no_output cfg _ _ w Hp Hs) as Ho. unfold run_script.
  destruct (main cfg argv w) as [w' [|e]] eqn:E; cbn [fst] in Ho |- *; [by left |].
  assert (Hsrc : e = permission_denied "zip" \/ w_rm_fault w = Some e)
    by (destruct (main_raises _ _ _ _ _ Hp E) as [(_ & _ & ?)|[? _]]; auto).
  destruct (isinstance e SystemExit) eqn:Hx; [by left |].
  right. exists e.
  destruct (isinstance e KeyboardInterrupt); cbn [fst snd]; autorewrite with pyrw;
    rewrite Ho; auto.
Qed.

(** C10: With no Ctrl-C during the run: in silent mode, when the program is not running, the
    file exists and zip is on PATH but not executable, the script prints a Python traceback
    for the PermissionError and exits with status 1: silent mode is not silent and the run
    does not complete (contradicts spec sections 7 and 8). *)
Theorem run_script_silent_traceback argv ds w c :
  parse_args pro_parser argv = Parsed ds -> "silent" ∈ ds ->
  existsb (proc_matches (PROGRAM_TO_CHECK cfg)) (w_procs w) = false ->
  w_fs w !! FILE_TO_TRANSFER cfg = Some c -> w_bins w !! "zip" = Some BinNoExec ->
  run_script cfg argv w = (emit (traceback (permission_denied "zip")) w, 1%Z).
Proof.
  intros Hp Hs Hm Hf Hz. unfold run_script. rewrite (main_run _ _ _ _ Hp). cbv zeta.
  rewrite bool_decide_true by done.
  pose proof (gate_silent cfg (opened true w)) as Ho.
  destruct (gate_decides_on_pgrep true (opened true w)) as (w1 & Hsys & Hg).
  rewrite Hg in Ho |- *. unfold opened in *. autorewrite with pyrw in *.
  rewrite Hm, andb_false_r in *.
  rewrite (execute_transfer_zip_not_executable cfg _ _ c) in Ho |- * by (rewrite Hsys; done).
  autorewrite with pyrw in Ho |- *. cbn [fst] in Ho.
  replace w1 with w by (destruct w, w1; cbn in *; congruence). done.
Qed.
End MainProps.
