(* ===== verification/Pipeline.v ===== *)
(** * The script as a decision on the machine: an abstract specification

    Spec section 9 proposes an explicit outcome per run (skipped because
    the program runs, skipped for want of the file, archive failed,
    transfer failed, transferred).  [pipeline] is that decision written
    over the machine alone, with no console and no exceptions: which
    outcome a run has and the machine it leaves.  [gate_refines] and
    [run_script_refines] show that the script, with its logging and its
    [try] blocks, implements it exactly for any implementation of the
    helper programs, and that the exit status depends on the outcome only
    through [outcome_status]: every outcome but a crash exits with 0.
    [sys_wf], distinct entry names in every ZIP archive, is the
    well-formedness a retry relies on ([Runs.retry_ships_current]). *)

From stdpp Require Import base strings gmap list.
From Stdlib Require Import ZArith Ascii.
From S2P Require Import Prelude PyExc Strftime Os Tools Config ProcessCheck Transfer Argparse Main.

Local Open Scope string_scope.

Inductive outcome :=
  | Running
  | NoFile
  | ArchiveFailed
  | TransferFailed
  | Transferred
  | CleanupFailed
  | Crashed (e : exc).

Definition outcome_res (o : outcome) : res exc unit :=
  match o with Crashed e => Exn e | _ => Norm tt end.

(** The exit status [run_script] gives an outcome. *)
Definition outcome_status (o : outcome) : Z :=
  match o with
  | Crashed e =>
      if isinstance e SystemExit then system_exit_status e
      else if isinstance e KeyboardInterrupt then 130%Z else 1%Z
  | _ => 0%Z
  end.

(** The machine's well-formedness: the entry names of every ZIP archive,
    local or remote, are distinct, as [zip] keeps them when it updates an
    archive ([Tools.zip_upsert]). *)
Definition archive_wf (f : file) : Prop :=
  match f with ZipArchive es => NoDup (entry_name <$> es) | Plain _ => True end.

Definition sys_wf (y : System) : Prop :=
  map_Forall (fun _ => archive_wf) (sys_fs y) /\ map_Forall (fun _ => archive_wf) (sys_remote y).

#[export] Instance archive_wf_dec f : Decision (archive_wf f).
Proof. destruct f; cbn; apply _. Defined.

#[export] Instance sys_wf_dec y : Decision (sys_wf y).
Proof. unfold sys_wf. apply _. Defined.

Section Pipeline.
Context `{ToolSuite} (cfg : Config).

Definition cleanup (y : System) : outcome * System :=
  match sys_fs y !! ARCHIVE_FILENAME cfg, sys_rm_fault y with
  | Some _, None => (Transferred, sys_set_fs (delete (ARCHIVE_FILENAME cfg) (sys_fs y)) y)
  | None, _ => (CleanupFailed, y)
  | Some _, Some e => if isinstance e Exception then (CleanupFailed, y) else (Crashed e, y)
  end.

(** A Ctrl-C while a program runs ends the run with [KeyboardInterrupt],
    the machine as the interrupted program left it. *)
Definition transfer (d : datetime) (y : System) : outcome * System :=
  match sys_bins y !! "scp" with
  | Some BinExec =>
      if sigint_during "scp" then (Crashed keyboard_interrupt, scp_interrupt cfg (remote_filename_of d) y)
      else
        let '(y2, rc) := scp_call cfg (remote_filename_of d) y in
        if (rc =? 0)%Z then cleanup y2 else (TransferFailed, y2)
  | _ => (TransferFailed, y)
  end.

Definition archive (y : System) : outcome * System :=
  match sys_bins y !! "zip" with
  | None => (ArchiveFailed, y)
  | Some BinNoExec => (Crashed (permission_denied "zip"), y)
  | Some BinExec =>
      if sigint_during "zip" then (Crashed keyboard_interrupt, zip_interrupt cfg y)
      else
        let '(y1, rc) := zip_call cfg y in
        if (rc =? 0)%Z then transfer (sys_now y) y1 else (ArchiveFailed, y1)
  end.

(** Past the check: archive the file if it is there. *)
Definition unattended (y : System) : outcome * System :=
  if bool_decide (is_Some (sys_fs y !! FILE_TO_TRANSFER cfg)) then archive y else (NoFile, y).

Definition pipeline (y : System) : outcome * System :=
  match sys_bins y !! "pgrep" with
  | Some BinExec =>
      if sigint_during "pgrep"
      then (Crashed keyboard_interrupt, run_interrupted "pgrep" ["-x"; PROGRAM_TO_CHECK cfg] y)
      else if (run_pgrep ["-x"; PROGRAM_TO_CHECK cfg] y =? 0)%Z then (Running, y)
      else unattended y
  | _ => unattended y
  end.

(** What a run does to the machine and how it ends, without the console. *)
Definition effect {A} (r : World * res exc A) : System * res exc A := (w_sys r.1, r.2).

Definition spec_effect (r : outcome * System) : System * res exc unit := (r.2, outcome_res r.1).

Lemma effect_pair {A} w (r : res exc A) : effect (w, r) = (w_sys w, r).
Proof. done. Qed.
#[local] Hint Rewrite @effect_pair : pyrw.

Lemma scp_step_refines d s w :
  effect (scp_step cfg (remote_filename_of d) s w) = spec_effect (transfer d (w_sys w)).
Proof.
  rewrite scp_step_run. unfold transfer. cbv zeta.
  destruct (w_bins w !! "scp") as [[]|]; [| by autorewrite with pyrw..].
  destruct (sigint_during "scp"); [by autorewrite with pyrw |].
  destruct (scp_call cfg _ (w_sys w)) as [y2 rc] eqn:E. cbn [fst snd].
  destruct (Z.eqb rc 0); [| by autorewrite with pyrw].
  unfold os_remove, cleanup. autorewrite with pyrw.
  destruct (sys_fs y2 !! _) as [a|]; cbv iota.
  - destruct (sys_rm_fault y2) as [e|]; cbv iota; [| by autorewrite with pyrw].
    unfold effect. rewrite scp_handlers_sys, scp_handlers_res. autorewrite with pyrw.
    by destruct (isinstance e Exception).
  - unfold effect. rewrite scp_handlers_sys, scp_handlers_res. autorewrite with pyrw.
    done.
Qed.

Lemma zip_step_refines s w :
  effect (zip_step cfg s w) =
  match w_bins w !! "zip" with
  | None => (w_sys w, Norm false)
  | Some BinNoExec => (w_sys w, Exn (permission_denied "zip"))
  | Some BinExec =>
      if sigint_during "zip" then (zip_interrupt cfg (w_sys w), Exn keyboard_interrupt)
      else ((zip_call cfg (w_sys w)).1, Norm ((zip_call cfg (w_sys w)).2 =? 0)%Z)
  end.
Proof.
  rewrite zip_step_run. destruct (w_bins w !! "zip") as [[]|]; [| by autorewrite with pyrw..].
  destruct (sigint_during "zip"); [by autorewrite with pyrw |].
  cbv zeta. by destruct (Z.eqb _ 0); autorewrite with pyrw.
Qed.

Lemma execute_transfer_logic_refines s w :
  effect (execute_transfer_logic cfg s w) = spec_effect (unattended (w_sys w)).
Proof.
  rewrite execute_transfer_logic_run. unfold unattended. cbv zeta.
  case_bool_decide; [| by autorewrite with pyrw].
  destruct (zip_step cfg s _) as [w3 r3] eqn:Hz.
  apply (f_equal effect) in Hz. rewrite zip_step_refines in Hz. autorewrite with pyrw in Hz.
  unfold archive. destruct (w_bins w !! "zip") as [[]|];
    [destruct (sigint_during "zip") |..]; injection Hz as Hs Hr; subst r3.
  - by rewrite effect_pair, Hs.
  - destruct (zip_call cfg (w_sys w)) as [y1 rc]. cbn [fst snd] in *.
    destruct (Z.eqb rc 0); [| by rewrite effect_pair, Hs].
    by rewrite scp_step_refines, Hs.
  - by rewrite effect_pair, Hs.
  - by rewrite effect_pair, Hs.
Qed.

(** C7: Refinement, for any implementation of the helper programs, Ctrl-C included: the gate
    (check, then transfer) changes the machine exactly as the pure decision pipeline says
    and raises exactly when the pipeline's outcome is a crash, with that exception. *)
Theorem gate_refines s w : effect (gate cfg s w) = spec_effect (pipeline (w_sys w)).
Proof.
  rewrite gate_run, check_process_running_run. unfold pipeline. cbv zeta.
  destruct (w_bins w !! "pgrep") as [[]|].
  - destruct (sigint_during "pgrep"); [by autorewrite with pyrw |].
    destruct (Z.eqb _ 0); [by autorewrite with pyrw |].
    rewrite execute_transfer_logic_refines. by autorewrite with pyrw.
  - rewrite execute_transfer_logic_refines. by autorewrite with pyrw.
  - rewrite execute_transfer_logic_refines. by autorewrite with pyrw.
Qed.

(** The whole run, once the command line is parsed. *)
Lemma main_refines argv ds w :
  parse_args pro_parser argv = Parsed ds ->
  effect (main cfg argv w) = spec_effect (pipeline (w_sys w)).
Proof.
  intros Hp. rewrite (main_run _ _ _ _ Hp). cbv zeta.
  set (s := bool_decide ("silent" ∈ ds)).
  pose proof (gate_refines s (opened s w)) as Hg. unfold opened in Hg |- *.
  autorewrite with pyrw in Hg.
  destruct (gate cfg s _) as [w5 [[]|e]]; unfold effect in *; cbn [fst snd] in *;
    rewrite <- Hg; unfold closed; by autorewrite with pyrw.
Qed.

(** C2: Refinement: once the command line parses, the machine the script leaves is the one
    the abstract decision pipeline (spec section 9's outcomes: running, no file, archive
    failed, transfer failed, transferred, cleanup failed, crashed, a Ctrl-C while a program
    runs counting as a KeyboardInterrupt crash) computes, and the exit status is
    outcome_status of that outcome: 0 for every outcome but a crash. *)
Theorem run_script_refines argv ds w :
  parse_args pro_parser argv = Parsed ds ->
  w_sys (run_script cfg argv w).1 = (pipeline (w_sys w)).2 /\
  (run_script cfg argv w).2 = outcome_status (pipeline (w_sys w)).1.
Proof.
  intros Hp. pose proof (main_refines _ _ w Hp) as Hm. unfold run_script.
  destruct (main cfg argv w) as [w' r], (pipeline (w_sys w)) as [o y'].
  unfold effect, spec_effect in Hm. cbn [fst snd] in *. injection Hm as Hy Hr.
  destruct o; cbn [outcome_res outcome_status] in Hr |- *; subst r; try done.
  by destruct (isinstance e SystemExit), (isinstance e KeyboardInterrupt); autorewrite with pyrw.
Qed.
(** A command line [argparse] rejects, or [-h], ends the run before it
    touches the machine. *)
Lemma run_script_not_parsed argv w :
  (forall ds, parse_args pro_parser argv <> Parsed ds) ->
  w_sys (run_script cfg argv w).1 = w_sys w.
Proof.
  intros Hp. unfold run_script, main, py_parse_args.
  destruct (parse_args pro_parser argv) as [ds| |msg]; [by destruct (Hp ds) | |];
    unfold print; py_simp; reflexivity.
Qed.
End Pipeline.

(** ** What the specification does to the remote host *)

Section PipelineRemote.
Context `{ToolSuiteLaws} `{!Uninterrupted} (cfg : Config).

(** Without Ctrl-C the decision is the check, the archive and the transfer. *)
Lemma transfer_u d y :
  transfer cfg d y =
  match sys_bins y !! "scp" with
  | Some BinExec =>
      let '(y2, rc) := scp_call cfg (remote_filename_of d) y in
      if (rc =? 0)%Z then cleanup cfg y2 else (TransferFailed, y2)
  | _ => (TransferFailed, y)
  end.
Proof. unfold transfer. by rewrite no_sigint. Qed.

Lemma archive_u y :
  archive cfg y =
  match sys_bins y !! "zip" with
  | None => (ArchiveFailed, y)
  | Some BinNoExec => (Crashed (permission_denied "zip"), y)
  | Some BinExec =>
      let '(y1, rc) := zip_call cfg y in
      if (rc =? 0)%Z then transfer cfg (sys_now y) y1 else (ArchiveFailed, y1)
  end.
Proof. unfold archive. by rewrite no_sigint. Qed.

Lemma pipeline_u y :
  pipeline cfg y =
  if bool_decide (sys_bins y !! "pgrep" = Some BinExec)
     && (run_pgrep ["-x"; PROGRAM_TO_CHECK cfg] y =? 0)%Z
  then (Running, y) else unattended cfg y.
Proof.
  unfold pipeline. rewrite no_sigint.
  destruct (sys_bins y !! "pgrep") as [[]|]; rewrite ?bool_decide_true, ?bool_decide_false by done;
    reflexivity.
Qed.

Lemma cleanup_remote y : sys_remote (cleanup cfg y).2 = sys_remote y.
Proof. unfold cleanup. by repeat case_match. Qed.

(** ** Well-formedness of the archives *)

Lemma archive_entries_wf fs arch :
  map_Forall (fun _ => archive_wf) fs -> NoDup (entry_name <$> archive_entries fs arch).
Proof.
  intros Hfs. unfold archive_entries. destruct (fs !! arch) as [[d|es]|] eqn:Ha;
    [constructor | exact (Hfs _ _ Ha) | constructor].
Qed.

(** ** The transferred outcome *)

(** On a machine where the program does not run, the file is there and
    every program works, the pipeline ships [zip]'s archive and removes it. *)
Lemma pipeline_transferred y c k :
  config_wf cfg = true ->
  existsb (proc_matches (PROGRAM_TO_CHECK cfg)) (sys_procs y) = false ->
  sys_fs y !! FILE_TO_TRANSFER cfg = Some c ->
  sys_bins y !! "zip" = Some BinExec -> sys_bins y !! "scp" = Some BinExec ->
  sys_zip_fault y = None -> sys_scp_fault y = None -> sys_rm_fault y = None ->
  (forall d, sys_fs y !! ARCHIVE_FILENAME cfg <> Some (Plain d)) ->
  REMOTE_HOST cfg ∈ sys_reachable y ->
  sys_fs y !! SSH_KEY_PATH cfg = Some (Plain k) ->
  (REMOTE_HOST cfg, REMOTE_USER cfg, k) ∈ sys_authorized y ->
  (REMOTE_HOST cfg, REMOTE_PATH cfg) ∈ sys_remote_dirs y ->
  (pipeline cfg y).1 = Transferred /\
  sys_fs (pipeline cfg y).2 = delete (ARCHIVE_FILENAME cfg) (sys_fs y) /\
  sys_remote (pipeline cfg y).2 =
    <[(REMOTE_HOST cfg, REMOTE_PATH cfg +:+ remote_filename_of (sys_now y))
      := zip_archive (sys_fs y) (ENCRYPTION_PASSWORD cfg) (ARCHIVE_FILENAME cfg)
           (FILE_TO_TRANSFER cfg) c]> (sys_remote y).
Proof.
  intros Hwf Hp Hc Hz Hs Hzf Hsf Hrf Ha Hr Hk Hauth Hdir.
  destruct (config_wf_spec _ Hwf) as (_ & HAK & _).
  rewrite pipeline_u. destruct (Z.eqb_spec (run_pgrep ["-x"; PROGRAM_TO_CHECK cfg] y) 0) as [Hpg|_].
  { apply pgrep_status in Hpg. congruence. }
  rewrite andb_false_r. unfold unattended. rewrite bool_decide_true by done. rewrite archive_u, Hz.
  rewrite (zip_call_success _ _ c) by done. rewrite Z.eqb_refl, transfer_u. sys_simpl.
  rewrite Hs, (scp_call_success _ _ _ (zip_archive (sys_fs y) (ENCRYPTION_PASSWORD cfg)
    (ARCHIVE_FILENAME cfg) (FILE_TO_TRANSFER cfg) c) k); [| done | done | sys_simpl; by rewrite lookup_insert_eq | done
    | sys_simpl; by rewrite lookup_insert_ne | done | done].
  rewrite Z.eqb_refl. unfold cleanup. sys_simpl. rewrite lookup_insert_eq, Hrf.
  split; [done |]. split; [apply delete_insert_eq | done].
Qed.

End PipelineRemote.
