(* ===== verification/Runs.v ===== *)
(** * The script under a scheduler: repeated runs

    Spec section 4.4 leaves retries to an external scheduler (cron): the
    script runs again and again, and between runs anything on the machine
    may change.  [env_step] is such a change, which may touch anything but
    the files on the remote host (the script is their only writer), and
    [shipped_ok] a remote file the script may write: the schedules of runs
    and their invariant are in [Signals.v], where a run may also be cut
    short by Ctrl-C.  [retry_ships_current] is the progress of the
    retries: once the machine is [transfer_ready], the next run ships the
    current file, exactly one entry of it, whatever earlier failed runs
    left in the local archive. *)

From stdpp Require Import base strings gmap list sets.
From Stdlib Require Import ZArith Ascii.
From S2P Require Import Prelude PyExc Strftime Os Tools Config ProcessCheck Transfer Argparse Main Pipeline.

Local Open Scope string_scope.

Section Runs.
Context `{ToolSuite} (cfg : Config).

(** A change the environment makes between runs: the remote files stay. *)
Definition env_step (w w' : World) : Prop := w_remote w' = w_remote w.

(** A remote file the script may have written: an archive on the
    configured host holding the file, encrypted with the password. *)
Definition shipped_ok (k : string * string) (f : file) : Prop :=
  k.1 = REMOTE_HOST cfg /\
  exists es c, f = ZipArchive es /\
    ZipEntry (FILE_TO_TRANSFER cfg) (Some (ENCRYPTION_PASSWORD cfg)) c ∈ es.

(** A machine on which a run can ship the file: the program is not
    running, the file is there, [zip] and [scp] are installed and meet no
    fault (the copy does not stop part-way), nothing but an archive sits
    at [ARCHIVE_FILENAME], and the host is reachable, accepts the key and
    has the directory. *)
Definition transfer_ready (y : System) : Prop :=
  existsb (proc_matches (PROGRAM_TO_CHECK cfg)) (sys_procs y) = false /\
  sys_bins y !! "zip" = Some BinExec /\ sys_bins y !! "scp" = Some BinExec /\
  sys_zip_fault y = None /\ sys_scp_fault y = None /\ sys_rm_fault y = None /\
  (forall d, sys_fs y !! ARCHIVE_FILENAME cfg <> Some (Plain d)) /\
  REMOTE_HOST cfg ∈ sys_reachable y /\
  (exists k, sys_fs y !! SSH_KEY_PATH cfg = Some (Plain k) /\
     (REMOTE_HOST cfg, REMOTE_USER cfg, k) ∈ sys_authorized y) /\
  (REMOTE_HOST cfg, REMOTE_PATH cfg) ∈ sys_remote_dirs y.

End Runs.

Section RunsLaws.
Context `{ToolSuiteLaws} `{!Uninterrupted} (cfg : Config).

(** C11: With no Ctrl-C during the run: progress of the retries the scheduler makes (spec
    section 4.4): whatever earlier failed runs left at ARCHIVE_FILENAME, a run on a well-
    formed machine where the program is not running and zip, scp, the key, the host and the
    remote directory all work exits 0, removes the local archive and puts on the remote host
    an archive holding exactly one entry named FILE_TO_TRANSFER: the current file, encrypted
    with the password. *)
Theorem retry_ships_current argv ds w c :
  parse_args pro_parser argv = Parsed ds -> config_wf cfg = true ->
  sys_wf (w_sys w) -> transfer_ready cfg (w_sys w) -> w_fs w !! FILE_TO_TRANSFER cfg = Some c ->
  (run_script cfg argv w).2 = 0%Z /\
  w_fs (run_script cfg argv w).1 !! ARCHIVE_FILENAME cfg = None /\
  exists es,
    w_remote (run_script cfg argv w).1 !! (REMOTE_HOST cfg, REMOTE_PATH cfg +:+ remote_filename_of (w_now w))
      = Some (ZipArchive es) /\
    filter (fun e => entry_name e = FILE_TO_TRANSFER cfg) es
      = [ZipEntry (FILE_TO_TRANSFER cfg) (Some (ENCRYPTION_PASSWORD cfg)) c].
Proof.
  intros Hp Hwf [Hfs _] (Hpg & Hz & Hs & Hzf & Hsf & Hrf & Ha & Hr & (k & Hk & Hauth) & Hdir) Hc.
  destruct (run_script_refines cfg argv ds w Hp) as [Hy Hst].
  destruct (pipeline_transferred cfg (w_sys w) c k) as (Ho & Hfs' & Hrem); try done.
  rewrite Hst, Ho, Hy, Hfs', Hrem, lookup_delete_eq. split; [done | split; [done |]].
  eexists. rewrite lookup_insert_eq. split; [reflexivity |].
  apply (zip_upsert_named (ZipEntry _ _ _)), archive_entries_wf, Hfs.
Qed.
End RunsLaws.
