(* ===== verification/Signals.v ===== *)
(** * Ctrl-C: the script interrupted while a program runs

    The script spends its time waiting for [pgrep], [zip] and [scp].  A
    Ctrl-C then reaches the program and the interpreter: [subprocess.run]
    raises [KeyboardInterrupt] ([Tools.subprocess_run]), which no [except]
    clause of the script catches ([except Exception] does not), so the run
    ends with a traceback and status 130 ([Main.run_script]).  Which program
    the signal stops is the [ToolSuite]'s [sigint_during]; [with_sigint ts p]
    is [ts] with Ctrl-C arriving while [p] runs, [without_sigint ts] is [ts]
    with no Ctrl-C at all; [InterruptLaws] says what a stopped program
    leaves.

    [run_shape] lists every machine a run can leave, interrupted or not.
    [starts p] says, from the conditions of the code, that a run starts the
    program [p].  A Ctrl-C while such a program runs ends the run with
    status 130, never removes the local archive and touches no other local
    file ([run_script_sigint]); Ctrl-C changes a run only by cutting it
    short ([run_script_sigint_cuts]); and over any schedule of runs,
    interrupted or not, every remote file was there before, is a complete
    encrypted archive, or is a partial plain copy left under a
    [backup_<timestamp>.zip] name by an [scp] that failed part-way or was
    stopped ([runs_int_remote_invariant]), which spec section 3 rules
    out. *)

From stdpp Require Import base strings gmap list sets.
From Stdlib Require Import ZArith Ascii.
From S2P Require Import Prelude PyExc Strftime Os Tools Config ProcessCheck Transfer Argparse Main Pipeline Runs.

Local Open Scope string_scope.

(** The same programs with no Ctrl-C. *)
Definition without_sigint (ts : ToolSuite) : ToolSuite := {|
  proc_matches := @proc_matches ts;
  run_pgrep := @run_pgrep ts;
  run_zip := @run_zip ts;
  run_scp := @run_scp ts;
  sigint_during _ := false;
  run_interrupted := @run_interrupted ts
|}.

#[export] Instance without_sigint_laws `{ToolSuiteLaws} : @ToolSuiteLaws (without_sigint _).
Proof. destruct H0; split; assumption. Qed.

#[export] Instance without_sigint_uninterrupted (ts : ToolSuite) :
  @Uninterrupted (without_sigint ts).
Proof. done. Qed.

Section Shape.
Context `{ToolSuite} (cfg : Config).

(** The remote file a run writes, and the archive [zip] makes. *)
Definition run_key (y : System) : string * string :=
  (REMOTE_HOST cfg, REMOTE_PATH cfg +:+ remote_filename_of (sys_now y)).

Definition zipped (y : System) (c : file) : System :=
  zip_result y (ENCRYPTION_PASSWORD cfg) (ARCHIVE_FILENAME cfg) (FILE_TO_TRANSFER cfg) c.

Definition made_archive (y : System) (c : file) : file :=
  zip_archive (sys_fs y) (ENCRYPTION_PASSWORD cfg) (ARCHIVE_FILENAME cfg) (FILE_TO_TRANSFER cfg) c.

(** The machines a run can leave once [zip] made the archive of the file
    [c]: that machine, with a partial copy on the remote host, with the
    archive delivered and the cleanup not done, or delivered and the local
    archive removed (the transferred outcome). *)
Definition zipped_shape (y : System) (c : file) (r : outcome * System) : Prop :=
  r.2 = zipped y c \/
  (exists d, r.2 = sys_set_remote (<[run_key y := Plain d]> (sys_remote y)) (zipped y c)) \/
  (r.1 <> Transferred /\
   r.2 = sys_set_remote (<[run_key y := made_archive y c]> (sys_remote y)) (zipped y c)) \/
  (r.1 = Transferred /\
   r.2 = sys_set_fs (delete (ARCHIVE_FILENAME cfg) (sys_fs (zipped y c)))
           (sys_set_remote (<[run_key y := made_archive y c]> (sys_remote y)) (zipped y c))).

(** The machines a run can leave: the machine as it was, or one of the
    above. *)
Definition run_shape (y : System) (r : outcome * System) : Prop :=
  r.2 = y \/ exists c, sys_fs y !! FILE_TO_TRANSFER cfg = Some c /\ zipped_shape y c r.

(** The remote files a run may leave: a complete encrypted archive, or a
    partial plain copy, under a [backup_<timestamp>.zip] name. *)
Definition partial_ok (k : string * string) (f : file) : Prop :=
  (exists t, k = (REMOTE_HOST cfg, REMOTE_PATH cfg +:+ remote_filename_of t)) /\
  exists d, f = Plain d.

Definition remote_from_int (r0 r : gmap (string * string) file) : Prop :=
  forall k f, r !! k = Some f -> r0 !! k = Some f \/ shipped_ok cfg k f \/ partial_ok k f.
End Shape.

(** A schedule of runs: changes of the environment that keep the remote
    files, runs without Ctrl-C, and runs stopped by Ctrl-C in any program. *)
Inductive runs_int (ts : ToolSuite) (cfg : Config) : World -> World -> Prop :=
  | runs_int_done w : runs_int ts cfg w w
  | runs_int_env w1 w2 w3 : env_step w1 w2 -> runs_int ts cfg w2 w3 -> runs_int ts cfg w1 w3
  | runs_int_script argv w1 w3 :
      runs_int ts cfg (@run_script ts cfg argv w1).1 w3 -> runs_int ts cfg w1 w3
  | runs_int_sigint p argv w1 w3 :
      runs_int ts cfg (@run_script (with_sigint ts p) cfg argv w1).1 w3 -> runs_int ts cfg w1 w3.

Section ShapeLaws.
Context `{ToolSuiteLaws} `{!InterruptLaws} (cfg : Config).
Hypothesis Hwf : config_wf cfg = true.

(** A stopped [scp] leaves the machine, or a partial copy under the run's
    name. *)
Lemma scp_interrupt_outcome d y :
  scp_interrupt cfg (remote_filename_of d) y = y \/
  exists b, scp_interrupt cfg (remote_filename_of d) y =
    sys_set_remote (<[(REMOTE_HOST cfg, REMOTE_PATH cfg +:+ remote_filename_of d) := Plain b]>
                      (sys_remote y)) y.
Proof.
  unfold scp_interrupt.
  destruct (scp_interrupted (SSH_KEY_PATH cfg) (ARCHIVE_FILENAME cfg)
              (remote_target_of cfg (remote_filename_of d)) y) as [->|(u & h & p & b & Ht & ->)];
    [by left |].
  rewrite remote_target_parse in Ht by done. injection Ht as <- <- <-.
  rewrite scp_dest_remote. right. by exists b.
Qed.

Lemma transfer_shape y c : zipped_shape cfg y c (transfer cfg (sys_now y) (zipped cfg y c)).
Proof.
  unfold transfer, zipped_shape. change (sys_bins (zipped cfg y c)) with (sys_bins y).
  destruct (sys_bins y !! "scp") as [[]|]; [| by left..].
  destruct (sigint_during "scp").
  { destruct (scp_interrupt_outcome (sys_now y) (zipped cfg y c)) as [->|[b ->]]; [by left |].
    right; left. by exists b. }
  destruct (scp_call_outcome cfg (sys_now y) (zipped cfg y c) Hwf)
    as [[Hrc [Hy2|[b Hy2]]]|[Hrc (a & Ha & Hy2)]];
    destruct (scp_call cfg _ _) as [y2 rc]; cbn [fst snd] in *; subst.
  { rewrite (proj2 (Z.eqb_neq _ _) Hrc). by left. }
  { rewrite (proj2 (Z.eqb_neq _ _) Hrc). right; left. exists b. unfold delivered, zipped. by sys_simpl. }
  unfold zipped, zip_result in Ha. cbn in Ha. rewrite lookup_insert_eq in Ha.
  injection Ha as <-. rewrite Z.eqb_refl. unfold cleanup, delivered. sys_simpl.
  unfold zipped. sys_simpl. rewrite lookup_insert_eq. right; right.
  destruct (sys_rm_fault y) as [e|]; [left | right; split; reflexivity].
  destruct (isinstance e Exception); (split; [done | reflexivity]).
Qed.

Lemma unattended_shape y : run_shape cfg y (unattended cfg y).
Proof.
  unfold unattended, run_shape. case_bool_decide as Hf; [| by left].
  unfold archive. destruct (sys_bins y !! "zip") as [[]|]; [| by left..].
  destruct (sigint_during "zip"); [left; apply zip_interrupted |].
  destruct (zip_call_outcome cfg y) as [[Hrc Hy1]|[Hrc (c & Hc & Hy1)]];
    destruct (zip_call cfg y) as [y1 rc]; cbn [fst snd] in *; subst.
  { rewrite (proj2 (Z.eqb_neq _ _) Hrc). by left. }
  rewrite Z.eqb_refl. right. exists c. split; [done |]. apply transfer_shape.
Qed.

Lemma pipeline_shape y : run_shape cfg y (pipeline cfg y).
Proof.
  unfold pipeline. destruct (sys_bins y !! "pgrep") as [[]|]; [| apply unattended_shape..].
  destruct (sigint_during "pgrep"); [left; apply pgrep_interrupted |].
  destruct (_ =? 0)%Z; [by left | apply unattended_shape].
Qed.
End ShapeLaws.

(** ** What a run leaves *)

Section ShapeFacts.
Context (cfg : Config).

(** Short of the transferred outcome, a run keeps the local files, or
    adds the archive of the file and keeps the rest. *)
Lemma shape_local y r :
  run_shape cfg y r -> r.1 <> Transferred ->
  sys_fs r.2 = sys_fs y \/
  exists c, sys_fs y !! FILE_TO_TRANSFER cfg = Some c /\
    sys_fs r.2 = <[ARCHIVE_FILENAME cfg := made_archive cfg y c]> (sys_fs y).
Proof.
  intros [->|(c & Hc & [->|[[b ->]|[[_ ->]|[Ht _]]]])] Hno; [by left | right..| done];
    exists c; by split.
Qed.

(** A run writes at most the remote file under its name: a complete
    encrypted archive or a partial plain copy. *)
Lemma shape_remote y r :
  run_shape cfg y r ->
  sys_remote r.2 = sys_remote y \/
  exists f, sys_remote r.2 = <[run_key cfg y := f]> (sys_remote y) /\
    (shipped_ok cfg (run_key cfg y) f \/ partial_ok cfg (run_key cfg y) f).
Proof.
  assert (Hmade : forall c, shipped_ok cfg (run_key cfg y) (made_archive cfg y c)).
  { intros c. split; [done |]. eexists _, c. split; [reflexivity | apply zip_upsert_in]. }
  intros [->|(c & Hc & [->|[[b ->]|[[_ ->]|[_ ->]]]])]; [by left | by left | ..]; right.
  - exists (Plain b). split; [done |]. right. split; [by eexists | by exists b].
  - exists (made_archive cfg y c). split; [done |]. by left.
  - exists (made_archive cfg y c). split; [done |]. by left.
Qed.

Lemma remote_from_int_refl r : remote_from_int cfg r r.
Proof. intros k f ?. by left. Qed.

Lemma remote_from_int_trans r0 r1 r2 :
  remote_from_int cfg r0 r1 -> remote_from_int cfg r1 r2 -> remote_from_int cfg r0 r2.
Proof.
  intros H01 H12 k f Hf. destruct (H12 k f Hf) as [Hf1|?]; [by apply H01 | by right].
Qed.
End ShapeFacts.

(** ** Ctrl-C only cuts a run short *)

Section Cuts.
Context `{ToolSuite} (cfg : Config).

Lemma pipeline_sigint_cuts y :
  pipeline cfg y = @pipeline (without_sigint _) cfg y \/
  (pipeline cfg y).1 = Crashed keyboard_interrupt.
Proof.
  unfold pipeline, unattended, archive, transfer, zip_call, scp_call, zip_interrupt, scp_interrupt.
  cbn [without_sigint sigint_during run_pgrep run_zip run_scp run_interrupted].
  repeat case_match; first [by left | by right].
Qed.
End Cuts.

(** ** The script under Ctrl-C *)

Section Reaches.
Context `{ToolSuite} (cfg : Config).

(** The programs a run without Ctrl-C starts, from the conditions of the
    code: [pgrep] when it is an executable on PATH; [zip] when the check
    found the program not running, the file exists and [zip] is an
    executable; [scp] when moreover [zip] exited 0 and [scp] is an
    executable. *)
Definition not_running (y : System) : Prop :=
  sys_bins y !! "pgrep" = Some BinExec -> run_pgrep ["-x"; PROGRAM_TO_CHECK cfg] y <> 0%Z.

Definition starts_zip (y : System) : Prop :=
  not_running y /\ is_Some (sys_fs y !! FILE_TO_TRANSFER cfg) /\ sys_bins y !! "zip" = Some BinExec.

Definition starts (p : string) (y : System) : Prop :=
  (p = "pgrep" /\ sys_bins y !! "pgrep" = Some BinExec) \/
  (p = "zip" /\ starts_zip y) \/
  (p = "scp" /\ starts_zip y /\ (zip_call cfg y).2 = 0%Z /\ sys_bins y !! "scp" = Some BinExec).
End Reaches.

Section ReachesLaws.
Context `{ToolSuiteLaws} (cfg : Config).

(** [zip] changes no program on PATH. *)
Lemma zip_call_bins y : sys_bins (zip_call cfg y).1 = sys_bins y.
Proof.
  unfold zip_call. destruct (Z.eq_dec (run_zip (zip_args (ENCRYPTION_PASSWORD cfg)
    (ARCHIVE_FILENAME cfg) (FILE_TO_TRANSFER cfg)) y).2 0) as [Hrc|Hrc].
  - destruct (zip_succeeded _ _ _ _ Hrc) as (c & _ & ->). done.
  - by rewrite zip_failed.
Qed.

(** A Ctrl-C while a program the run starts is running ends the run with
    [KeyboardInterrupt]. *)
Lemma pipeline_starts p y :
  starts cfg p y -> (@pipeline (with_sigint _ p) cfg y).1 = Crashed keyboard_interrupt.
Proof.
  unfold pipeline, unattended, archive, transfer. cbn [with_sigint sigint_during run_pgrep].
  intros [[-> Hpg]|[[-> (Hnr & Hf & Hz)]|(-> & (Hnr & Hf & Hz) & Hrc & Hs)]].
  - by rewrite Hpg.
  - cbn. destruct (sys_bins y !! "pgrep") as [[]|] eqn:Hpg;
      [rewrite (proj2 (Z.eqb_neq _ _) (Hnr Hpg)) | |];
      rewrite bool_decide_true, Hz by done; done.
  - change (@zip_call (with_sigint _ "scp") cfg y) with (zip_call cfg y).
    pose proof (zip_call_bins y) as Hb. destruct (zip_call cfg y) as [y1 rc] eqn:E.
    cbn in Hrc, Hb. subst rc. cbn.
    destruct (sys_bins y !! "pgrep") as [[]|] eqn:Hpg;
      [rewrite (proj2 (Z.eqb_neq _ _) (Hnr Hpg)) | |];
      rewrite bool_decide_true, Hz by done; cbn; by rewrite Hb, Hs.
Qed.
End ReachesLaws.

Section Sigint.
Context `{ToolSuiteLaws} `{!InterruptLaws} (cfg : Config).
Hypothesis Hwf : config_wf cfg = true.

(** C12: When Ctrl-C arrives while pgrep, zip or scp runs, and the run does start that
    program (pgrep: it is executable; zip: the program was found not running, the file
    exists and zip is executable; scp: moreover zip exited 0 and scp is executable),
    KeyboardInterrupt escapes main for any implementation keeping the programs' contract:
    the script exits with status 130 with the traceback as its last console line, also under
    -s, and the local files are as before or hold the new archive in addition: a run cut
    short never removes the local archive nor touches any other local file. *)
Theorem run_script_sigint p argv ds w :
  parse_args pro_parser argv = Parsed ds -> starts cfg p (w_sys w) ->
  (@run_script (with_sigint _ p) cfg argv w).2 = 130%Z /\
  last (w_out (@run_script (with_sigint _ p) cfg argv w).1) = Some (traceback keyboard_interrupt) /\
  (w_fs (@run_script (with_sigint _ p) cfg argv w).1 = w_fs w \/
   exists c, w_fs w !! FILE_TO_TRANSFER cfg = Some c /\
     w_fs (@run_script (with_sigint _ p) cfg argv w).1
     = <[ARCHIVE_FILENAME cfg := made_archive cfg (w_sys w) c]> (w_fs w)).
Proof.
  intros Hp Hst. pose proof (@main_refines (with_sigint _ p) cfg argv ds w Hp) as Hm.
  pose proof (pipeline_starts cfg p (w_sys w) Hst) as Ho. unfold run_script.
  destruct (@main (with_sigint _ p) cfg argv w) as [w' r]. unfold effect, spec_effect in Hm.
  cbn [fst snd] in Hm. injection Hm as Hy Hr. rewrite Ho in Hr. cbn in Hr. subst r.
  exc_simpl. cbn [fst snd]. split; [reflexivity |]. split; [by rewrite emit_out, last_snoc |].
  rewrite emit_sys, Hy. apply shape_local; [by eapply pipeline_shape |].
  by rewrite Ho.
Qed.
End Sigint.

Section SigintCuts.
Context `{ToolSuite} (cfg : Config).

(** C14: Ctrl-C changes a run only by cutting it short: once the command line parses, either
    the run leaves the machine and exit status of the same run without Ctrl-C, or it exits
    with status 130. *)
Theorem run_script_sigint_cuts argv ds w :
  parse_args pro_parser argv = Parsed ds ->
  (w_sys (run_script cfg argv w).1 = w_sys (@run_script (without_sigint _) cfg argv w).1 /\
   (run_script cfg argv w).2 = (@run_script (without_sigint _) cfg argv w).2) \/
  (run_script cfg argv w).2 = 130%Z.
Proof.
  intros Hp. destruct (run_script_refines cfg argv ds w Hp) as [Hy Hs].
  destruct (@run_script_refines (without_sigint _) cfg argv ds w Hp) as [Hy' Hs'].
  rewrite Hy, Hs, Hy', Hs'.
  destruct (pipeline_sigint_cuts cfg (w_sys w)) as [-> | ->]; [by left | by right].
Qed.
End SigintCuts.

Section SigintRuns.
Context `{ToolSuiteLaws} `{!InterruptLaws} (cfg : Config).
Hypothesis Hwf : config_wf cfg = true.

Lemma run_script_remote_int argv w :
  remote_from_int cfg (w_remote w) (w_remote (run_script cfg argv w).1).
Proof.
  destruct (parse_args pro_parser argv) as [ds| |msg] eqn:Hp.
  2, 3: rewrite run_script_not_parsed by congruence; apply remote_from_int_refl.
  destruct (run_script_refines cfg argv ds w Hp) as [-> _].
  destruct (shape_remote cfg _ _ (pipeline_shape cfg Hwf (w_sys w))) as [->|(f & -> & Hf)];
    [apply remote_from_int_refl |].
  intros k g Hg. destruct (decide (k = run_key cfg (w_sys w))) as [->|Hk].
  - rewrite lookup_insert_eq in Hg. injection Hg as <-. by right.
  - rewrite lookup_insert_ne in Hg by congruence. by left.
Qed.
End SigintRuns.

Section SigintSchedule.
Context `{ToolSuiteLaws} `{!InterruptLaws} (cfg : Config).

(** C13: Across any schedule of environment changes that keep the remote files, complete
    runs of the script (any command lines) and runs stopped by Ctrl-C in any helper program,
    every remote file was there at the start, or is an archive on REMOTE_HOST holding
    FILE_TO_TRANSFER encrypted with ENCRYPTION_PASSWORD, or is a partial plain copy under
    REMOTE_PATH/backup_<timestamp>.zip on REMOTE_HOST, left by an scp that stopped part-way
    or was interrupted: the script uploads nothing else. *)
Theorem runs_int_remote_invariant w w' :
  config_wf cfg = true -> runs_int _ cfg w w' -> remote_from_int cfg (w_remote w) (w_remote w').
Proof.
  intros Hwf Hruns. induction Hruns as [w|w1 w2 w3 Henv _ IH|argv w1 w3 _ IH|p argv w1 w3 _ IH].
  - apply remote_from_int_refl.
  - unfold env_step in Henv. by rewrite <- Henv.
  - eapply remote_from_int_trans; [by apply run_script_remote_int | exact IH].
  - eapply remote_from_int_trans; [| exact IH]. apply (@run_script_remote_int (with_sigint _ p)); [apply _ | apply _ | done].
Qed.
End SigintSchedule.
