(* ===== verification/Scenarios.v ===== *)
(** * Concrete runs of the script

    The shipped configuration [pro_config] on a machine with the Linux
    programs [linux_tools], at 2024-03-05 14:07:09 on host [monitor01].
    Each [Example] runs [run_script] by evaluation and states the whole
    console and the files it leaves: the scenarios A-D of spec section 8,
    and the runs behind the findings (a long process name, a stale archive,
    the archive vanishing before the cleanup, an unusable [zip] in silent
    mode, Ctrl-C while [scp] copies the archive).  The [_witness] lemmas apply the general theorems to these
    machines. *)

From stdpp Require Import base strings gmap list sets.
From Stdlib Require Import ZArith Ascii.
From S2P Require Import Prelude PyExc Strftime Os Tools Regex LinuxTools Config ProcessCheck Transfer Argparse Main Pipeline Runs Signals.

Local Open Scope string_scope.
Local Open Scope list_scope.

(** ** The machines *)

Definition scenario_now : datetime := mkDatetime 2024 3 5 14 7 9.
Definition key_file : string := "/home/me/.ssh/id_rsa".
Definition remote_dir : string := "/home/me/Desktop/monitor/rec/".
Definition remote_name : string := remote_dir +:+ "backup_20240305_140709.zip".
Definition server : string := "172.168.1.100".

Definition local_files : gmap string file :=
  {[ "test.txt" := Plain "payload"; key_file := Plain "KEY" ]}.

Definition all_bins : gmap string bin_status :=
  {[ "pgrep" := BinExec; "zip" := BinExec; "scp" := BinExec ]}.

(** A machine: running processes, local files, programs, whether the key
    is authorized on the server, and the fault [os.remove] meets. *)
Definition machine (procs : list string) (fs : gmap string file) (bins : gmap string bin_status)
    (authorized : bool) (rm_fault : option exc) : World := {|
  w_sys := {|
    sys_procs := procs; sys_fs := fs; sys_bins := bins;
    sys_now := scenario_now; sys_host := "monitor01";
    sys_remote := ∅;
    sys_remote_dirs := {[ (server, remote_dir) ]};
    sys_reachable := {[ server ]};
    sys_authorized := if authorized then {[ (server, "foo", "KEY") ]} else ∅;
    sys_zip_fault := None;
    sys_scp_fault := None;
    sys_rm_fault := rm_fault |};
  w_out := [] |}.

Definition idle_procs : list string := ["systemd"; "sshd"; "bash"].

Definition wA : World := machine ("xxxx" :: idle_procs) local_files all_bins true None.
Definition wB : World := machine idle_procs {[ key_file := Plain "KEY" ]} all_bins true None.
Definition wC : World := machine idle_procs local_files all_bins true None.
Definition wD : World := machine idle_procs local_files all_bins false None.
Definition wE : World :=
  machine idle_procs local_files {[ "pgrep" := BinExec; "zip" := BinNoExec; "scp" := BinExec ]}
    true None.
Definition wH : World :=
  machine idle_procs local_files all_bins true (Some (file_not_found "moveme.zip")).
Definition wZ : World :=
  machine idle_procs local_files {[ "pgrep" := BinExec; "scp" := BinExec ]} true None.

(** A configuration watching a program whose name exceeds 15 characters. *)
Definition long_config : Config := {|
  PROGRAM_TO_CHECK := "backup-agent-daemon";
  FILE_TO_TRANSFER := "test.txt";
  ARCHIVE_FILENAME := "moveme.zip";
  REMOTE_USER := "foo";
  REMOTE_HOST := server;
  REMOTE_PATH := remote_dir;
  SSH_KEY_PATH := key_file;
  ENCRYPTION_PASSWORD := "STRONG_PASSWORD"
|}.
Definition wF : World := machine ("backup-agent-daemon" :: idle_procs) local_files all_bins true None.

Definition wGpp : World := machine ("g++" :: idle_procs) local_files all_bins true None.

(** Processes whose names regular-expression patterns confuse with others. *)
Definition wP : World := machine ("python3x11" :: "ggg" :: "g++" :: idle_procs) local_files all_bins true None.

(** An archive left over from an earlier run, holding another file. *)
Definition stale_entry : zip_entry := ZipEntry "old.txt" (Some "STRONG_PASSWORD") (Plain "stale").
Definition wG : World :=
  machine idle_procs (<[ "moveme.zip" := ZipArchive [stale_entry] ]> local_files) all_bins true None.

(** Scenario D's run left the archive behind; the server then accepts the
    key again. *)
Definition wD_retry : World :=
  machine idle_procs (w_fs (run_script pro_config [] wD).1) all_bins true None.

(** Scenario C's machine, where the copy stops after two bytes (the
    remote disk fills up). *)
Definition wS : World :=
  {| w_sys := {| sys_procs := w_procs wC; sys_fs := w_fs wC; sys_bins := w_bins wC;
                 sys_now := w_now wC; sys_host := w_host wC; sys_remote := w_remote wC;
                 sys_remote_dirs := w_remote_dirs wC; sys_reachable := w_reachable wC;
                 sys_authorized := w_authorized wC; sys_zip_fault := None;
                 sys_scp_fault := Some "PK"; sys_rm_fault := None |};
     w_out := [] |}.

(** The archive [pro_config] makes of [test.txt]. *)
Definition shipped : file := ZipArchive [ZipEntry "test.txt" (Some "STRONG_PASSWORD") (Plain "payload")].

Definition banner_lines : list console_line :=
  [Stdout "=========================================="; Stdout "Date/Time: 2024-03-05 14:07:09";
   Stdout "Hostname: monitor01"; Stdout "------------------------------------------"].
Definition closing_lines : list console_line :=
  [Stdout "=========================================="; Stdout "Done."].
Definition check_line : console_line := Stdout "Checking status for program: 'xxxx'...".
Definition not_running_line : console_line :=
  Stdout "Status: 'xxxx' is NOT running (PID not found). Initiating file transfer check...".
Definition zipped_lines : list console_line :=
  [Stdout "Found local file: test.txt. Preparing encrypted ZIP archive..."; ToolOutput "zip";
   Stdout "SUCCESS: File successfully zipped and encrypted locally as moveme.zip.";
   Stdout "Attempting SCP transfer of moveme.zip to 172.168.1.100 as backup_20240305_140709.zip...";
   ToolOutput "scp"].

(** What a run leaves that the spec talks about: the exit status, the
    console, the local files and the remote files (as sorted lists). *)
Definition observe (r : World * Z) :
    Z * list console_line * list (string * file) * list ((string * string) * file) :=
  (r.2, w_out r.1, map_to_list (w_fs r.1), map_to_list (w_remote r.1)).

Definition delivered_line : console_line :=
  Stdout "SUCCESS: Encrypted archive transferred successfully and renamed to backup_20240305_140709.zip.".

(** ** Spec section 8, scenarios A-D *)

(** Spec scenario A: with xxxx running, the run of the shipped configuration prints the
    banner, the check and the running line, exits 0, and leaves the files as they were. *)
Example scenario_A :
  observe (run_script pro_config [] wA) =
  (0%Z, banner_lines ++ [check_line; Stdout "Status: 'xxxx' is running. No transfer initiated."]
          ++ closing_lines,
   map_to_list local_files, []).
Proof. vm_compute. reflexivity. Qed.

(** Spec scenario B: with xxxx not running and test.txt missing, the run prints the
    warning, exits 0, and creates and sends nothing. *)
Example scenario_B :
  observe (run_script pro_config [] wB) =
  (0%Z, banner_lines ++ [check_line; not_running_line;
          Stdout "WARNING: Local file 'test.txt' not found. Transfer skipped."] ++ closing_lines,
   [(key_file, Plain "KEY")], []).
Proof. vm_compute. reflexivity. Qed.

(** Spec scenario C: with zip and scp working, the run sends the archive as
    backup_20240305_140709.zip, removes moveme.zip, prints every step and exits 0. *)
Example scenario_C :
  observe (run_script pro_config [] wC) =
  (0%Z, banner_lines ++ [check_line; not_running_line] ++ zipped_lines ++
          [delivered_line; Stdout "Cleanup: Local archive moveme.zip removed."] ++ closing_lines,
   map_to_list local_files, [((server, remote_name), shipped)]).
Proof. vm_compute. reflexivity. Qed.

(** Spec scenario D: with the key not authorized on the server, scp fails, moveme.zip
    is kept, the failure and keep lines are printed, nothing is sent and the run exits 0. *)
Example scenario_D :
  observe (run_script pro_config [] wD) =
  (0%Z, banner_lines ++ [check_line; not_running_line] ++ zipped_lines ++
    [Stdout "FAILURE: SCP transfer failed. Check SSH key path/permissions, remote path, and network connection.";
     Stdout "The local archive was kept for manual inspection."] ++ closing_lines,
   map_to_list (<[ "moveme.zip" := shipped ]> local_files), []).
Proof. vm_compute. reflexivity. Qed.

(** ** The runs behind the findings *)

(** The copy stops after two bytes: the run reports the failure and that
    the archive was kept, exits 0, and leaves a truncated file on the
    server under the final name [backup_20240305_140709.zip]. *)
Example scenario_scp_partial :
  observe (run_script pro_config [] wS) =
  (0%Z, banner_lines ++ [check_line; not_running_line] ++ zipped_lines ++
    [Stdout "FAILURE: SCP transfer failed. Check SSH key path/permissions, remote path, and network connection.";
     Stdout "The local archive was kept for manual inspection."] ++ closing_lines,
   map_to_list (<[ "moveme.zip" := shipped ]> local_files), [((server, remote_name), Plain "PK")]).
Proof. vm_compute. reflexivity. Qed.

(** With -s and a non-executable zip, the run prints exactly one traceback line and
    exits 1. *)
Example scenario_silent_traceback :
  observe (run_script pro_config ["-s"] wE) =
  (1%Z, [traceback (permission_denied "zip")], map_to_list local_files, []).
Proof. vm_compute. reflexivity. Qed.

(** When the archive vanishes before the cleanup, the run reports that scp is not
    installed right after the success line, and the remote copy exists. *)
Example scenario_remove_vanished :
  observe (run_script pro_config [] wH) =
  (0%Z, banner_lines ++ [check_line; not_running_line] ++ zipped_lines ++
    [delivered_line;
     Stdout "Error: 'scp' utility not found. Please ensure OpenSSH client is installed."]
    ++ closing_lines,
   map_to_list (<[ "moveme.zip" := shipped ]> local_files), [((server, remote_name), shipped)]).
Proof. vm_compute. reflexivity. Qed.

(** With PROGRAM_TO_CHECK backup-agent-daemon running, the check still reports it not
    running and the transfer runs. *)
Example scenario_long_name :
  "backup-agent-daemon" ∈ w_procs wF /\
  observe (run_script long_config ["--silent"] wF) =
  (0%Z, [], map_to_list local_files, [((server, remote_name), shipped)]).
Proof. split; [by left |]. vm_compute. reflexivity. Qed.

(** A configuration watching [g++]: [pgrep -x g++] reads the name as a
    regular expression that [g++] itself does not match, so the script
    transfers the file while the compiler runs. *)
Definition gpp_config : Config := {|
  PROGRAM_TO_CHECK := "g++";
  FILE_TO_TRANSFER := "test.txt";
  ARCHIVE_FILENAME := "moveme.zip";
  REMOTE_USER := "foo";
  REMOTE_HOST := server;
  REMOTE_PATH := remote_dir;
  SSH_KEY_PATH := key_file;
  ENCRYPTION_PASSWORD := "STRONG_PASSWORD"
|}.

Example scenario_gpp_running :
  "g++" ∈ w_procs wGpp /\
  observe (run_script gpp_config ["--silent"] wGpp) =
  (0%Z, [], map_to_list local_files, [((server, remote_name), shipped)]).
Proof. split; [by left |]. vm_compute. reflexivity. Qed.

(** With a stale moveme.zip holding old.txt, the silent run ships an archive holding
    both old.txt and test.txt. *)
Example scenario_stale_archive :
  observe (run_script pro_config ["--sil"] wG) =
  (0%Z, [], map_to_list local_files,
   [((server, remote_name),
     ZipArchive [stale_entry; ZipEntry "test.txt" (Some "STRONG_PASSWORD") (Plain "payload")])]).
Proof. vm_compute. reflexivity. Qed.

(** A command line argparse rejects ends the script before the banner with status 2 and
    the usage on stderr, even when -s is given. *)
Example scenario_bad_flag :
  observe (run_script pro_config ["-s"; "-x"] wC) =
  (2%Z, [Stderr "usage: pro.py [-h] [-s]
pro.py: error: unrecognized arguments: -x"], map_to_list local_files, []).
Proof. vm_compute. reflexivity. Qed.

(** With -s, -h still prints the whole help text on stdout and the run
    exits 0 before the banner. *)
Example scenario_help_silent :
  observe (run_script pro_config ["-s"; "-h"] wC) =
  (0%Z, [Stdout "usage: pro.py [-h] [-s]

Conditional Program Status Check and Encrypted File Transfer Script.

options:
  -h, --help    show this help message and exit
  -s, --silent  Suppress all script output (stdout and stderr)."], map_to_list local_files, []).
Proof. vm_compute. reflexivity. Qed.

(** Without -s and with a non-executable zip, the run prints the opening banner and the
    first steps, then a traceback, and exits 1 without the closing banner (spec section 8
    says every non-silent run prints the start and end banners). *)
Example scenario_crash_no_banner :
  observe (run_script pro_config [] wE) =
  (1%Z, banner_lines ++ [check_line; not_running_line;
          Stdout "Found local file: test.txt. Preparing encrypted ZIP archive...";
          traceback (permission_denied "zip")],
   map_to_list local_files, []).
Proof. vm_compute. reflexivity. Qed.

(** With -s and Ctrl-C while scp copies the archive, the shipped configuration prints
    only the KeyboardInterrupt traceback, exits 130, keeps moveme.zip locally and leaves an
    empty backup_20240305_140709.zip on the server under the final name (spec section 3: no
    partial remote object outside the transfer step). *)
Example scenario_sigint_scp :
  observe (@run_script (with_sigint linux_tools "scp") pro_config ["-s"] wC) =
  (130%Z, [traceback keyboard_interrupt],
   map_to_list (<[ "moveme.zip" := shipped ]> local_files),
   [((server, remote_name), Plain "")]).
Proof. vm_compute. reflexivity. Qed.

(** ** The general theorems at these machines *)

(** A hypothesis about a concrete machine holds by evaluation. *)
Ltac concrete :=
  first [ reflexivity | vm_compute; reflexivity
        | repeat intro; match goal with H : _ = _ |- False => vm_compute in H; discriminate end
        | lia | vm_compute; lia ].

Lemma archive_removed_only_after_delivery_witness :
  w_fs (execute_transfer_logic pro_config false wC).1 !! "moveme.zip" = None /\
  (w_sys (execute_transfer_logic pro_config false wC).1 = w_sys wC \/
   exists c, w_fs wC !! FILE_TO_TRANSFER pro_config = Some c /\
     w_remote (execute_transfer_logic pro_config false wC).1
       !! (REMOTE_HOST pro_config, REMOTE_PATH pro_config +:+ remote_filename_of (w_now wC))
     = Some (archive_of pro_config wC c)).
Proof.
  split; [concrete |].
  apply (archive_removed_only_after_delivery pro_config false wC _
           (execute_transfer_logic pro_config false wC).2);
    [concrete | apply surjective_pairing | concrete].
Defined.

Lemma execute_transfer_success_witness :
  exists w', execute_transfer_logic pro_config false wC = (w', Norm tt) /\
    w_fs w' = delete (ARCHIVE_FILENAME pro_config) (w_fs wC) /\
    w_remote w' = <[(REMOTE_HOST pro_config,
                     REMOTE_PATH pro_config +:+ remote_filename_of (w_now wC))
                    := archive_of pro_config wC (Plain "payload")]> (w_remote wC).
Proof.
  apply (execute_transfer_success pro_config false wC (Plain "payload") "KEY"); concrete.
Defined.

Lemma execute_transfer_scp_failure_keeps_archive_witness :
  exists w', execute_transfer_logic pro_config false wS = (w', Norm tt) /\
    w_fs w' !! ARCHIVE_FILENAME pro_config = Some (archive_of pro_config wS (Plain "payload")) /\
    (w_remote w' = w_remote wS \/
     exists b, w_remote w' = <[(REMOTE_HOST pro_config, REMOTE_PATH pro_config
                                +:+ remote_filename_of (w_now wS)) := Plain b]> (w_remote wS)) /\
    (false = false -> Stdout "The local archive was kept for manual inspection." ∈ w_out w').
Proof.
  apply (execute_transfer_scp_failure_keeps_archive pro_config false wS (Plain "payload"));
    concrete.
Defined.

Lemma main_process_running_witness :
  exists w', main pro_config [] wA = (w', Norm tt) /\ w_sys w' = w_sys wA /\
    (bool_decide ("silent" ∈ @nil string) = false -> Stdout (running_line pro_config) ∈ w_out w').
Proof. apply (main_process_running pro_config [] [] wA); concrete. Defined.

Lemma check_process_running_correct_witness :
  exists w' b, check_process_running "xxxx" false wA = (w', Norm b) /\ w_sys w' = w_sys wA /\
    (b = true <-> w_bins wA !! "pgrep" = Some BinExec /\
                  existsb (proc_matches "xxxx") (w_procs wA) = true).
Proof. apply (check_process_running_correct "xxxx" false wA). Defined.

Lemma execute_transfer_no_file_witness :
  execute_transfer_logic pro_config false wB =
  (logged (missing_line pro_config) false (logged (status_line pro_config) false wB), Norm tt).
Proof. apply (execute_transfer_no_file pro_config false wB); concrete. Defined.

Lemma execute_transfer_zip_not_made_witness :
  exists w', execute_transfer_logic pro_config false wZ = (w', Norm tt) /\ w_sys w' = w_sys wZ.
Proof.
  apply (execute_transfer_zip_not_made pro_config false wZ (Plain "payload")); [concrete |].
  left. concrete.
Defined.

Lemma run_script_silent_traceback_witness :
  run_script pro_config ["-s"] wE = (emit (traceback (permission_denied "zip")) wE, 1%Z).
Proof.
  apply (run_script_silent_traceback pro_config ["-s"] ["silent"] wE (Plain "payload"));
    [concrete | by left | concrete..].
Defined.

Lemma execute_transfer_remove_vanished_witness :
  execute_transfer_logic pro_config false wH =
  (logged "Error: 'scp' utility not found. Please ensure OpenSSH client is installed." false
     (sent_world pro_config (w_now wH) (archive_of pro_config wH (Plain "payload")) false
        (zipped_world pro_config false wH (Plain "payload"))), Norm tt).
Proof.
  apply (execute_transfer_remove_vanished pro_config false wH (Plain "payload") "KEY"); concrete.
Defined.

Lemma main_silent_no_output_witness :
  w_out (main pro_config ["--silent"] wC).1 = w_out wC.
Proof. apply (main_silent_no_output pro_config ["--silent"] ["silent"] wC); [concrete | by left]. Defined.

Lemma run_script_silent_witness :
  w_out (run_script pro_config ["-s"] wE).1 = w_out wE \/
  exists e, w_out (run_script pro_config ["-s"] wE).1 = w_out wE ++ [traceback e] /\
    (run_script pro_config ["-s"] wE).2 <> 0%Z /\
    (e = permission_denied "zip" \/ w_rm_fault wE = Some e).
Proof. apply (run_script_silent pro_config ["-s"] ["silent"] wE); [concrete | by left]. Defined.

Lemma main_banner_witness :
  match main pro_config [] wC with
  | (w', Norm _) => exists l, w_out w' = w_out wC ++ opening_lines wC ++ l
                                           ++ [Stdout banner_line; Stdout "Done."]
  | (w', Exn _) => exists l, w_out w' = w_out wC ++ opening_lines wC ++ l
  end.
Proof. apply (main_banner pro_config [] [] wC); [concrete | set_solver]. Defined.

Lemma run_script_exit_zero_witness : (run_script pro_config [] wH).2 = 0%Z.
Proof.
  apply (run_script_exit_zero pro_config [] [] wH); [concrete | concrete |].
  intros e He. vm_compute in He. injection He as <-. concrete.
Defined.

Lemma execute_transfer_raises_witness :
  (is_Some (w_fs wE !! FILE_TO_TRANSFER pro_config) /\ w_bins wE !! "zip" = Some BinNoExec /\
   permission_denied "zip" = permission_denied "zip") \/
  (w_rm_fault wE = Some (permission_denied "zip") /\
   isinstance (permission_denied "zip") Exception = false).
Proof.
  apply (execute_transfer_raises pro_config true wE (execute_transfer_logic pro_config true wE).1).
  apply injective_projections; concrete.
Defined.

Lemma execute_transfer_frame_witness :
  (forall p, p <> ARCHIVE_FILENAME pro_config ->
     w_fs (execute_transfer_logic pro_config false wC).1 !! p = w_fs wC !! p) /\
  dom (w_remote wC) ⊆ dom (w_remote (execute_transfer_logic pro_config false wC).1).
Proof.
  apply (execute_transfer_frame pro_config false wC _ (execute_transfer_logic pro_config false wC).2);
    [concrete | apply surjective_pairing].
Defined.

Lemma execute_transfer_zip_not_executable_witness :
  execute_transfer_logic pro_config false wE =
  (logged (found_line pro_config) false (logged (status_line pro_config) false wE),
   Exn (permission_denied "zip")).
Proof. apply (execute_transfer_zip_not_executable pro_config false wE (Plain "payload")); concrete. Defined.

Lemma strftime_compact_inj_witness : scenario_now = mkDatetime 2024 3 5 14 7 9.
Proof. apply (strftime_compact_inj scenario_now (mkDatetime 2024 3 5 14 7 9)); concrete. Defined.

Lemma strftime_compact_shape_witness :
  exists date time, strftime "%Y%m%d_%H%M%S" scenario_now = date +:+ "_" +:+ time /\
    String.length date = 8%nat /\ String.length time = 6%nat /\
    all_digits date = true /\ all_digits time = true.
Proof. apply (strftime_compact_shape scenario_now). vm_compute. split; discriminate. Defined.

Lemma remote_target_roundtrip_witness :
  parse_scp_target (remote_target_of pro_config (remote_filename_of scenario_now))
  = Some (Some "foo", server, remote_dir +:+ remote_filename_of scenario_now) /\
  scp_dest (remote_dir +:+ remote_filename_of scenario_now) "moveme.zip"
  = remote_dir +:+ remote_filename_of scenario_now /\
  dir_prefix (remote_dir +:+ remote_filename_of scenario_now) = remote_dir.
Proof. apply (remote_target_roundtrip pro_config scenario_now). concrete. Defined.

Lemma procps_pgrep_long_name_witness : procps_pgrep ["-x"; "backup-agent-daemon"] (w_sys wF) = 1%Z.
Proof. apply (procps_pgrep_long_name "backup-agent-daemon" (w_sys wF)); concrete. Defined.

Lemma procps_pgrep_prefix_match_witness : procps_pgrep ["-x"; "backup-agent-da"] (w_sys wF) = 0%Z.
Proof.
  apply (procps_pgrep_prefix_match "backup-agent-da" "backup-agent-daemon" (w_sys wF));
    [concrete | concrete | by left].
Defined.


Lemma procps_pgrep_simple_witness : procps_pgrep ["-x"; "python3.11"] (w_sys wP) = 0%Z.
Proof. rewrite (procps_pgrep_simple "python3.11" (w_sys wP)) by concrete. reflexivity. Defined.

Lemma procps_pgrep_plus_plus_witness : procps_pgrep ["-x"; "g++"] (w_sys wP) = 0%Z.
Proof.
  apply (procps_pgrep_plus_plus "g" (w_sys wP) ltac:(concrete)).
  exists "ggg", 2%nat. split; [by right; left | reflexivity].
Defined.


Lemma execute_transfer_ships_stale_witness :
  exists w' es', execute_transfer_logic pro_config false wG = (w', Norm tt) /\
    w_fs w' !! ARCHIVE_FILENAME pro_config = None /\
    w_remote w' !! (REMOTE_HOST pro_config, REMOTE_PATH pro_config +:+ remote_filename_of (w_now wG))
      = Some (ZipArchive es') /\
    stale_entry ∈ es' /\
    ZipEntry (FILE_TO_TRANSFER pro_config) (Some (ENCRYPTION_PASSWORD pro_config)) (Plain "payload") ∈ es'.
Proof.
  apply (execute_transfer_ships_stale pro_config false wG (Plain "payload") "KEY" [stale_entry]
           stale_entry); try concrete; [apply NoDup_singleton | by left].
Defined.


Lemma run_script_refines_witness :
  w_sys (run_script pro_config [] wC).1 = (pipeline pro_config (w_sys wC)).2 /\
  (run_script pro_config [] wC).2 = outcome_status (pipeline pro_config (w_sys wC)).1.
Proof. apply (run_script_refines pro_config [] [] wC). concrete. Defined.

Lemma gate_refines_witness :
  effect (gate pro_config false wD) = spec_effect (pipeline pro_config (w_sys wD)).
Proof. apply (gate_refines pro_config false wD). Defined.






Lemma run_script_parse_error_witness :
  run_script pro_config ["-s"; "-x"] wC =
  (emit (Stderr (usage pro_parser +:+ "
" +:+ parser_prog pro_parser +:+ ": error: " +:+ "unrecognized arguments: -x")) wC, 2%Z).
Proof. apply (run_script_parse_error pro_config ["-s"; "-x"] "unrecognized arguments: -x" wC). reflexivity. Defined.

Lemma run_script_help_witness :
  run_script pro_config ["-s"; "-h"] wC = (emit (Stdout (help_text pro_parser)) wC, 0%Z).
Proof. apply (run_script_help pro_config ["-s"; "-h"] wC). concrete. Defined.

(** After scenario D's failed run and the server's fix, the next run ships
    one copy of the file. *)
Lemma retry_ships_current_witness :
  (run_script pro_config [] wD_retry).2 = 0%Z /\
  w_fs (run_script pro_config [] wD_retry).1 !! ARCHIVE_FILENAME pro_config = None /\
  exists es,
    w_remote (run_script pro_config [] wD_retry).1
      !! (REMOTE_HOST pro_config, REMOTE_PATH pro_config +:+ remote_filename_of (w_now wD_retry))
      = Some (ZipArchive es) /\
    filter (fun e => entry_name e = FILE_TO_TRANSFER pro_config) es
      = [ZipEntry (FILE_TO_TRANSFER pro_config) (Some (ENCRYPTION_PASSWORD pro_config)) (Plain "payload")].
Proof.
  apply (retry_ships_current pro_config [] [] wD_retry (Plain "payload")); [concrete | concrete
    | apply (bool_decide_unpack _); vm_compute; reflexivity | | concrete].
  repeat split; try reflexivity.
  - intros d. vm_compute. discriminate.
  - exists "KEY". split; [reflexivity | set_solver].
Defined.


Lemma run_script_sigint_witness :
  (@run_script (with_sigint linux_tools "scp") pro_config [] wC).2 = 130%Z /\
  last (w_out (@run_script (with_sigint linux_tools "scp") pro_config [] wC).1)
    = Some (traceback keyboard_interrupt) /\
  (w_fs (@run_script (with_sigint linux_tools "scp") pro_config [] wC).1 = w_fs wC \/
   exists c, w_fs wC !! FILE_TO_TRANSFER pro_config = Some c /\
     w_fs (@run_script (with_sigint linux_tools "scp") pro_config [] wC).1
     = <[ARCHIVE_FILENAME pro_config := made_archive pro_config (w_sys wC) c]> (w_fs wC)).
Proof.
  apply (run_script_sigint pro_config ltac:(reflexivity) "scp" [] [] wC); [reflexivity |].
  right; right. split; [done |].
  split; [split; [intros _; vm_compute; discriminate | split; [by eexists | reflexivity]] |].
  split; reflexivity.
Defined.

(** Ctrl-C while [scp] copies scenario C's archive: the run exits 130. *)
Lemma run_script_sigint_cuts_witness :
  (w_sys (@run_script (with_sigint linux_tools "scp") pro_config [] wC).1
   = w_sys (@run_script (without_sigint (with_sigint linux_tools "scp")) pro_config [] wC).1 /\
   (@run_script (with_sigint linux_tools "scp") pro_config [] wC).2
   = (@run_script (without_sigint (with_sigint linux_tools "scp")) pro_config [] wC).2) \/
  (@run_script (with_sigint linux_tools "scp") pro_config [] wC).2 = 130%Z.
Proof. apply (@run_script_sigint_cuts (with_sigint linux_tools "scp") pro_config [] [] wC). concrete. Defined.

(** A schedule of one run, stopped by Ctrl-C during [scp]. *)
Lemma runs_int_remote_invariant_witness :
  remote_from_int pro_config (w_remote wC)
    (w_remote (@run_script (with_sigint linux_tools "scp") pro_config [] wC).1).
Proof.
  apply (@runs_int_remote_invariant linux_tools _ _ pro_config wC); [concrete |].
  apply (runs_int_sigint _ _ "scp" []), runs_int_done.
Defined.
